(** * ddPFXSplit: the session state machine of [ddFreeSplit.py]

    The tool is a wrapper around the host application's scene API
    ([maya.cmds] and [maya.mel]).  The host is not part of the repository;
    it is modelled here by an explicit scene state: named nodes with a DAG
    path, numeric attributes, a selection, attribute connections, panels,
    option variables, UI controls and an event log.  The methods of
    [DDFreeSplitTool] are then transcribed, statement by statement, into a
    state-and-exception monad over that scene and the session object. *)

From Stdlib Require Import QArith Floats.
From stdpp Require Import gmap strings list fin_maps pretty.

Local Open Scope string_scope.
Local Open Scope list_scope.

(** ** Scene nodes *)

Inductive ntype :=
| Transform
| Mesh
| Camera
| Stroke
| NurbsCurve
| CurveVarGroup
| PolyPlane.

Definition ntype_eqb (a b : ntype) : bool :=
  match a, b with
  | Transform, Transform | Mesh, Mesh | Camera, Camera | Stroke, Stroke
  | NurbsCurve, NurbsCurve | CurveVarGroup, CurveVarGroup
  | PolyPlane, PolyPlane => true
  | _, _ => false
  end.

(** [ls -type t] also lists the node types derived from [t]; the
    curve-variation group is derived from the transform. *)
Definition kind_is (t k : ntype) : bool :=
  match t with
  | Transform => ntype_eqb k Transform || ntype_eqb k CurveVarGroup
  | _ => ntype_eqb k t
  end.

(** [exactWorldBoundingBox] returns xmin, ymin, zmin, xmax, ymax, zmax,
    six doubles. *)
Record bbox := BBox {
  bb0 : float; bb1 : float; bb2 : float; bb3 : float; bb4 : float; bb5 : float }.

Definition bbox0 : bbox := BBox 0%float 0%float 0%float 0%float 0%float 0%float.

(** A node: its name, type, the names of its ancestors (nearest first),
    its numeric attributes (booleans are 0 and 1), its world bounding box
    and whether it carries construction history. *)
Record node := Node {
  nname : string;
  nkind : ntype;
  npath : list string;
  nattrs : gmap string Q;
  nbbox : bbox;
  nhistory : bool }.

Definition set_attrs (f : gmap string Q -> gmap string Q) (n : node) : node :=
  Node (nname n) (nkind n) (npath n) (f (nattrs n)) (nbbox n) (nhistory n).

Definition set_path (p : list string) (n : node) : node :=
  Node (nname n) (nkind n) p (nattrs n) (nbbox n) (nhistory n).

Definition set_history (b : bool) (n : node) : node :=
  Node (nname n) (nkind n) (npath n) (nattrs n) (nbbox n) b.

Definition rename (x : string) (p : list string) (n : node) : node :=
  Node x (nkind n) p (nattrs n) (nbbox n) (nhistory n).

Definition named (x : string) (n : node) : bool := String.eqb (nname n) x.

Definition in_path (x : string) (n : node) : bool :=
  existsb (String.eqb x) (npath n).

(** [x] itself or one of its descendants. *)
Definition under (x : string) (n : node) : bool := named x n || in_path x n.

(** ** UI controls, panels, events *)

Inductive ctl :=
| CInt (z : Z)
| CFloat (q : Q)
| CBool (b : bool)
| CText (s : string).

Record panel := Panel {
  pname : string;
  ptype : string;
  pvisible : bool;
  pcamera : string;
  pxray : bool }.

Record proj_params := ProjParams {
  curveSamples : Z;
  tolerance : Q;
  pointsOnEdges : bool;
  automatic : bool }.

(** What the host is asked to do, newest event first. *)
Inductive event :=
| Warning (msg : string)
| ProjectCall (curve : string) (mesh : option string) (p : proj_params)
| SplitCall (sel : list string) (operation : option Z)
| ConnectCall (src dst : string * string)
| DeleteCall (x : string) (existed : bool)
| DeleteHistoryCall (x : string).

(** ** The host *)

Record host := Host {
  nodes : list node;
  selection : list string;
  conns : list ((string * string) * (string * string));
  panels : list panel;
  focus : string;
  optionVars : gmap string Z;
  orthoLock : bool;
  autoOrthoConstrain : bool;
  windows : list string;
  controls : gmap string (string * ctl);
  mel_missing : list string;
  wire_ctx : bool;
  brush : option string;
  wire_dam : bool;
  paintable : list string;
  log : list event }.

Definition with_nodes (f : list node -> list node) (h : host) : host :=
  Host (f (nodes h)) (selection h) (conns h) (panels h) (focus h)
       (optionVars h) (orthoLock h) (autoOrthoConstrain h) (windows h)
       (controls h) (mel_missing h) (wire_ctx h) (brush h) (wire_dam h)
       (paintable h) (log h).

Definition with_selection (l : list string) (h : host) : host :=
  Host (nodes h) l (conns h) (panels h) (focus h)
       (optionVars h) (orthoLock h) (autoOrthoConstrain h) (windows h)
       (controls h) (mel_missing h) (wire_ctx h) (brush h) (wire_dam h)
       (paintable h) (log h).

Definition with_conns
    (f : list ((string * string) * (string * string)) ->
         list ((string * string) * (string * string))) (h : host) : host :=
  Host (nodes h) (selection h) (f (conns h)) (panels h) (focus h)
       (optionVars h) (orthoLock h) (autoOrthoConstrain h) (windows h)
       (controls h) (mel_missing h) (wire_ctx h) (brush h) (wire_dam h)
       (paintable h) (log h).

Definition with_optionVars (f : gmap string Z -> gmap string Z) (h : host) : host :=
  Host (nodes h) (selection h) (conns h) (panels h) (focus h)
       (f (optionVars h)) (orthoLock h) (autoOrthoConstrain h) (windows h)
       (controls h) (mel_missing h) (wire_ctx h) (brush h) (wire_dam h)
       (paintable h) (log h).

Definition with_tumble (lock constrain : bool) (h : host) : host :=
  Host (nodes h) (selection h) (conns h) (panels h) (focus h)
       (optionVars h) lock constrain (windows h)
       (controls h) (mel_missing h) (wire_ctx h) (brush h) (wire_dam h)
       (paintable h) (log h).

Definition with_ui (w : list string) (c : gmap string (string * ctl)) (h : host) : host :=
  Host (nodes h) (selection h) (conns h) (panels h) (focus h)
       (optionVars h) (orthoLock h) (autoOrthoConstrain h) w
       c (mel_missing h) (wire_ctx h) (brush h) (wire_dam h)
       (paintable h) (log h).

Definition with_paint (b : option string) (d : bool) (p : list string) (h : host) : host :=
  Host (nodes h) (selection h) (conns h) (panels h) (focus h)
       (optionVars h) (orthoLock h) (autoOrthoConstrain h) (windows h)
       (controls h) (mel_missing h) (wire_ctx h) b d p (log h).

Definition with_panels (f : list panel -> list panel) (h : host) : host :=
  Host (nodes h) (selection h) (conns h) (f (panels h)) (focus h)
       (optionVars h) (orthoLock h) (autoOrthoConstrain h) (windows h)
       (controls h) (mel_missing h) (wire_ctx h) (brush h) (wire_dam h)
       (paintable h) (log h).

Definition with_log (f : list event -> list event) (h : host) : host :=
  Host (nodes h) (selection h) (conns h) (panels h) (focus h)
       (optionVars h) (orthoLock h) (autoOrthoConstrain h) (windows h)
       (controls h) (mel_missing h) (wire_ctx h) (brush h) (wire_dam h)
       (paintable h) (f (log h)).

Definition exists_node (x : string) (h : host) : bool :=
  existsb (named x) (nodes h).

Definition lookup_node (x : string) (h : host) : option node :=
  find (named x) (nodes h).

Definition names_of_kind (t : ntype) (h : host) : list string :=
  map nname (List.filter (fun n => kind_is t (nkind n)) (nodes h)).

(** The host never gives two nodes one name: a taken name gets the first
    free numeric suffix. *)
Fixpoint first_free (used : list string) (base : string) (k fuel : nat) : string :=
  match fuel with
  | O => base +:+ pretty k
  | S fuel' =>
      if existsb (String.eqb (base +:+ pretty k)) used
      then first_free used base (S k) fuel'
      else base +:+ pretty k
  end.

Definition unique_name (h : host) (base : string) : string :=
  let used := map nname (nodes h) in
  if existsb (String.eqb base) used
  then first_free used base 1 (S (length used))
  else base.

(** ** The session object *)

Record camera_state := CameraState {
  cs_camera : string;
  cs_camera_shape : string;
  cs_orthographic : Q;
  cs_orthographicWidth : Q }.

Record session := Session {
  target_geo : option string;
  duplicated_geo : option string;
  temp_plane : option string;
  projection_curve : option string;
  projection_curves : list string;
  pfx_stroke : option string;
  original_camera_state : option camera_state;
  gui_window : option string }.

(** [__init__] *)
Definition init : session :=
  Session None None None None [] None None None.

Definition tool_name : string := "ddPFXSplit".

(** Truth value of a name-or-[None]: [None] and the empty string are false. *)
Definition truthy (o : option string) : bool :=
  match o with
  | Some x => negb (String.eqb x EmptyString)
  | None => false
  end.

(** ** The monad: the host and the session are mutated in place, and an
    exception leaves the mutations done so far. *)

Record state := State { hst : host; self : session }.

Inductive res (A : Type) :=
| Val (a : A)
| Exc (msg : string).
Arguments Val {A} a.
Arguments Exc {A} msg.

Definition M (A : Type) : Type := state -> res A * state.

Definition ret {A} (a : A) : M A := fun st => (Val a, st).

Definition bind {A B} (m : M A) (k : A -> M B) : M B :=
  fun st =>
    match m st with
    | (Val a, st') => k a st'
    | (Exc e, st') => (Exc e, st')
    end.

Definition raise {A} (e : string) : M A := fun st => (Exc e, st).

(** [try: m except Exception as e: handler e] *)
Definition try_catch {A} (m : M A) (handler : string -> M A) : M A :=
  fun st =>
    match m st with
    | (Val a, st') => (Val a, st')
    | (Exc e, st') => handler e st'
    end.

Notation "'let*' x ':=' m 'in' k" := (bind m (fun x => k))
  (at level 10, x name, m at level 100, k at level 200).
Notation "'do*' m 'in' k" := (bind m (fun _ => k))
  (at level 10, m at level 100, k at level 200).

Definition gets {A} (f : state -> A) : M A := fun st => (Val (f st), st).

Definition on_host (f : host -> host) : M unit :=
  fun st => (Val tt, State (f (hst st)) (self st)).

Definition on_self (f : session -> session) : M unit :=
  fun st => (Val tt, State (hst st) (f (self st))).

(** [if c: m] *)
Definition when (c : bool) (m : M unit) : M unit := if c then m else ret tt.

(** [for a in l: f a] *)
Fixpoint for_each {A} (l : list A) (f : A -> M unit) : M unit :=
  match l with
  | [] => ret tt
  | a :: l' => do* f a in for_each l' f
  end.

(** [enumerate(l)], counting from [i]. *)
Fixpoint enumerate_from {A} (i : nat) (l : list A) : list (nat * A) :=
  match l with
  | [] => []
  | a :: l' => (i, a) :: enumerate_from (S i) l'
  end.

(** [l[0]] *)
Definition first {A} (l : list A) : M A :=
  match l with
  | a :: _ => ret a
  | [] => raise "TypeError: object is not subscriptable"
  end.

(** [[a for a in l if f a]] *)
Fixpoint filter_m {A} (f : A -> M bool) (l : list A) : M (list A) :=
  match l with
  | [] => ret []
  | a :: l' =>
      let* keep := f a in
      let* rest := filter_m f l' in
      ret (if keep then a :: rest else rest)
  end.

(** A loop that updates a local variable [b]. *)
Fixpoint fold_m {A B} (f : B -> A -> M B) (l : list A) (b : B) : M B :=
  match l with
  | [] => ret b
  | a :: l' => let* b' := f b a in fold_m f l' b'
  end.

(** [a and m]: [m] is evaluated only when [a] holds. *)
Definition and_m (a : bool) (m : M bool) : M bool := if a then m else ret false.

(** [try: l = s1(l); l = s2(l); ... except: pass] on a local [l]: the
    assignments done before the first exception are kept. *)
Fixpoint try_assign {L} (steps : list (L -> M L)) (l : L) : M L :=
  match steps with
  | [] => ret l
  | f :: fs =>
      fun st =>
        match f l st with
        | (Val l', st') => try_assign fs l' st'
        | (Exc _, st') => (Val l, st')
        end
  end.

(** Assignments to the fields of [self]. *)
Definition set_target_geo (v : option string) (s : session) : session :=
  Session v (duplicated_geo s) (temp_plane s) (projection_curve s)
          (projection_curves s) (pfx_stroke s) (original_camera_state s)
          (gui_window s).

Definition set_duplicated_geo (v : option string) (s : session) : session :=
  Session (target_geo s) v (temp_plane s) (projection_curve s)
          (projection_curves s) (pfx_stroke s) (original_camera_state s)
          (gui_window s).

Definition set_temp_plane (v : option string) (s : session) : session :=
  Session (target_geo s) (duplicated_geo s) v (projection_curve s)
          (projection_curves s) (pfx_stroke s) (original_camera_state s)
          (gui_window s).

Definition set_projection_curve (v : option string) (s : session) : session :=
  Session (target_geo s) (duplicated_geo s) (temp_plane s) v
          (projection_curves s) (pfx_stroke s) (original_camera_state s)
          (gui_window s).

Definition set_projection_curves (v : list string) (s : session) : session :=
  Session (target_geo s) (duplicated_geo s) (temp_plane s) (projection_curve s)
          v (pfx_stroke s) (original_camera_state s) (gui_window s).

Definition set_original_camera_state (v : option camera_state) (s : session) : session :=
  Session (target_geo s) (duplicated_geo s) (temp_plane s) (projection_curve s)
          (projection_curves s) (pfx_stroke s) v (gui_window s).

Definition set_gui_window (v : option string) (s : session) : session :=
  Session (target_geo s) (duplicated_geo s) (temp_plane s) (projection_curve s)
          (projection_curves s) (pfx_stroke s) (original_camera_state s) v.

(** ** Host commands

    A plug [node.attr] is the pair of the node and the attribute name. *)

Definition no_object (x : string) : string := "No object matches name: " +:+ x.

Definition warning (msg : string) : M unit :=
  on_host (with_log (cons (Warning msg))).

Definition objExists (x : string) : M bool :=
  gets (fun st => exists_node x (hst st)).

(** A command given the name of a node that is not in the scene raises. *)
Definition need (x : string) : M unit :=
  fun st =>
    if exists_node x (hst st) then (Val tt, st) else (Exc (no_object x), st).

Definition ls_type (t : ntype) : M (list string) :=
  gets (fun st => names_of_kind t (hst st)).

Definition selected_of_kind (t : ntype) (h : host) : list string :=
  List.filter
    (fun x => match lookup_node x h with
              | Some n => kind_is t (nkind n)
              | None => false
              end)
    (selection h).

Definition ls_selection (t : ntype) : M (list string) :=
  gets (fun st => selected_of_kind t (hst st)).

Definition add_node (n : node) (h : host) : host :=
  with_nodes (fun l => l ++ [n]) h.

Definition child_of (x : string) (n : node) : bool :=
  match npath n with
  | p :: _ => String.eqb p x
  | [] => false
  end.

(** The copies of the children of a duplicated node, under the copy [d]. *)
Fixpoint add_copies (d : string) (p : list string) (kids : list node) (h : host) : host :=
  match kids with
  | [] => h
  | c :: kids' =>
      add_copies d p kids' (add_node (rename (unique_name h (nname c)) (d :: p) c) h)
  end.

Definition duplicate (x newname : string) : M (list string) :=
  fun st =>
    let h := hst st in
    match lookup_node x h with
    | None => (Exc (no_object x), st)
    | Some n =>
        let d := unique_name h newname in
        let h1 := add_node (rename d (npath n) n) h in
        (Val [d],
         State (add_copies d (npath n) (List.filter (child_of x) (nodes h)) h1)
               (self st))
    end.

Definition set_attr (x a : string) (v : Q) (h : host) : host :=
  with_nodes (map (fun n => if named x n then set_attrs (<[a:=v]>) n else n)) h.

Definition setAttr (x a : string) (v : Q) : M unit :=
  do* need x in on_host (set_attr x a v).

Definition getAttr (x a : string) : M Q :=
  fun st =>
    match lookup_node x (hst st) with
    | Some n =>
        match nattrs n !! a with
        | Some v => (Val v, st)
        | None => (Exc ("No attribute: " +:+ x +:+ "." +:+ a), st)
        end
    | None => (Exc (no_object x), st)
    end.

Definition hide (x : string) : M unit := setAttr x "visibility" 0.

Definition showHidden (x : string) : M unit := setAttr x "visibility" 1.

Definition find_panel (p : string) (h : host) : option panel :=
  find (fun q => String.eqb (pname q) p) (panels h).

Definition getPanel_withFocus : M string := gets (fun st => focus (hst st)).

Definition getPanel_typeOf (p : string) : M string :=
  fun st =>
    match find_panel p (hst st) with
    | Some q => (Val (ptype q), st)
    | None => (Exc ("No panel: " +:+ p), st)
    end.

Definition getPanel_visiblePanels : M (list string) :=
  gets (fun st => map pname (List.filter pvisible (panels (hst st)))).

Definition modelPanel_camera (p : option string) : M string :=
  fun st =>
    match p with
    | None => (Exc "modelPanel: no panel", st)
    | Some p =>
        match find_panel p (hst st) with
        | Some q =>
            if String.eqb (ptype q) "modelPanel" then (Val (pcamera q), st)
            else (Exc ("Not a modelPanel: " +:+ p), st)
        | None => (Exc ("No panel: " +:+ p), st)
        end
    end.

Definition modelEditor_xray (p : string) : M bool :=
  fun st =>
    match find_panel p (hst st) with
    | Some q => (Val (pxray q), st)
    | None => (Exc ("No panel: " +:+ p), st)
    end.

Definition modelEditor_set_xray (p : string) (b : bool) : M unit :=
  fun st =>
    match find_panel p (hst st) with
    | Some _ =>
        (Val tt,
         State (with_panels
                  (map (fun q => if String.eqb (pname q) p
                                 then Panel (pname q) (ptype q) (pvisible q) (pcamera q) b
                                 else q))
                  (hst st))
               (self st))
    | None => (Exc ("No panel: " +:+ p), st)
    end.

Definition shapes_of (x : string) (h : host) : list string :=
  map nname
    (List.filter (fun n => child_of x n && negb (kind_is Transform (nkind n)))
                 (nodes h)).

(** [listRelatives] gives [None] when there is nothing to list; both
    [None] and the empty list are false and cannot be indexed. *)
Definition listRelatives_shapes (x : string) : M (list string) :=
  do* need x in gets (fun st => shapes_of x (hst st)).

Definition listRelatives_parent (x : string) : M (list string) :=
  fun st =>
    match lookup_node x (hst st) with
    | Some n => (Val (match npath n with p :: _ => [p] | [] => [] end), st)
    | None => (Exc (no_object x), st)
    end.

Definition exactWorldBoundingBox (x : string) : M bbox :=
  fun st =>
    match lookup_node x (hst st) with
    | Some n => (Val (nbbox n), st)
    | None => (Exc (no_object x), st)
    end.

Definition tumbleCtx_orthoLock (b : bool) : M unit :=
  on_host (fun h => with_tumble b (autoOrthoConstrain h) h).

Definition tumbleCtx_autoOrthoConstrain (b : bool) : M unit :=
  on_host (fun h => with_tumble (orthoLock h) b h).

(** [polyPlane] with construction history: the transform, its shape and
    the creation node, which holds the width and the height. *)
Definition polyPlane (w hgt : Q) (name : string) : M (list string) :=
  fun st =>
    let h := hst st in
    let t := unique_name h name in
    let h1 := add_node (Node t Transform [] ∅ bbox0 true) h in
    let s := unique_name h1 (t +:+ "Shape") in
    let h2 := add_node (Node s Mesh [t] ∅ bbox0 true) h1 in
    let c := unique_name h2 "polyPlane1" in
    let h3 :=
      add_node (Node c PolyPlane [] (<["width":=w]> (<["height":=hgt]> ∅)) bbox0 false) h2 in
    (Val [t; c],
     State (with_conns (cons ((c, "output"), (s, "inMesh"))) h3) (self st)).

Definition plug_eqb (a b : string * string) : bool :=
  String.eqb (fst a) (fst b) && String.eqb (snd a) (snd b).

(** [connectAttr src dst force=True]: an earlier connection into [dst] is
    replaced. *)
Definition connectAttr (src dst : string * string) : M unit :=
  do* on_host (with_log (cons (ConnectCall src dst))) in
  do* need (fst src) in
  do* need (fst dst) in
  on_host (with_conns
             (fun l => (src, dst) :: List.filter (fun c => negb (plug_eqb (snd c) dst)) l)).

Fixpoint upto (x : string) (l : list string) : list string :=
  match l with
  | [] => []
  | y :: l' => if String.eqb y x then [y] else y :: upto x l'
  end.

Definition reparent (child : string) (newpath : list string) (n : node) : node :=
  if named child n then set_path newpath n
  else if in_path child n then set_path (upto child (npath n) ++ newpath) n
  else n.

Definition parent (child newparent : string) : M unit :=
  fun st =>
    let h := hst st in
    match lookup_node newparent h with
    | None => (Exc (no_object newparent), st)
    | Some p =>
        if exists_node child h
        then (Val tt,
              State (with_nodes (map (reparent child (newparent :: npath p))) h)
                    (self st))
        else (Exc (no_object child), st)
    end.

(** [mel.eval cmd]: raises when the script or procedure is not there. *)
Definition mel_eval (cmd : string) (effect : host -> host) : M unit :=
  fun st =>
    if existsb (String.eqb cmd) (mel_missing (hst st))
    then (Exc ("MEL error: " +:+ cmd), st)
    else (Val tt, State (effect (hst st)) (self st)).

Definition mel_source (cmd : string) : M unit :=
  mel_eval cmd (fun h => with_paint (Some cmd) (wire_dam h) (paintable h) h).

Definition mel_MakePaintable : M unit :=
  mel_eval "MakePaintable"
           (fun h => with_paint (brush h) (wire_dam h) (selection h ++ paintable h) h).

Definition dynWireCtx_dam (b : bool) : M unit :=
  fun st =>
    let h := hst st in
    if wire_ctx h
    then (Val tt, State (with_paint (brush h) b (paintable h) h) (self st))
    else (Exc "dynWireCtx1 not found", st).

Definition select (x : string) : M unit :=
  do* need x in on_host (with_selection [x]).

Definition select_replace (l : list string) : M unit :=
  do* for_each l need in on_host (with_selection l).

Definition select_add (o : option string) : M unit :=
  match o with
  | None => raise "select: Object None is invalid"
  | Some x => do* need x in on_host (fun h => with_selection (selection h ++ [x]) h)
  end.


(** [circle], without construction history: a transform and its shape. *)
Definition circle (name : string) : M (list string) :=
  fun st =>
    let h := hst st in
    let t := unique_name h name in
    let h1 := add_node (Node t Transform [] ∅ bbox0 false) h in
    let s := unique_name h1 (t +:+ "Shape") in
    (Val [t], State (add_node (Node s NurbsCurve [t] ∅ bbox0 false) h1) (self st)).

(** [polyProjectCurve curve mesh]: the result is the projected curve and
    its curve-variation group. *)
Definition polyProjectCurve (curve : string) (mesh : option string) (p : proj_params)
    : M (list string) :=
  do* on_host (with_log (cons (ProjectCall curve mesh p))) in
  do* need curve in
  match mesh with
  | None => raise "polyProjectCurve: Object None is invalid"
  | Some m =>
      do* need m in
      fun st =>
        let h := hst st in
        let g := unique_name h "polyProjectionCurve1" in
        let h1 := add_node (Node g CurveVarGroup [] ∅ bbox0 true) h in
        let c := unique_name h1 (g +:+ "_1") in
        (Val [c; g], State (add_node (Node c NurbsCurve [g] ∅ bbox0 true) h1) (self st))
  end.

Definition optionVar_int (name : string) (v : Z) : M unit :=
  on_host (with_optionVars (<[name:=v]>)).

(** The split leaves construction history on the selected geometry. *)
Definition split_effect (h : host) : host :=
  with_nodes
    (map (fun n =>
            if existsb (String.eqb (nname n)) (selection h)
               && negb (ntype_eqb (nkind n) CurveVarGroup)
            then set_history true n else n))
    h.

Definition performSplitMeshWithProjectedCurve : M unit :=
  do* on_host (fun h =>
                 with_log (cons (SplitCall (selection h)
                                           (optionVars h !! "splitPolyWithCurveOperation")))
                          h) in
  mel_eval "performSplitMeshWithProjectedCurve 0" split_effect.

(** [delete x] removes [x] with its descendants, the creation nodes that
    feed them, and what referred to the removed nodes. *)
Definition feeds_removed (x : string) (h : host) (n : node) : bool :=
  ntype_eqb (nkind n) PolyPlane
  && existsb
       (fun c => String.eqb (fst (fst c)) (nname n)
                 && existsb (fun d => under x d && String.eqb (nname d) (fst (snd c)))
                            (nodes h))
       (conns h).

Definition removed (x : string) (h : host) (n : node) : bool :=
  under x n || feeds_removed x h n.

Definition remove_subtree (x : string) (h : host) : host :=
  let h1 := with_nodes (List.filter (fun n => negb (removed x h n))) h in
  with_conns
    (List.filter (fun c => exists_node (fst (fst c)) h1 && exists_node (fst (snd c)) h1))
    (with_selection (List.filter (fun s => exists_node s h1) (selection h1)) h1).

Definition delete (x : string) : M unit :=
  let* e := objExists x in
  do* on_host (with_log (cons (DeleteCall x e))) in
  if e then on_host (remove_subtree x) else raise (no_object x).

(** [delete x constructionHistory=True] *)
Definition delete_history (x : string) : M unit :=
  do* on_host (with_log (cons (DeleteHistoryCall x))) in
  do* need x in
  on_host (with_nodes (map (fun n => if named x n then set_history false n else n))).

Definition window_exists (w : string) : M bool :=
  gets (fun st => existsb (String.eqb w) (windows (hst st))).

(** [deleteUI w] closes the window with its controls. *)
Definition deleteUI (w : string) : M unit :=
  fun st =>
    let h := hst st in
    if existsb (String.eqb w) (windows h)
    then (Val tt,
          State (with_ui (List.filter (fun v => negb (String.eqb v w)) (windows h))
                         (filter (fun kv => fst (snd kv) ≠ w) (controls h)) h)
                (self st))
    else (Exc ("Object not found: " +:+ w), st).

Definition window (w : string) : M string :=
  fun st =>
    let h := hst st in
    (Val w, State (with_ui (w :: windows h) (controls h) h) (self st)).

Definition control (w name : string) (c : ctl) : M unit :=
  on_host (fun h => with_ui (windows h) (<[name:=(w, c)]> (controls h)) h).

Definition query (name : string) : M ctl :=
  fun st =>
    match controls (hst st) !! name with
    | Some (_, c) => (Val c, st)
    | None => (Exc ("Object not found: " +:+ name), st)
    end.

Definition intField_query (name : string) : M Z :=
  let* c := query name in
  match c with CInt z => ret z | _ => raise ("Not an intField: " +:+ name) end.

Definition floatField_query (name : string) : M Q :=
  let* c := query name in
  match c with CFloat q => ret q | _ => raise ("Not a floatField: " +:+ name) end.

Definition checkBox_query (name : string) : M bool :=
  let* c := query name in
  match c with CBool b => ret b | _ => raise ("Not a checkBox: " +:+ name) end.

Definition text_edit (name label : string) : M unit :=
  fun st =>
    let h := hst st in
    match controls h !! name with
    | Some (w, CText _) =>
        (Val tt,
         State (with_ui (windows h) (<[name:=(w, CText label)]> (controls h)) h) (self st))
    | _ => (Exc ("Object not found: " +:+ name), st)
    end.

(** ** The methods of [DDFreeSplitTool] *)

Definition window_name : string := tool_name +:+ "_window".

(** [create_ui]: the window and the controls that are queried later; the
    layouts, the labels and the buttons hold no state. *)
Definition create_ui : M unit :=
  let* ex := window_exists window_name in
  do* when ex (deleteUI window_name) in
  let* w := window window_name in
  do* on_self (set_gui_window (Some w)) in
  do* control w "status_text" (CText "Status: No geometry selected") in
  do* control w "curveSamples" (CInt 50) in
  do* control w "projTolerance" (CFloat (1 # 1000)) in
  do* control w "pointsOnEdges" (CBool false) in
  do* control w "automatic" (CBool true) in
  do* control w "keepHistory" (CBool false) in
  control w "detachEdges" (CBool true).

Definition setup_geometry : M unit :=
  let* selection := ls_selection Transform in
  match selection with
  | [] => warning "Please select a geometry object first!"
  | sel0 :: _ =>
      do* on_self (set_target_geo (Some sel0)) in
      let* dup := duplicate sel0 (sel0 +:+ "_split") in
      let* d := first dup in
      do* on_self (set_duplicated_geo (Some d)) in
      do* hide sel0 in
      try_catch
        (text_edit "status_text" ("Status: " +:+ sel0 +:+ " ready for splitting"))
        (fun _ => ret tt)
  end.

(** [max(a, b, c)] on doubles: the running maximum is replaced by an item
    that compares greater, and a comparison with a NaN is false. *)
Definition max3 (a b c : float) : float :=
  let m := if PrimFloat.ltb a b then b else a in
  if PrimFloat.ltb m c then c else m.

(** [max(bbox[3] - bbox[0], bbox[4] - bbox[1], bbox[5] - bbox[2]) * 1.5],
    in double precision: each difference and the product are rounded. *)
Definition bbox_width (b : bbox) : float :=
  PrimFloat.mul
    (max3 (PrimFloat.sub (bb3 b) (bb0 b))
          (PrimFloat.sub (bb4 b) (bb1 b))
          (PrimFloat.sub (bb5 b) (bb2 b)))
    1.5%float.

(** The rational a finite double stands for. *)
Definition Q_of_float (x : float) : option Q :=
  match Prim2SF x with
  | S754_zero _ => Some 0%Q
  | S754_finite s m e =>
      let z := if s then Z.neg m else Z.pos m in
      Some (Qred (if (0 <=? e)%Z then inject_Z (z * 2 ^ e)
                  else Qmake z (Z.to_pos (2 ^ (- e)))))
  | S754_infinity _ => None
  | S754_nan => None
  end.

(** The scene keeps the value of an attribute as a rational: a finite
    double is kept as the rational it stands for.  What the host does with
    an infinity or a NaN is not known; [stored] is 0 there, and what is
    proved of the width is proved for finite values. *)
Definition stored (x : float) : Q :=
  match Q_of_float x with
  | Some q => q
  | None => 0%Q
  end.

(** The panel whose camera is used: the focused panel when it is a model
    panel, else the first visible model panel, else [None]. *)
Definition current_model_panel : M (option string) :=
  let* focused := getPanel_withFocus in
  let* is_model :=
    and_m (negb (String.eqb focused EmptyString))
          (let* t := getPanel_typeOf focused in ret (String.eqb t "modelPanel")) in
  if is_model then ret (Some focused)
  else
    let* visible := getPanel_visiblePanels in
    let* panels :=
      filter_m (fun p => let* t := getPanel_typeOf p in ret (String.eqb t "modelPanel"))
               visible in
    ret (match panels with p :: _ => Some p | [] => None end).

Definition setup_orthographic_camera : M unit :=
  let* current_panel := current_model_panel in
  let* camera := modelPanel_camera current_panel in
  let* shapes := listRelatives_shapes camera in
  let* camera_shape := first shapes in
  let* ortho := getAttr camera_shape "orthographic" in
  let* ortho_width := getAttr camera_shape "orthographicWidth" in
  do* on_self (set_original_camera_state
                 (Some (CameraState camera camera_shape ortho ortho_width))) in
  let* target := gets (fun st => target_geo (self st)) in
  let* bbox :=
    match target with
    | Some t => exactWorldBoundingBox t
    | None => raise "exactWorldBoundingBox: Object None is invalid"
    end in
  let width := bbox_width bbox in
  do* setAttr camera_shape "orthographic" 1 in
  do* setAttr camera_shape "orthographicWidth" (stored width) in
  do* tumbleCtx_orthoLock false in
  tumbleCtx_autoOrthoConstrain false.

Definition create_temporary_plane : M unit :=
  let* ocs := gets (fun st => original_camera_state (self st)) in
  match ocs with
  | None => raise "KeyError: camera"
  | Some cs =>
      let camera := cs_camera cs in
      let camera_shape := cs_camera_shape cs in
      let* ortho_width := getAttr camera_shape "orthographicWidth" in
      let* plane_result := polyPlane ortho_width ortho_width "ddSplit_tempPlane" in
      match plane_result with
      | plane :: plane_creation_node :: _ =>
          do* on_self (set_temp_plane (Some plane)) in
          do* connectAttr (camera_shape, "orthographicWidth")
                          (plane_creation_node, "width") in
          do* connectAttr (camera_shape, "orthographicWidth")
                          (plane_creation_node, "height") in
          do* parent plane camera in
          do* setAttr plane "translateX" 0 in
          do* setAttr plane "translateY" 0 in
          do* setAttr plane "translateZ" (-100) in
          do* setAttr plane "rotateX" 90 in
          do* setAttr plane "rotateY" 0 in
          do* setAttr plane "rotateZ" 0 in
          do* setAttr plane "overrideEnabled" 1 in
          do* setAttr plane "overrideDisplayType" 2 in
          setAttr plane "visibility" 0
      | _ => raise "IndexError: list index out of range"
      end
  end.

Definition dq : string := String (Ascii.ascii_of_nat 34) EmptyString.

Definition preset_2026 : string :=
  "source " +:+ dq
  +:+ "C:/Program Files/Autodesk/Maya2026/Examples/Paint_Effects/Airbrush/defaultPaint.mel"
  +:+ dq.

Definition preset_2022 : string :=
  "source " +:+ dq
  +:+ "C:/Program Files/Autodesk/Maya2022/Examples/Paint_Effects/Airbrush/defaultPaint.mel"
  +:+ dq.

Definition preset_env : string :=
  "source `getenv(" +:+ dq +:+ "MAYA_LOCATION" +:+ dq +:+ ")` + " +:+ dq
  +:+ "/Examples/Paint_Effects/Airbrush/defaultPaint.mel" +:+ dq.

Definition pass : string -> M unit := fun _ => ret tt.

Definition activate_paint_effects : M unit :=
  do* try_catch (mel_source preset_2026)
        (fun _ => try_catch (mel_source preset_2022)
                    (fun _ => try_catch (mel_source preset_env) pass)) in
  do* try_catch (dynWireCtx_dam false) pass in
  let* plane := gets (fun st => temp_plane (self st)) in
  match plane with
  | Some p =>
      when (truthy plane)
           (do* select p in try_catch mel_MakePaintable pass)
  | None => ret tt
  end.

Definition activate_paint_tool : M unit :=
  let* target := gets (fun st => target_geo (self st)) in
  if negb (truthy target) then warning "Please setup geometry first!"
  else
    do* setup_orthographic_camera in
    do* create_temporary_plane in
    activate_paint_effects.

Definition toggle_xray : M unit :=
  let* current_panel := getPanel_withFocus in
  let* t := getPanel_typeOf current_panel in
  when (String.eqb t "modelPanel")
       (let* current_state := modelEditor_xray current_panel in
        modelEditor_set_xray current_panel (negb current_state)).



(** ["{:02d}".format(n)] *)
Definition pad2 (n : nat) : string :=
  if Nat.ltb n 10 then "0" +:+ pretty n else pretty n.

(** The body of the loop over the strokes. *)
Definition convert_stroke (ix : nat * string) : M unit :=
  let i := fst ix in
  let stroke_shape := snd ix in
  let* valid := and_m (negb (String.eqb stroke_shape EmptyString)) (objExists stroke_shape) in
  if negb valid
  then warning ("Paint Effects stroke " +:+ pretty (i + 1) +:+ " is invalid - skipping!")
  else
    let* stroke_transforms := listRelatives_parent stroke_shape in
    let pfx_stroke := hd stroke_shape stroke_transforms in
    let* circle_result := circle ("projCurve_" +:+ pad2 (i + 1)) in
    let* projection_curve := first circle_result in
    let* shapes := listRelatives_shapes projection_curve in
    let* circle_shape := first shapes in
    do* on_self (fun s => set_projection_curves (projection_curves s ++ [projection_curve]) s) in
    connectAttr (stroke_shape, "outMainCurves[0]") (circle_shape, "create").

Definition default_params : proj_params := ProjParams 50 (1 # 1000) false true.

Definition read_settings : M proj_params :=
  try_assign
    [ (fun p => let* v := intField_query "curveSamples" in
                ret (ProjParams v (tolerance p) (pointsOnEdges p) (automatic p)));
      (fun p => let* v := floatField_query "projTolerance" in
                ret (ProjParams (curveSamples p) v (pointsOnEdges p) (automatic p)));
      (fun p => let* v := checkBox_query "pointsOnEdges" in
                ret (ProjParams (curveSamples p) (tolerance p) v (automatic p)));
      (fun p => let* v := checkBox_query "automatic" in
                ret (ProjParams (curveSamples p) (tolerance p) (pointsOnEdges p) v)) ]
    default_params.

(** The body of the loop over the reference curves; [groups] is the local
    list of the curve-variation groups. *)
Definition project_curve (p : proj_params) (groups : list string) (curve : string)
    : M (list string) :=
  let* dup := gets (fun st => duplicated_geo (self st)) in
  let* result := polyProjectCurve curve dup p in
  match result with
  | [] => ret groups
  | [_] => raise "IndexError: list index out of range"
  | _ :: g :: _ => ret (groups ++ [g])
  end.

Definition convert_and_project : M unit :=
  let* strokes := ls_type Stroke in
  match strokes with
  | [] => warning "No Paint Effects stroke found!"
  | _ =>
      do* on_self (set_projection_curves []) in
      do* for_each (enumerate_from 0 strokes) convert_stroke in
      let* curves := gets (fun st => projection_curves (self st)) in
      do* when (match curves with [] => false | _ => true end)
               (on_self (set_projection_curve (head curves))) in
      match curves with
      | [] => warning "No valid projection curves created!"
      | _ =>
          try_catch
            (let* p := read_settings in
             let* curves := gets (fun st => projection_curves (self st)) in
             let* projected_curve_groups := fold_m (project_curve p) curves [] in
             ret tt)
            (fun e => warning ("Projection failed: " +:+ e))
      end
  end.

Definition execute_split : M unit :=
  let* curve_groups := ls_type CurveVarGroup in
  match curve_groups with
  | [] => warning "No projected curve found!"
  | _ =>
      let* detach_edges := try_assign [fun _ => checkBox_query "detachEdges"] true in
      try_catch
        (let operation_value := if detach_edges then 2%Z else 1%Z in
         do* optionVar_int "splitPolyWithCurveOperation" operation_value in
         do* select_replace curve_groups in
         let* dup := gets (fun st => duplicated_geo (self st)) in
         do* select_add dup in
         performSplitMeshWithProjectedCurve)
        (fun e => warning ("Split failed: " +:+ e))
  end.

Definition restore_camera_state : M unit :=
  let* ocs := gets (fun st => original_camera_state (self st)) in
  match ocs with
  | None => ret tt
  | Some cs =>
      let camera_shape := cs_camera_shape cs in
      let* ex := and_m (negb (String.eqb camera_shape EmptyString)) (objExists camera_shape) in
      do* when ex
            (do* setAttr camera_shape "orthographic" (cs_orthographic cs) in
             setAttr camera_shape "orthographicWidth" (cs_orthographicWidth cs)) in
      do* tumbleCtx_orthoLock true in
      tumbleCtx_autoOrthoConstrain true
  end.

(** [s.endswith(suffix)] *)
Definition ends_with (suffix s : string) : bool :=
  let n := String.length s in
  let k := String.length suffix in
  Nat.leb k n && String.eqb (String.substring (n - k) k s) suffix.

(** [if cmds.objExists(x): cmds.delete(x)] *)
Definition guarded_delete (x : string) : M unit :=
  let* ex := objExists x in when ex (delete x).

(** [if self.f and cmds.objExists(self.f): act(self.f)] *)
Definition when_exists (o : option string) (act : string -> M unit) : M unit :=
  match o with
  | Some x => let* ex := and_m (truthy o) (objExists x) in when ex (act x)
  | None => ret tt
  end.

(** [if self.gui_window and cmds.window(self.gui_window, exists=True):
    cmds.deleteUI(self.gui_window)] *)
Definition close_gui : M unit :=
  let* w := gets (fun st => gui_window (self st)) in
  match w with
  | Some x => let* ex := and_m (truthy w) (window_exists x) in when ex (deleteUI x)
  | None => ret tt
  end.

Definition stroke_parents (acc : list string) (pfx_shape : string) : M (list string) :=
  let* ex := objExists pfx_shape in
  if ex
  then let* pfx_parents := listRelatives_parent pfx_shape in ret (acc ++ pfx_parents)
  else ret acc.

Definition tracked_curves : M (list string) :=
  let* s := gets self in
  match projection_curves s with
  | _ :: _ => filter_m objExists (projection_curves s)
  | [] =>
      match projection_curve s with
      | Some c =>
          let* ex := and_m (truthy (projection_curve s)) (objExists c) in
          ret (if ex then [c] else [])
      | None => ret []
      end
  end.

Definition finish_and_cleanup : M unit :=
  do* restore_camera_state in
  let* keep_projected_curves := try_assign [fun _ => checkBox_query "keepHistory"] false in
  let* transforms := ls_type Transform in
  let split_groups := List.filter (ends_with "_split") transforms in
  let* pfx_objects := ls_type Stroke in
  let* pfx_transforms := fold_m stroke_parents pfx_objects [] in
  let* projection_curves := tracked_curves in
  let* projection_curve_groups := ls_type CurveVarGroup in
  let* dup := gets (fun st => duplicated_geo (self st)) in
  do* when_exists dup delete_history in
  do* for_each split_groups guarded_delete in
  do* for_each pfx_objects guarded_delete in
  do* for_each pfx_transforms guarded_delete in
  do* for_each projection_curves guarded_delete in
  do* (if keep_projected_curves then ret tt
       else for_each projection_curve_groups guarded_delete) in
  let* plane := gets (fun st => temp_plane (self st)) in
  do* when_exists plane delete in
  close_gui.

Definition cancel_operation : M unit :=
  do* restore_camera_state in
  let* dup := gets (fun st => duplicated_geo (self st)) in
  do* when_exists dup delete in
  let* plane := gets (fun st => temp_plane (self st)) in
  do* when_exists plane delete in
  let* target := gets (fun st => target_geo (self st)) in
  do* when_exists target showHidden in
  close_gui.

(** [show_tool]: a new session on the host [h], with its window. *)
Definition show_tool (h : host) : res unit * state := create_ui (State h init).

(** ** Running a method, and example scenes *)

(** The state a method leaves, and what it returns or raises. *)
Definition run {A} (m : M A) (st : state) : state := snd (m st).

Definition outcome {A} (m : M A) (st : state) : res A := fst (m st).

(** Something done in the scene by the user, between two methods. *)
Definition user (f : host -> host) (st : state) : state :=
  State (f (hst st)) (self st).

Definition vis1 : gmap string Q := <["visibility":=1%Q]> ∅.

Definition cube_box : bbox :=
  BBox (-1)%float (-2)%float (-3)%float 1%float 2%float 3%float.

(** A perspective camera and a cube, which is selected. *)
Definition scene0 : host :=
  Host [ Node "persp" Transform [] vis1 bbox0 false;
         Node "perspShape" Camera ["persp"]
              (<["orthographic":=0%Q]> (<["orthographicWidth":=30%Q]> vis1))
              bbox0 false;
         Node "pCube1" Transform [] vis1 cube_box false;
         Node "pCubeShape1" Mesh ["pCube1"] vis1 cube_box false ]
       ["pCube1"] []
       [Panel "modelPanel4" "modelPanel" true "persp" false] "modelPanel4"
       ∅ true true [] ∅ [] true None true [] [].

(** The user paints the [k]-th stroke: a transform and its stroke shape. *)
Definition paint_stroke (k : nat) (h : host) : host :=
  let t := unique_name h ("strokeDefaultPaint" +:+ pretty k) in
  let h1 := add_node (Node t Transform [] vis1 bbox0 false) h in
  add_node (Node (unique_name h1 ("strokeShapeDefaultPaint" +:+ pretty k))
                 Stroke [t] vis1 bbox0 false) h1.

(** The session after each stage, on [scene0] with two strokes. *)
Definition st_idle : state := snd (show_tool scene0).
Definition st_setup : state := run setup_geometry st_idle.
Definition st_paint : state := run activate_paint_tool st_setup.
Definition st_painted : state :=
  user (paint_stroke 2) (user (paint_stroke 1) st_paint).
Definition st_projected : state := run convert_and_project st_painted.
Definition st_split : state := run execute_split st_projected.

(** The visibility attribute of the node [x]. *)
Definition attr_of (x a : string) (h : host) : option Q :=
  match lookup_node x h with
  | Some n => nattrs n !! a
  | None => None
  end.

(** The scene [h'] has the nodes of [h] and then new ones. *)
Definition extends (h h' : host) : Prop :=
  exists l, nodes h' = nodes h ++ l.

(** A sphere beside the cube, both selected. *)
Definition scene_two : host :=
  with_selection ["pCube1"; "pSphere1"]
    (add_node (Node "pSphereShape1" Mesh ["pSphere1"] vis1 cube_box false)
       (add_node (Node "pSphere1" Transform [] vis1 cube_box false) scene0)).

Definition st_two : state := snd (show_tool scene_two).

(** ** Cleaning up *)

Definition gone (x : string) (h : host) : Prop := exists_node x h = false.

(** Every node of [h'] is a node of [h], with the same fields. *)
Definition shrinks (h h' : host) : Prop :=
  forall n, In n (nodes h') -> In n (nodes h).

Definition delete_calls (dels : list string) : list event :=
  map (fun x => DeleteCall x true) dels.

(** From [st] to [st'], the nodes named in [dels] were deleted, each once
    and each while it was there (the latest first); no name of [names] is
    left; a node that is no longer there was under a deleted node, or was a
    creation node. *)
Record cleans (names dels : list string) (st st' : state) : Prop := Cleans {
  cl_self : self st' = self st;
  cl_shrinks : shrinks (hst st) (hst st');
  cl_gone : forall x, In x names -> gone x (hst st');
  cl_log : log (hst st') = delete_calls dels ++ log (hst st);
  cl_nodup : NoDup dels;
  cl_dels : forall x, In x dels ->
            In x names /\ exists_node x (hst st) = true /\ gone x (hst st');
  cl_frame : forall n, In n (nodes (hst st)) ->
             In n (nodes (hst st')) \/ nkind n = PolyPlane
             \/ exists x, In x dels /\ under x n = true }.

(** The scene after [restore_camera_state]. *)
Definition restored (ocs : option camera_state) (h : host) : host :=
  match ocs with
  | None => h
  | Some cs =>
      with_tumble true true
        (if negb (String.eqb (cs_camera_shape cs) EmptyString)
            && exists_node (cs_camera_shape cs) h
         then set_attr (cs_camera_shape cs) "orthographicWidth" (cs_orthographicWidth cs)
                (set_attr (cs_camera_shape cs) "orthographic" (cs_orthographic cs) h)
         else h)
  end.

(** The value of a check box, or [d] when it cannot be queried. *)
Definition checkbox_or (d : bool) (name : string) (h : host) : bool :=
  match controls h !! name with
  | Some (_, CBool b) => b
  | _ => d
  end.

(** The parents of the nodes named in [l]. *)
Definition parent_names (l : list string) (h : host) : list string :=
  flat_map
    (fun x => match lookup_node x h with
              | Some n => match npath n with p :: _ => [p] | [] => [] end
              | None => []
              end)
    l.

(** The reference curves that Finish deletes. *)
Definition tracked (s : session) (h : host) : list string :=
  match projection_curves s with
  | _ :: _ => List.filter (fun x => exists_node x h) (projection_curves s)
  | [] =>
      match projection_curve s with
      | Some c => if truthy (Some c) && exists_node c h then [c] else []
      | None => []
      end
  end.

Definition opt_list (o : option string) : list string :=
  match o with
  | Some x => if truthy o then [x] else []
  | None => []
  end.

(** The scene after [delete(x, constructionHistory=True)], when guarded. *)
Definition history_deleted (o : option string) (h : host) : host :=
  match o with
  | Some x =>
      if truthy o && exists_node x h
      then with_nodes (map (fun n => if named x n then set_history false n else n))
                      (with_log (cons (DeleteHistoryCall x)) h)
      else h
  | None => h
  end.

(** The names Finish looks up in the scene [h] and then deletes. *)
Definition cleanup_names (keep : bool) (s : session) (h : host) : list string :=
  List.filter (ends_with "_split") (names_of_kind Transform h)
  ++ names_of_kind Stroke h
  ++ parent_names (names_of_kind Stroke h) h
  ++ tracked s h
  ++ (if keep then [] else names_of_kind CurveVarGroup h)
  ++ opt_list (temp_plane s).

(** Name, type and path of every node, in order. *)
Definition skeleton (h : host) : list (string * ntype * list string) :=
  map (fun n => (nname n, nkind n, npath n)) (nodes h).

(** The split calls of a log, newest first. *)
Definition split_calls (l : list event) : list event :=
  List.filter (fun e => match e with SplitCall _ _ => true | _ => false end) l.

(** The projection calls of a log, newest first. *)
Definition project_calls (l : list event) : list event :=
  List.filter (fun e => match e with ProjectCall _ _ _ => true | _ => false end) l.

(** The warnings of a log, newest first. *)
Definition warnings (l : list event) : list event :=
  List.filter (fun e => match e with Warning _ => true | _ => false end) l.

(** The value the split option is given. *)
Definition split_operation (h : host) : Z :=
  if checkbox_or true "detachEdges" h then 2%Z else 1%Z.

(** The scene after a successful [duplicate]. *)
Definition duplicated (x newname : string) (n : node) (h : host) : host :=
  add_copies (unique_name h newname) (npath n) (List.filter (child_of x) (nodes h))
             (add_node (rename (unique_name h newname) (npath n) n) h).

Definition no_selection_warning : string := "Please select a geometry object first!".

Definition no_curve_warning : string := "No projected curve found!".

(** The scene in which Finish starts to delete. *)
Definition before_deletes (st : state) : host :=
  history_deleted (duplicated_geo (self st))
                  (restored (original_camera_state (self st)) (hst st)).

(** The connect calls of a log, newest first. *)
Definition connect_calls (l : list event) : list event :=
  List.filter (fun e => match e with ConnectCall _ _ => true | _ => false end) l.

(** The scene after [circle]. *)
Definition circle_added (name : string) (h : host) : host :=
  let t := unique_name h name in
  let h1 := add_node (Node t Transform [] ∅ bbox0 false) h in
  add_node (Node (unique_name h1 (t +:+ "Shape")) NurbsCurve [t] ∅ bbox0 false) h1.

(** The projection settings read from the panel: a query that fails leaves
    its parameter, and those after it, at the built-in values. *)
Definition settings (h : host) : proj_params :=
  match controls h !! "curveSamples" with
  | Some (_, CInt cs) =>
      match controls h !! "projTolerance" with
      | Some (_, CFloat tol) =>
          match controls h !! "pointsOnEdges" with
          | Some (_, CBool poe) =>
              match controls h !! "automatic" with
              | Some (_, CBool au) => ProjParams cs tol poe au
              | _ => ProjParams cs tol poe true
              end
          | _ => ProjParams cs tol false true
          end
      | _ => ProjParams cs (1 # 1000) false true
      end
  | _ => default_params
  end.

(** A stroke name the conversion loop accepts. *)
Definition nonempty (s : string) : bool := negb (String.eqb s EmptyString).

Definition invalid_warning (i : nat) : string :=
  "Paint Effects stroke " +:+ pretty (i + 1) +:+ " is invalid - skipping!".

Definition curve_name (i : nat) : string := "projCurve_" +:+ pad2 (i + 1).

(** The connect call that wires a stroke to a curve shape. *)
Definition wire (sc : string * string) : event :=
  ConnectCall (fst sc, "outMainCurves[0]") (snd sc, "create").

(** What the loop over the strokes has done between [st] and [st']: the
    reference curves [new] are new nodes, recorded in the session in the
    order of the valid strokes; [shapes] are their shapes, each wired to its
    stroke; every other stroke got a warning. *)
Record converted (strokes new shapes : list string) (st st' : state) : Prop := Converted {
  cv_self : self st'
            = set_projection_curves (projection_curves (self st) ++ new) (self st);
  cv_extends : extends (hst st) (hst st');
  cv_controls : controls (hst st') = controls (hst st);
  cv_count : length new = length (List.filter nonempty strokes);
  cv_new : Forall (fun c => exists_node c (hst st) = false
                            /\ exists_node c (hst st') = true) new;
  cv_nodup : NoDup new;
  cv_shapes : Forall2 (fun c sh => In sh (shapes_of c (hst st'))) new shapes;
  cv_groups : names_of_kind CurveVarGroup (hst st')
              = names_of_kind CurveVarGroup (hst st);
  cv_log : exists added,
      log (hst st') = added ++ log (hst st)
      /\ connect_calls added
         = rev (map wire (combine (List.filter nonempty strokes) shapes))
      /\ project_calls added = []
      /\ split_calls added = []
      /\ length (warnings added)
         = length (List.filter (fun s => negb (nonempty s)) strokes) }.

(** The scene after a successful [polyProjectCurve]. *)
Definition group_added (h : host) : host :=
  let g := unique_name h "polyProjectionCurve1" in
  let h1 := add_node (Node g CurveVarGroup [] ∅ bbox0 true) h in
  add_node (Node (unique_name h1 (g +:+ "_1")) NurbsCurve [g] ∅ bbox0 true) h1.

(** The projection calls the loop over the curves makes, oldest first. *)
Definition projections (d : string) (p : proj_params) (curves : list string)
    : list event :=
  map (fun c => ProjectCall c (Some d) p) curves.

Definition no_stroke_warning : string := "No Paint Effects stroke found!".

Definition no_valid_curve_warning : string := "No valid projection curves created!".

(** What one Conversion has done between [st] and [st'], on the strokes
    [strokes] and with the duplicated geometry [d]. *)
Record conversion (strokes : list string) (d : string)
    (curves shapes groups : list string) (st st' : state) : Prop := Conversion {
  cn_curves : projection_curves (self st') = curves;
  cn_curve : projection_curve (self st')
             = match curves with [] => projection_curve (self st) | c :: _ => Some c end;
  cn_target : target_geo (self st') = target_geo (self st);
  cn_dup : duplicated_geo (self st') = duplicated_geo (self st);
  cn_plane : temp_plane (self st') = temp_plane (self st);
  cn_camera : original_camera_state (self st') = original_camera_state (self st);
  cn_extends : extends (hst st) (hst st');
  cn_count : length curves = length (List.filter nonempty strokes);
  cn_new : Forall (fun c => exists_node c (hst st) = false
                            /\ exists_node c (hst st') = true) curves;
  cn_nodup : NoDup curves;
  cn_shapes : Forall2 (fun c sh => In sh (shapes_of c (hst st'))) curves shapes;
  cn_groups : names_of_kind CurveVarGroup (hst st')
              = names_of_kind CurveVarGroup (hst st) ++ groups;
  cn_groups_count : length groups = length curves;
  cn_groups_new : Forall (fun g => exists_node g (hst st) = false) groups;
  cn_log : exists added,
      log (hst st') = added ++ log (hst st)
      /\ project_calls added = rev (projections d (settings (hst st)) curves)
      /\ connect_calls added
         = rev (map wire (combine (List.filter nonempty strokes) shapes))
      /\ split_calls added = []
      /\ length (warnings added)
         = length (List.filter (fun s => negb (nonempty s)) strokes)
           + match curves with [] => 1 | _ => 0 end }.

(** The scene after the camera is made orthographic, [w] wide. *)
Definition camera_set (cs : string) (w : Q) (h : host) : host :=
  with_tumble false false
    (set_attr cs "orthographicWidth" w (set_attr cs "orthographic" 1 h)).

(** From [h] to [h'] the nodes are the same, in order, up to their paths
    and to attributes other than those of [l]. *)
Definition keeps (l : list string) (h h' : host) : Prop :=
  Forall2 (fun n n' => nname n' = nname n /\ nkind n' = nkind n
                       /\ forall a, In a l -> nattrs n' !! a = nattrs n !! a)
          (nodes h) (nodes h').

(** The attributes Paint Activation sets on the temporary plane. *)
Definition plane_keys : list string :=
  ["translateX"; "translateY"; "translateZ"; "rotateX"; "rotateY"; "rotateZ";
   "overrideEnabled"; "overrideDisplayType"; "visibility"].

(** The three nodes [polyPlane] makes. *)
Definition plane_nodes (w : Q) (name : string) (h : host) : list node :=
  let t := unique_name h name in
  let h1 := add_node (Node t Transform [] ∅ bbox0 true) h in
  let s := unique_name h1 (t +:+ "Shape") in
  let h2 := add_node (Node s Mesh [t] ∅ bbox0 true) h1 in
  [ Node t Transform [] ∅ bbox0 true;
    Node s Mesh [t] ∅ bbox0 true;
    Node (unique_name h2 "polyPlane1") PolyPlane []
         (<["width":=w]> (<["height":=w]> ∅)) bbox0 false ].

(** Only the paint tool, the selection or the windows differ between [st]
    and [st']. *)
Definition scene_kept (st st' : state) : Prop :=
  nodes (hst st') = nodes (hst st)
  /\ log (hst st') = log (hst st)
  /\ conns (hst st') = conns (hst st)
  /\ optionVars (hst st') = optionVars (hst st)
  /\ self st' = self st.

(** The attributes Paint Activation sizes. *)
Definition sized_keys : list string :=
  ["orthographic"; "orthographicWidth"; "width"; "height"].

(** The scene after [showHidden], when guarded. *)
Definition shown (o : option string) (h : host) : host :=
  match o with
  | Some t => if truthy o && exists_node t h then set_attr t "visibility" 1 h else h
  | None => h
  end.

(** The node names the session object holds. *)
Definition session_names (s : session) : list string :=
  opt_list (target_geo s) ++ opt_list (duplicated_geo s) ++ opt_list (temp_plane s)
  ++ opt_list (projection_curve s) ++ projection_curves s ++ opt_list (pfx_stroke s).

(** The user ticks or clears a check box of the panel. *)
Definition check_box (name : string) (b : bool) (h : host) : host :=
  match controls h !! name with
  | Some (w, _) => with_ui (windows h) (<[name:=(w, CBool b)]> (controls h)) h
  | None => h
  end.

(** A scene that holds a curve-variation group before the tool is started. *)
Definition scene_old : host :=
  add_node (Node "oldCurves" CurveVarGroup [] vis1 bbox0 false) scene0.

Definition st_old_painted : state :=
  user (paint_stroke 1)
       (run activate_paint_tool (run setup_geometry (snd (show_tool scene_old)))).

Definition st_old_projected : state := run convert_and_project st_old_painted.

Definition st_old_keep : state := user (check_box "keepHistory" true) st_old_projected.

(** The delete-history calls of a log. *)
Definition only_history (l : list event) : Prop :=
  Forall (fun e => exists d, e = DeleteHistoryCall d) l.

Definition no_target_warning : string := "Please setup geometry first!".

(** A host with the panel closed, no preset file, no paint command and no
    wire context. *)
Definition bare (h : host) : host :=
  Host (nodes h) (selection h) (conns h) (panels h) (focus h) (optionVars h)
       (orthoLock h) (autoOrthoConstrain h) [] ∅
       [preset_2026; preset_2022; preset_env; "MakePaintable"] false
       (brush h) (wire_dam h) (paintable h) (log h).

Definition st_bare : state := user bare st_paint.

(** From [st] to [st'] only attributes of [plane_keys] were set. *)
Definition placed (st st' : state) : Prop :=
  (forall l, (forall a, In a l -> ~ In a plane_keys) -> keeps l (hst st) (hst st'))
  /\ self st' = self st
  /\ log (hst st') = log (hst st)
  /\ forall y, exists_node y (hst st') = exists_node y (hst st).

(** How many windows named [w] are open. *)
Definition open_count (w : string) (h : host) : nat :=
  length (List.filter (String.eqb w) (windows h)).

(** The controls of the panel as [create_ui] makes them, over the controls
    [base] that are there already. *)
Definition panel_controls (base : gmap string (string * ctl)) : gmap string (string * ctl) :=
  <["detachEdges":=(window_name, CBool true)]>
    (<["keepHistory":=(window_name, CBool false)]>
       (<["automatic":=(window_name, CBool true)]>
          (<["pointsOnEdges":=(window_name, CBool false)]>
             (<["projTolerance":=(window_name, CFloat (1 # 1000))]>
                (<["curveSamples":=(window_name, CInt 50)]>
                   (<["status_text":=(window_name, CText "Status: No geometry selected")]>
                      base)))))).

(** The recorded node [o] is not in the scene [h]: nothing is recorded, or
    the recorded name matches no node. *)
Definition absent (o : option string) (h : host) : Prop :=
  match o with
  | None => True
  | Some d => exists_node d h = false
  end.

(** The user deletes the duplicated geometry by hand, after the painting
    and after the Conversion. *)
Definition st_lost : state := user (remove_subtree "pCube1_split") st_painted.

Definition st_lost_projected : state :=
  user (remove_subtree "pCube1_split") st_projected.

(** The panel [q] with its X-ray flag set to [b]. *)
Definition with_xray (b : bool) (q : panel) : panel :=
  Panel (pname q) (ptype q) (pvisible q) (pcamera q) b.

(** The X-ray flag of the panel that has the focus. *)
Definition focused_xray (h : host) : option bool :=
  pxray <$> find_panel (focus h) h.

(** The session after Setup, with the only panel turned into an outliner. *)
Definition st_no_panel : state :=
  user (with_panels (fun _ => [Panel "modelPanel4" "outlinerPanel" true "persp" false]))
       st_setup.

(** The attributes [create_temporary_plane] gives the plane, in order. *)
Definition plane_settings : list (string * Q) :=
  [ ("translateX", 0%Q); ("translateY", 0%Q); ("translateZ", (-100)%Q);
    ("rotateX", 90%Q); ("rotateY", 0%Q); ("rotateZ", 0%Q);
    ("overrideEnabled", 1%Q); ("overrideDisplayType", 2%Q); ("visibility", 0%Q) ].

(** The scene after the attributes [l] of [x] are set, one after the other. *)
Definition set_all (x : string) (l : list (string * Q)) (h : host) : host :=
  fold_left (fun h kv => set_attr x (fst kv) (snd kv) h) l h.

(** The DAG path of the node [x]: its ancestors, the parent first. *)
Definition path_of (x : string) (h : host) : option (list string) :=
  npath <$> lookup_node x h.

(** The scene after [polyPlane]. *)
Definition plane_made (w : Q) (name : string) (h : host) : host :=
  let t := unique_name h name in
  let h1 := add_node (Node t Transform [] ∅ bbox0 true) h in
  let s := unique_name h1 (t +:+ "Shape") in
  let h2 := add_node (Node s Mesh [t] ∅ bbox0 true) h1 in
  let c := unique_name h2 "polyPlane1" in
  with_conns (cons ((c, "output"), (s, "inMesh")))
    (add_node (Node c PolyPlane [] (<["width":=w]> (<["height":=w]> ∅)) bbox0 false) h2).

(** The name of the creation node [polyPlane] makes. *)
Definition plane_creator (name : string) (h : host) : string :=
  let t := unique_name h name in
  let h1 := add_node (Node t Transform [] ∅ bbox0 true) h in
  let s := unique_name h1 (t +:+ "Shape") in
  unique_name (add_node (Node s Mesh [t] ∅ bbox0 true) h1) "polyPlane1".





(** A second Conversion, and a second Paint Activation. *)
Definition st_twice : state := run convert_and_project st_projected.

Definition st_reactivated : state := run activate_paint_tool st_paint.

(** * Properties *)

(** ** The monad *)

Lemma bind_val {A B} (m : M A) (k : A -> M B) st a st1 :
  m st = (Val a, st1) -> bind m k st = k a st1.
Proof. intros H. unfold bind. by rewrite H. Qed.

Lemma bind_exc {A B} (m : M A) (k : A -> M B) st e st1 :
  m st = (Exc e, st1) -> bind m k st = (Exc e, st1).
Proof. intros H. unfold bind. by rewrite H. Qed.

Lemma state_eta st : State (hst st) (self st) = st.
Proof. by destruct st. Qed.

(** ** Names and existence *)

Lemma named_true x n : named x n = true <-> nname n = x.
Proof. unfold named. apply String.eqb_eq. Qed.

Lemma exists_node_spec x h :
  exists_node x h = true <-> exists n, In n (nodes h) /\ nname n = x.
Proof.
  unfold exists_node. rewrite existsb_exists.
  split; intros (n & Hn & E); exists n; split; auto; by apply named_true.
Qed.

Lemma lookup_node_some x h n :
  lookup_node x h = Some n -> In n (nodes h) /\ nname n = x.
Proof.
  unfold lookup_node. intros H. apply find_some in H as [H1 H2].
  split; auto. by apply named_true.
Qed.

Lemma exists_lookup x h :
  exists_node x h = true -> exists n, lookup_node x h = Some n.
Proof.
  unfold exists_node, lookup_node. induction (nodes h) as [|a l IH]; simpl.
  - discriminate.
  - destruct (named x a); eauto.
Qed.

Lemma lookup_exists x h n : lookup_node x h = Some n -> exists_node x h = true.
Proof.
  intros H. apply lookup_node_some in H as [H1 H2].
  apply exists_node_spec. eauto.
Qed.

Lemma extends_refl h : extends h h.
Proof. exists []. by rewrite app_nil_r. Qed.

Lemma extends_trans h1 h2 h3 : extends h1 h2 -> extends h2 h3 -> extends h1 h3.
Proof.
  intros [l1 E1] [l2 E2]. exists (l1 ++ l2). by rewrite E2, E1, app_assoc.
Qed.

Lemma extends_add_node n h : extends h (add_node n h).
Proof. by exists [n]. Qed.

Lemma extends_exists h h' x :
  extends h h' -> exists_node x h = true -> exists_node x h' = true.
Proof.
  intros [l E] H. unfold exists_node in *. rewrite E, existsb_app, H. done.
Qed.

Lemma extends_lookup h h' x n :
  extends h h' -> lookup_node x h = Some n -> lookup_node x h' = Some n.
Proof.
  intros [l E]. unfold lookup_node. rewrite E. clear E.
  induction (nodes h) as [|a l' IH]; simpl; [done|].
  destruct (named x a); auto.
Qed.

Lemma extends_add_copies d p kids h : extends h (add_copies d p kids h).
Proof.
  revert h. induction kids as [|c kids IH]; intros h; simpl.
  - apply extends_refl.
  - eapply extends_trans; [apply extends_add_node | apply IH].
Qed.

(** ** Fresh names *)

Lemma first_free_spec used base fuel k :
  existsb (String.eqb (first_free used base k fuel)) used = false
  \/ forall i, k <= i < k + fuel -> In (base +:+ pretty i) used.
Proof.
  revert k. induction fuel as [|fuel IH]; intros k; simpl.
  - right. intros i Hi. lia.
  - destruct (existsb (String.eqb (base +:+ pretty k)) used) eqn:E.
    + destruct (IH (S k)) as [H|H]; [by left|right].
      intros i Hi. destruct (decide (i = k)) as [->|Hne].
      * apply existsb_exists in E as (y & Hy & Ey).
        apply String.eqb_eq in Ey. by subst.
      * apply H. lia.
    + by left.
Qed.

Lemma candidates_NoDup base k n :
  NoDup (map (fun i => base +:+ pretty i) (seq k n)).
Proof.
  assert (Hinj : Inj (=) (=) (fun i : nat => base +:+ pretty i)).
  { intros i j E. apply (inj (String.append base)) in E. by apply (inj pretty) in E. }
  apply (NoDup_fmap_2 (fun i : nat => base +:+ pretty i)), NoDup_seq.
Qed.

Lemma first_free_fresh used base :
  existsb (String.eqb (first_free used base 1 (S (length used)))) used = false.
Proof.
  destruct (first_free_spec used base (S (length used)) 1) as [H|H]; [done|].
  exfalso.
  assert (Hsub : map (fun i => base +:+ pretty i) (seq 1 (S (length used))) ⊆+ used).
  { apply NoDup_submseteq; [apply candidates_NoDup|].
    intros x Hx. apply list_elem_of_In in Hx. apply in_map_iff in Hx as (i & <- & Hi).
    apply list_elem_of_In, H. apply in_seq in Hi. lia. }
  apply submseteq_length in Hsub. rewrite length_map, length_seq in Hsub. lia.
Qed.

(** The name the host gives a new node is the name of no node of the scene. *)
Lemma unique_name_fresh h base : exists_node (unique_name h base) h = false.
Proof.
  unfold unique_name.
  assert (E : forall x, exists_node x h = existsb (String.eqb x) (map nname (nodes h))).
  { intros x. unfold exists_node. induction (nodes h) as [|a l IH]; simpl; [done|].
    unfold named at 1. rewrite String.eqb_sym. by rewrite IH. }
  destruct (existsb (String.eqb base) (map nname (nodes h))) eqn:Hb.
  - rewrite E. apply first_free_fresh.
  - by rewrite E.
Qed.

(** A name that is free is kept as it is. *)
Lemma unique_name_free h base :
  exists_node base h = false -> unique_name h base = base.
Proof.
  intros H. unfold unique_name.
  assert (E : existsb (String.eqb base) (map nname (nodes h)) = exists_node base h).
  { unfold exists_node. induction (nodes h) as [|a l IH]; simpl; [done|].
    unfold named at 1. rewrite String.eqb_sym. by rewrite IH. }
  by rewrite E, H.
Qed.

(** ** Nodes under attribute and history updates *)

Lemma find_map_named (f : node -> node) y l :
  (forall n, nname (f n) = nname n) ->
  find (named y) (map f l) = option_map f (find (named y) l).
Proof.
  intros Hf. induction l as [|a l IH]; simpl; [done|].
  unfold named at 1. rewrite Hf. fold (named y a).
  destruct (named y a); auto.
Qed.

Lemma existsb_map_named (f : node -> node) y l :
  (forall n, nname (f n) = nname n) ->
  existsb (named y) (map f l) = existsb (named y) l.
Proof.
  intros Hf. induction l as [|a l IH]; simpl; [done|].
  unfold named at 1. rewrite Hf. fold (named y a). by rewrite IH.
Qed.

Lemma exists_node_set_attr y x a v h :
  exists_node y (set_attr x a v h) = exists_node y h.
Proof.
  unfold exists_node, set_attr. simpl. apply existsb_map_named.
  intros n. by destruct (named x n).
Qed.

Lemma attr_of_set_attr x a v h :
  exists_node x h = true -> attr_of x a (set_attr x a v h) = Some v.
Proof.
  intros H. apply exists_lookup in H as [n Hn].
  unfold attr_of, lookup_node, set_attr. simpl.
  rewrite find_map_named by (intros m; by destruct (named x m)).
  fold (lookup_node x h). rewrite Hn. simpl.
  apply lookup_node_some in Hn as [_ Hn]. apply named_true in Hn. rewrite Hn.
  simpl. apply lookup_insert_eq.
Qed.

(** ** Setup *)

Lemma selected_lookup t k h rest :
  selected_of_kind k h = t :: rest ->
  exists n, lookup_node t h = Some n /\ kind_is k (nkind n) = true.
Proof.
  intros E.
  assert (Hin : In t (selected_of_kind k h)) by (rewrite E; by left).
  unfold selected_of_kind in Hin. apply filter_In in Hin as [_ Hin].
  destruct (lookup_node t h) as [n|]; [eauto|done].
Qed.

Lemma bind_ret {A B} (a : A) (k : A -> M B) st : bind (ret a) k st = k a st.
Proof. done. Qed.

Lemma bind_gets {A B} (f : state -> A) (k : A -> M B) st :
  bind (gets f) k st = k (f st) st.
Proof. done. Qed.

Lemma bind_on_host {B} (f : host -> host) (k : unit -> M B) st :
  bind (on_host f) k st = k tt (State (f (hst st)) (self st)).
Proof. done. Qed.

Lemma bind_on_self {B} (f : session -> session) (k : unit -> M B) st :
  bind (on_self f) k st = k tt (State (hst st) (f (self st))).
Proof. done. Qed.

Lemma need_ok x st : exists_node x (hst st) = true -> need x st = (Val tt, st).
Proof. intros H. unfold need. by rewrite H. Qed.

Lemma need_fail x st :
  exists_node x (hst st) = false -> need x st = (Exc (no_object x), st).
Proof. intros H. unfold need. by rewrite H. Qed.

Lemma setAttr_ok x a v st :
  exists_node x (hst st) = true ->
  setAttr x a v st = (Val tt, State (set_attr x a v (hst st)) (self st)).
Proof. intros H. unfold setAttr. by rewrite (bind_val _ _ _ _ _ (need_ok _ _ H)). Qed.

Lemma duplicate_ok x newname n st :
  lookup_node x (hst st) = Some n ->
  duplicate x newname st
  = (Val [unique_name (hst st) newname], State (duplicated x newname n (hst st)) (self st)).
Proof. intros H. unfold duplicate. by rewrite H. Qed.

Lemma exists_node_add_node x n h :
  exists_node x (add_node n h) = exists_node x h || named x n.
Proof.
  unfold exists_node, add_node. simpl. rewrite existsb_app. simpl.
  by rewrite orb_false_r.
Qed.

Lemma extends_duplicated x newname n h : extends h (duplicated x newname n h).
Proof.
  unfold duplicated. eapply extends_trans; [apply extends_add_node|].
  apply extends_add_copies.
Qed.

Lemma duplicated_exists x newname n h :
  exists_node (unique_name h newname) (duplicated x newname n h) = true.
Proof.
  unfold duplicated. eapply extends_exists; [apply extends_add_copies|].
  rewrite exists_node_add_node. unfold named, rename. simpl.
  by rewrite String.eqb_refl, orb_true_r.
Qed.

Lemma log_add_copies d p kids h : log (add_copies d p kids h) = log h.
Proof. revert h. induction kids as [|c kids IH]; intros h; simpl; [done|]. by rewrite IH. Qed.

Lemma exists_node_nodes h h' x :
  nodes h' = nodes h -> exists_node x h' = exists_node x h.
Proof. intros E. unfold exists_node. by rewrite E. Qed.

Lemma lookup_node_nodes h h' x :
  nodes h' = nodes h -> lookup_node x h' = lookup_node x h.
Proof. intros E. unfold lookup_node. by rewrite E. Qed.

Lemma attr_of_nodes h h' x a :
  nodes h' = nodes h -> attr_of x a h' = attr_of x a h.
Proof. intros E. unfold attr_of. by rewrite (lookup_node_nodes _ _ _ E). Qed.

(** Editing the status text touches the controls only. *)
Lemma status_text_ok label st :
  exists st', try_catch (text_edit "status_text" label) (fun _ => ret tt) st = (Val tt, st')
              /\ nodes (hst st') = nodes (hst st)
              /\ log (hst st') = log (hst st)
              /\ self st' = self st.
Proof.
  unfold try_catch, text_edit.
  destruct (controls (hst st) !! "status_text") as [[w []]|]; simpl; eauto.
Qed.

Lemma setup_geometry_spec st :
  match selected_of_kind Transform (hst st) with
  | [] =>
      setup_geometry st
      = (Val tt, State (with_log (cons (Warning no_selection_warning)) (hst st)) (self st))
  | t :: _ =>
      let d := unique_name (hst st) (t +:+ "_split") in
      let st' := run setup_geometry st in
      outcome setup_geometry st = Val tt
      /\ target_geo (self st') = Some t
      /\ duplicated_geo (self st') = Some d
      /\ exists_node d (hst st) = false
      /\ exists_node d (hst st') = true
      /\ attr_of t "visibility" (hst st') = Some 0%Q
      /\ log (hst st') = log (hst st)
  end.
Proof.
  destruct (selected_of_kind Transform (hst st)) as [|t rest] eqn:Hsel.
  - unfold setup_geometry, bind, ls_selection, gets. by rewrite Hsel.
  - destruct (selected_lookup _ _ _ _ Hsel) as (n & Hn & Hk).
    unfold run, outcome, setup_geometry, ls_selection.
    rewrite bind_gets, Hsel, bind_on_self.
    erewrite bind_val by (by apply duplicate_ok).
    cbn [first]. rewrite bind_ret, bind_on_self. simpl hst. simpl self.
    set (h1 := duplicated t (t +:+ "_split") n (hst st)).
    assert (Ht : exists_node t h1 = true).
    { eapply extends_exists; [apply extends_duplicated|]. by eapply lookup_exists. }
    unfold hide. erewrite bind_val by (by apply setAttr_ok).
    simpl hst. simpl self.
    edestruct status_text_ok as (st' & -> & Hnodes & Hlog & Hself).
    simpl. rewrite Hself. simpl. repeat split.
    + apply unique_name_fresh.
    + rewrite (exists_node_nodes _ _ _ Hnodes). simpl hst.
      rewrite exists_node_set_attr. apply duplicated_exists.
    + rewrite (attr_of_nodes _ _ _ _ Hnodes). simpl hst.
      by apply attr_of_set_attr.
    + rewrite Hlog. simpl. unfold h1, duplicated. by rewrite log_add_copies.
Qed.

(** ** Deleting nodes *)

Lemma gone_shrinks h h' x : shrinks h h' -> gone x h -> gone x h'.
Proof.
  unfold gone. intros Hs Hg. destruct (exists_node x h') eqn:E; [|done].
  apply exists_node_spec in E as (n & Hn & En).
  assert (exists_node x h = true) by (apply exists_node_spec; eauto).
  congruence.
Qed.

Lemma shrinks_exists h h' x :
  shrinks h h' -> exists_node x h' = true -> exists_node x h = true.
Proof.
  intros Hs E. apply exists_node_spec in E as (n & Hn & En).
  apply exists_node_spec. eauto.
Qed.

Lemma shrinks_refl h : shrinks h h.
Proof. by intros n. Qed.

Lemma shrinks_trans h1 h2 h3 : shrinks h1 h2 -> shrinks h2 h3 -> shrinks h1 h3.
Proof. intros H1 H2 n Hn. auto. Qed.

Lemma remove_subtree_nodes x h :
  nodes (remove_subtree x h) = List.filter (fun n => negb (removed x h n)) (nodes h).
Proof. done. Qed.

Lemma remove_subtree_gone x h : gone x (remove_subtree x h).
Proof.
  unfold gone. destruct (exists_node x (remove_subtree x h)) eqn:E; [|done].
  apply exists_node_spec in E as (n & Hn & En).
  rewrite remove_subtree_nodes in Hn. apply filter_In in Hn as [_ Hn].
  apply named_true in En. unfold removed, under in Hn. by rewrite En in Hn.
Qed.

Lemma remove_subtree_shrinks x h : shrinks h (remove_subtree x h).
Proof. intros n Hn. rewrite remove_subtree_nodes in Hn. by apply filter_In in Hn as [? _]. Qed.

Lemma remove_subtree_frame x h n :
  In n (nodes h) ->
  In n (nodes (remove_subtree x h)) \/ nkind n = PolyPlane \/ under x n = true.
Proof.
  intros Hn. rewrite remove_subtree_nodes.
  destruct (removed x h n) eqn:E.
  - right. unfold removed in E. apply orb_true_iff in E as [E|E]; [by right|left].
    unfold feeds_removed in E. apply andb_true_iff in E as [E _].
    by destruct (nkind n).
  - left. apply filter_In. by rewrite E.
Qed.

Lemma delete_ok x st :
  exists_node x (hst st) = true ->
  delete x st
  = (Val tt, State (remove_subtree x (with_log (cons (DeleteCall x true)) (hst st)))
                   (self st)).
Proof.
  intros H. unfold delete, objExists. rewrite bind_gets, H, bind_on_host. done.
Qed.

Lemma delete_missing x st :
  exists_node x (hst st) = false ->
  delete x st
  = (Exc (no_object x), State (with_log (cons (DeleteCall x false)) (hst st)) (self st)).
Proof.
  intros H. unfold delete, objExists. rewrite bind_gets, H, bind_on_host. done.
Qed.

Lemma cleans_nil names st : (forall x, In x names -> gone x (hst st)) -> cleans names [] st st.
Proof.
  intros H. split; auto using shrinks_refl.
  - constructor.
  - intros x [].
Qed.

(** A delete of a node that is there. *)
Lemma cleans_delete x st :
  exists_node x (hst st) = true ->
  cleans [x] [x] st
         (State (remove_subtree x (with_log (cons (DeleteCall x true)) (hst st))) (self st)).
Proof.
  intros H. split; simpl.
  - done.
  - apply (remove_subtree_shrinks x (with_log (cons (DeleteCall x true)) (hst st))).
  - intros y [<-|[]]. apply remove_subtree_gone.
  - done.
  - apply NoDup_cons; split; [by intros ?%elem_of_nil|constructor].
  - intros y [<-|[]]. repeat split; auto. apply remove_subtree_gone.
  - intros n Hn.
    destruct (remove_subtree_frame x (with_log (cons (DeleteCall x true)) (hst st)) n Hn)
      as [?|[?|?]]; [by left|by right; left|].
    right. right. exists x. auto.
Qed.

Lemma cleans_trans n1 d1 n2 d2 st st1 st2 :
  cleans n1 d1 st st1 -> cleans n2 d2 st1 st2 -> cleans (n1 ++ n2) (d2 ++ d1) st st2.
Proof.
  intros [S1 Sh1 G1 L1 N1 D1 F1] [S2 Sh2 G2 L2 N2 D2 F2]. split.
  - congruence.
  - eauto using shrinks_trans.
  - intros x Hx. apply in_app_iff in Hx as [Hx|Hx]; eauto using gone_shrinks.
  - rewrite L2, L1. unfold delete_calls. by rewrite map_app, app_assoc.
  - apply NoDup_app. repeat split; auto.
    intros x Hx1 Hx2. apply list_elem_of_In in Hx1, Hx2.
    destruct (D2 x Hx1) as (_ & E & _). destruct (D1 x Hx2) as (_ & _ & G).
    unfold gone in G. congruence.
  - intros x Hx. apply in_app_iff in Hx as [Hx|Hx].
    + destruct (D2 x Hx) as (? & ? & ?). repeat split; eauto using shrinks_exists.
      apply in_app_iff. auto.
    + destruct (D1 x Hx) as (? & ? & ?). repeat split; eauto using gone_shrinks.
      apply in_app_iff. auto.
  - intros n Hn. destruct (F1 n Hn) as [H|[H|(x & Hx & Hu)]].
    + destruct (F2 n H) as [H'|[H'|(x & Hx & Hu)]]; auto.
      right. right. exists x. split; auto. apply in_app_iff. auto.
    + auto.
    + right. right. exists x. split; auto. apply in_app_iff. auto.
Qed.

Lemma cleans_weaken n1 n2 d st st' :
  (forall x, In x n2 -> In x n1) -> cleans n1 d st st' ->
  (forall x, In x d -> In x n2) -> cleans n2 d st st'.
Proof.
  intros Hsub [S Sh G L N D F] Hd. split; auto.
  intros x Hx. destruct (D x Hx) as (? & ? & ?). auto.
Qed.

(** [if cmds.objExists(x): cmds.delete(x)] never fails, and leaves no [x]. *)
Lemma guarded_delete_cleans x st :
  exists st' d, guarded_delete x st = (Val tt, st') /\ cleans [x] d st st'.
Proof.
  unfold guarded_delete, objExists. rewrite bind_gets.
  destruct (exists_node x (hst st)) eqn:E; simpl.
  - rewrite (delete_ok _ _ E). eexists _, [x]. split; [done|]. by apply cleans_delete.
  - exists st, []. split; [done|]. apply cleans_nil. by intros y [<-|[]].
Qed.

Lemma for_each_guarded_delete l st :
  exists st' d, for_each l guarded_delete st = (Val tt, st') /\ cleans l d st st'.
Proof.
  revert st. induction l as [|x l IH]; intros st; simpl.
  - exists st, []. split; [done|]. apply cleans_nil. intros x [].
  - destruct (guarded_delete_cleans x st) as (st1 & d1 & E1 & C1).
    destruct (IH st1) as (st2 & d2 & E2 & C2).
    exists st2, (d2 ++ d1). rewrite (bind_val _ _ _ _ _ E1). split; [done|].
    apply (cleans_trans [x] d1 l d2 st st1 st2); auto.
Qed.

(** ** The queries of Finish do not change the state *)

Lemma lookup_none x h : exists_node x h = false -> lookup_node x h = None.
Proof.
  intros H. destruct (lookup_node x h) eqn:E; [|done].
  apply lookup_exists in E. congruence.
Qed.

Lemma restore_camera_state_eq st :
  restore_camera_state st
  = (Val tt, State (restored (original_camera_state (self st)) (hst st)) (self st)).
Proof.
  unfold restore_camera_state. rewrite bind_gets. unfold restored.
  destruct (original_camera_state (self st)) as [cs|]; [|by rewrite state_eta].
  unfold and_m, objExists.
  destruct (negb (String.eqb (cs_camera_shape cs) EmptyString)); simpl.
  - rewrite bind_gets. destruct (exists_node (cs_camera_shape cs) (hst st)) eqn:E; simpl.
    + unfold bind at 1. unfold bind at 1.
      rewrite (setAttr_ok _ _ _ _ E).
      rewrite setAttr_ok by (simpl; by rewrite exists_node_set_attr).
      done.
    + by rewrite bind_ret.
  - by rewrite !bind_ret.
Qed.

Lemma keep_query d name st :
  try_assign [fun _ => checkBox_query name] d st = (Val (checkbox_or d name (hst st)), st).
Proof.
  unfold try_assign, checkBox_query, query, bind, checkbox_or.
  by destruct (controls (hst st) !! name) as [[w []]|].
Qed.

Lemma stroke_parents_step acc x st :
  stroke_parents acc x st = (Val (acc ++ parent_names [x] (hst st)), st).
Proof.
  unfold stroke_parents, objExists, parent_names. rewrite bind_gets. simpl.
  rewrite app_nil_r.
  destruct (exists_node x (hst st)) eqn:E.
  - destruct (exists_lookup _ _ E) as [n Hn].
    unfold listRelatives_parent, bind. by rewrite Hn.
  - by rewrite (lookup_none _ _ E), app_nil_r.
Qed.

Lemma stroke_parents_pure l acc st :
  fold_m stroke_parents l acc st = (Val (acc ++ parent_names l (hst st)), st).
Proof.
  revert acc. induction l as [|x l IH]; intros acc; simpl.
  - by rewrite app_nil_r.
  - rewrite (bind_val _ _ _ _ _ (stroke_parents_step acc x st)), IH.
    unfold parent_names. simpl. by rewrite app_nil_r, app_assoc.
Qed.

Lemma filter_exists_pure l st :
  filter_m objExists l st = (Val (List.filter (fun x => exists_node x (hst st)) l), st).
Proof.
  induction l as [|x l IH]; simpl; [done|].
  unfold objExists at 1. rewrite bind_gets. rewrite (bind_val _ _ _ _ _ IH).
  by destruct (exists_node x (hst st)).
Qed.

Lemma tracked_curves_pure st :
  tracked_curves st = (Val (tracked (self st) (hst st)), st).
Proof.
  unfold tracked_curves, tracked. rewrite bind_gets.
  destruct (projection_curves (self st)) as [|c l].
  - destruct (projection_curve (self st)) as [c|]; [|done].
    unfold and_m, objExists. destruct (truthy (Some c)); simpl; [|done].
    rewrite bind_gets. by destruct (exists_node c (hst st)).
  - apply filter_exists_pure.
Qed.

Lemma delete_history_guarded o st :
  when_exists o delete_history st = (Val tt, State (history_deleted o (hst st)) (self st)).
Proof.
  unfold when_exists, history_deleted. destruct o as [x|]; [|by rewrite state_eta].
  unfold and_m, objExists. destruct (truthy (Some x)); simpl.
  - rewrite bind_gets. destruct (exists_node x (hst st)) eqn:E; simpl.
    + unfold delete_history. rewrite bind_on_host.
      erewrite bind_val by (apply need_ok; exact E). done.
    + by rewrite state_eta.
  - by rewrite bind_ret, state_eta.
Qed.

(** [if self.f and cmds.objExists(self.f): cmds.delete(self.f)] *)
Lemma delete_guarded_cleans o st :
  exists st' d, when_exists o delete st = (Val tt, st') /\ cleans (opt_list o) d st st'.
Proof.
  unfold when_exists, opt_list. destruct o as [x|].
  - unfold and_m, objExists. destruct (truthy (Some x)); simpl.
    + rewrite bind_gets. destruct (exists_node x (hst st)) eqn:E; simpl.
      * rewrite (delete_ok _ _ E). eexists _, [x]. split; [done|]. by apply cleans_delete.
      * exists st, []. split; [done|]. apply cleans_nil. by intros y [<-|[]].
    + rewrite bind_ret. exists st, []. split; [done|]. apply cleans_nil. intros y [].
  - exists st, []. split; [done|]. apply cleans_nil. intros y [].
Qed.

(** Closing the window touches the windows and the controls only. *)
Lemma close_gui_ok st :
  exists st', close_gui st = (Val tt, st')
              /\ nodes (hst st') = nodes (hst st)
              /\ log (hst st') = log (hst st)
              /\ self st' = self st.
Proof.
  unfold close_gui. rewrite bind_gets. destruct (gui_window (self st)) as [w|]; [|eauto].
  unfold and_m, window_exists. destruct (truthy (Some w)); simpl.
  - rewrite bind_gets. unfold when, deleteUI.
    destruct (existsb (String.eqb w) (windows (hst st))) eqn:E; simpl; rewrite ?E; eauto.
  - rewrite bind_ret. simpl. eauto.
Qed.

(** ** Finish, as a whole

    Finish restores the camera, reads what it is going to delete from the
    scene, deletes the history of the duplicate, and then deletes, guarded,
    every name it has read; closing the window ends it. *)
Lemma finish_and_cleanup_spec st :
  let s := self st in
  let A := restored (original_camera_state s) (hst st) in
  let keep := checkbox_or false "keepHistory" A in
  let B := history_deleted (duplicated_geo s) A in
  exists st' st1 dels,
    finish_and_cleanup st = (Val tt, st')
    /\ cleans (cleanup_names keep s A) dels (State B s) st1
    /\ nodes (hst st') = nodes (hst st1)
    /\ log (hst st') = log (hst st1)
    /\ self st' = s.
Proof.
  intros s A keep B. unfold finish_and_cleanup.
  rewrite (bind_val _ _ _ _ _ (restore_camera_state_eq st)).
  fold s A. rewrite (bind_val _ _ _ _ _ (keep_query _ _ _)).
  unfold ls_type. rewrite !bind_gets.
  rewrite (bind_val _ _ _ _ _ (stroke_parents_pure _ _ _)).
  rewrite (bind_val _ _ _ _ _ (tracked_curves_pure _)).
  rewrite !bind_gets.
  rewrite (bind_val _ _ _ _ _ (delete_history_guarded _ _)).
  simpl hst. simpl self. fold keep B.
  destruct (for_each_guarded_delete
              (List.filter (ends_with "_split") (names_of_kind Transform A)) (State B s))
    as (s1 & d1 & E1 & C1).
  rewrite (bind_val _ _ _ _ _ E1).
  destruct (for_each_guarded_delete (names_of_kind Stroke A) s1) as (s2 & d2 & E2 & C2).
  rewrite (bind_val _ _ _ _ _ E2).
  destruct (for_each_guarded_delete (parent_names (names_of_kind Stroke A) A) s2)
    as (s3 & d3 & E3 & C3).
  simpl app. rewrite (bind_val _ _ _ _ _ E3).
  destruct (for_each_guarded_delete (tracked s A) s3) as (s4 & d4 & E4 & C4).
  rewrite (bind_val _ _ _ _ _ E4).
  assert (H5 : exists s5 d5,
             (if keep then ret tt
              else for_each (names_of_kind CurveVarGroup A) guarded_delete) s4
             = (Val tt, s5)
             /\ cleans (if keep then [] else names_of_kind CurveVarGroup A) d5 s4 s5).
  { destruct keep.
    - exists s4, []. split; [done|]. apply cleans_nil. intros x [].
    - apply for_each_guarded_delete. }
  destruct H5 as (s5 & d5 & E5 & C5).
  rewrite (bind_val _ _ _ _ _ E5). rewrite bind_gets.
  destruct (delete_guarded_cleans (temp_plane (self s5)) s5) as (s6 & d6 & E6 & C6).
  rewrite (bind_val _ _ _ _ _ E6).
  destruct (close_gui_ok s6) as (s7 & E7 & Hn & Hl & Hs).
  pose proof (cleans_trans _ _ _ _ _ _ _ C1 C2) as C12.
  pose proof (cleans_trans _ _ _ _ _ _ _ C12 C3) as C13.
  pose proof (cleans_trans _ _ _ _ _ _ _ C13 C4) as C14.
  pose proof (cleans_trans _ _ _ _ _ _ _ C14 C5) as C15.
  pose proof (cleans_trans _ _ _ _ _ _ _ C15 C6) as C16.
  assert (Hself : self s5 = s) by (apply (cl_self _ _ _ _ C15)).
  rewrite Hself in C16. rewrite <- !app_assoc in C16.
  exists s7, s6, (d6 ++ d5 ++ d4 ++ d3 ++ d2 ++ d1).
  split; [exact E7|]. split; [exact C16|]. repeat split; auto.
  rewrite Hs. apply (cl_self _ _ _ _ C16).
Qed.

(** ** What depends on names, types and paths only *)

Lemma skeleton_map (f : node -> node) h :
  (forall n, nname (f n) = nname n /\ nkind (f n) = nkind n /\ npath (f n) = npath n) ->
  skeleton (with_nodes (map f) h) = skeleton h.
Proof.
  intros Hf. unfold skeleton. simpl. rewrite map_map. apply map_ext.
  intros n. destruct (Hf n) as (-> & -> & ->). done.
Qed.

Lemma skeleton_set_attr x a v h : skeleton (set_attr x a v h) = skeleton h.
Proof. apply skeleton_map. intros n. by destruct (named x n). Qed.

Lemma skeleton_restored ocs h : skeleton (restored ocs h) = skeleton h.
Proof.
  unfold restored. destruct ocs as [cs|]; [|done].
  destruct (negb (String.eqb (cs_camera_shape cs) EmptyString)
            && exists_node (cs_camera_shape cs) h); [|done].
  change (skeleton (set_attr (cs_camera_shape cs) "orthographicWidth"
                      (cs_orthographicWidth cs)
                      (set_attr (cs_camera_shape cs) "orthographic"
                         (cs_orthographic cs) h)) = skeleton h).
  by rewrite !skeleton_set_attr.
Qed.

Lemma skeleton_history_deleted o h : skeleton (history_deleted o h) = skeleton h.
Proof.
  unfold history_deleted. destruct o as [x|]; [|done].
  destruct (truthy (Some x) && exists_node x h); [|done].
  apply (skeleton_map _ (with_log (cons (DeleteHistoryCall x)) h)).
  intros n. by destruct (named x n).
Qed.

Lemma exists_node_skeleton h h' x :
  skeleton h = skeleton h' -> exists_node x h = exists_node x h'.
Proof.
  unfold skeleton, exists_node. generalize (nodes h) (nodes h').
  induction l as [|a l IH]; intros [|b l'] E; simpl in *; try done.
  injection E as E1 E2 E3 E. unfold named at 1 3. rewrite E1. f_equal. auto.
Qed.

Lemma names_of_kind_skeleton h h' t :
  skeleton h = skeleton h' -> names_of_kind t h = names_of_kind t h'.
Proof.
  unfold skeleton, names_of_kind. generalize (nodes h) (nodes h').
  induction l as [|a l IH]; intros [|b l'] E; simpl in *; try done.
  injection E as E1 E2 E3 E. rewrite E2.
  destruct (kind_is t (nkind b)); simpl; rewrite ?E1, (IH _ E); done.
Qed.

Lemma parent_names_skeleton h h' l :
  skeleton h = skeleton h' -> parent_names l h = parent_names l h'.
Proof.
  intros E. unfold parent_names. apply flat_map_ext.
  assert (Hp : forall x,
             match lookup_node x h with
             | Some n => match npath n with p :: _ => [p] | [] => [] end
             | None => []
             end
             = match lookup_node x h' with
               | Some n => match npath n with p :: _ => [p] | [] => [] end
               | None => []
               end).
  { intros x. unfold lookup_node. revert E. unfold skeleton.
    generalize (nodes h) (nodes h').
    induction l0 as [|a l0 IH]; intros [|b l'] E; simpl in *; try done.
    injection E as E1 E2 E3 E. unfold named at 1 3. rewrite E1.
    destruct (String.eqb (nname b) x); [by rewrite E3|auto]. }
  exact Hp.
Qed.

(** ** Execute Split *)

Lemma in_names_of_kind x t h :
  In x (names_of_kind t h)
  <-> exists n, In n (nodes h) /\ nname n = x /\ kind_is t (nkind n) = true.
Proof.
  unfold names_of_kind. rewrite in_map_iff. split.
  - intros (n & E & Hn). apply filter_In in Hn as [H1 H2]. eauto.
  - intros (n & H1 & E & H2). exists n. split; [done|]. by apply filter_In.
Qed.

Lemma names_of_kind_exist x t h : In x (names_of_kind t h) -> exists_node x h = true.
Proof.
  intros H. apply in_names_of_kind in H as (n & Hn & E & _).
  apply exists_node_spec. eauto.
Qed.

Lemma for_each_need_ok l st :
  (forall x, In x l -> exists_node x (hst st) = true) -> for_each l need st = (Val tt, st).
Proof.
  induction l as [|x l IH]; intros H; simpl; [done|].
  rewrite (bind_val _ _ _ _ _ (need_ok x st (H x (or_introl eq_refl)))).
  apply IH. intros y Hy. apply H. by right.
Qed.

Lemma select_replace_ok l st :
  (forall x, In x l -> exists_node x (hst st) = true) ->
  select_replace l st = (Val tt, State (with_selection l (hst st)) (self st)).
Proof.
  intros H. unfold select_replace. by rewrite (bind_val _ _ _ _ _ (for_each_need_ok l st H)).
Qed.

Lemma select_add_ok d st :
  exists_node d (hst st) = true ->
  select_add (Some d) st
  = (Val tt, State (with_selection (selection (hst st) ++ [d]) (hst st)) (self st)).
Proof.
  intros H. unfold select_add. by rewrite (bind_val _ _ _ _ _ (need_ok d st H)).
Qed.

(** The split procedure is called once; when it fails, the failure is
    caught and reported. *)
Lemma split_call_once st :
  exists st',
    try_catch
      (do* on_host (fun h =>
                      with_log (cons (SplitCall (selection h)
                                        (optionVars h !! "splitPolyWithCurveOperation")))
                               h) in
       mel_eval "performSplitMeshWithProjectedCurve 0" split_effect)
      (fun e => warning ("Split failed: " +:+ e)) st
    = (Val tt, st')
    /\ split_calls (log (hst st'))
       = SplitCall (selection (hst st))
                   (optionVars (hst st) !! "splitPolyWithCurveOperation")
         :: split_calls (log (hst st))
    /\ selection (hst st') = selection (hst st)
    /\ optionVars (hst st') = optionVars (hst st)
    /\ self st' = self st.
Proof.
  unfold try_catch. rewrite bind_on_host. unfold mel_eval. simpl.
  destruct (existsb _ (mel_missing (hst st))); simpl; eauto 10.
Qed.

Lemma try_catch_bind_val {A B} (m : M A) (k : A -> M B) h st a st1 :
  m st = (Val a, st1) -> try_catch (bind m k) h st = try_catch (k a) h st1.
Proof. intros H. unfold try_catch, bind. by rewrite H. Qed.

Lemma execute_split_spec st :
  match names_of_kind CurveVarGroup (hst st) with
  | [] =>
      execute_split st
      = (Val tt, State (with_log (cons (Warning no_curve_warning)) (hst st)) (self st))
  | g :: gs =>
      forall d,
        duplicated_geo (self st) = Some d ->
        exists_node d (hst st) = true ->
        let st' := run execute_split st in
        outcome execute_split st = Val tt
        /\ split_calls (log (hst st'))
           = SplitCall ((g :: gs) ++ [d]) (Some (split_operation (hst st)))
             :: split_calls (log (hst st))
        /\ selection (hst st') = (g :: gs) ++ [d]
        /\ optionVars (hst st') !! "splitPolyWithCurveOperation"
           = Some (split_operation (hst st))
        /\ self st' = self st
  end.
Proof.
  destruct (names_of_kind CurveVarGroup (hst st)) as [|g gs] eqn:Hg.
  - unfold execute_split, ls_type. by rewrite bind_gets, Hg.
  - intros d Hd Hex.
    assert (H : exists st',
               execute_split st = (Val tt, st')
               /\ split_calls (log (hst st'))
                  = SplitCall ((g :: gs) ++ [d]) (Some (split_operation (hst st)))
                    :: split_calls (log (hst st))
               /\ selection (hst st') = (g :: gs) ++ [d]
               /\ optionVars (hst st')
                  = <["splitPolyWithCurveOperation":=split_operation (hst st)]>
                      (optionVars (hst st))
               /\ self st' = self st).
    { unfold execute_split, ls_type.
      rewrite bind_gets, Hg. rewrite (bind_val _ _ _ _ _ (keep_query _ _ _)).
      fold (split_operation (hst st)).
      unfold optionVar_int.
      erewrite try_catch_bind_val by reflexivity.
      erewrite try_catch_bind_val.
      2:{ apply select_replace_ok. intros x Hx. simpl.
          apply (names_of_kind_exist x CurveVarGroup (hst st)). by rewrite Hg. }
      erewrite try_catch_bind_val by reflexivity.
      simpl self. rewrite Hd.
      erewrite try_catch_bind_val by (by apply select_add_ok).
      unfold performSplitMeshWithProjectedCurve.
      edestruct split_call_once as (st' & -> & Hc & Hs & Ho & Hself).
      simpl in Hc, Hs, Ho, Hself. rewrite lookup_insert_eq in Hc.
      exists st'. repeat split; done. }
    destruct H as (st' & E & Hc & Hs & Ho & Hself).
    unfold run, outcome. rewrite E. simpl. repeat split; try done.
    rewrite Ho. apply lookup_insert_eq.
Qed.

(** ** What Finish leaves in the scene *)

Lemma names_of_kind_nodes h h' t :
  nodes h' = nodes h -> names_of_kind t h' = names_of_kind t h.
Proof. intros E. unfold names_of_kind. by rewrite E. Qed.

Lemma empty_by_contra {A} (l : list A) : (forall x, In x l -> False) -> l = [].
Proof. destruct l as [|a l]; [done|]. intros H. destruct (H a). by left. Qed.

Lemma cleans_clears_kind names dels st st1 t :
  cleans names dels st st1 ->
  (forall x, In x (names_of_kind t (hst st)) -> In x names) ->
  names_of_kind t (hst st1) = [].
Proof.
  intros C H. apply empty_by_contra. intros x Hx.
  pose proof (names_of_kind_exist _ _ _ Hx) as Hex.
  apply in_names_of_kind in Hx as (n & Hn & E & Hk).
  apply (cl_shrinks _ _ _ _ C) in Hn.
  assert (Hin : In x (names_of_kind t (hst st))) by (apply in_names_of_kind; eauto).
  apply H in Hin. apply (cl_gone _ _ _ _ C) in Hin. unfold gone in Hin. congruence.
Qed.

Lemma cleans_clears_split names dels st st1 :
  cleans names dels st st1 ->
  (forall x, In x (List.filter (ends_with "_split") (names_of_kind Transform (hst st))) ->
             In x names) ->
  List.filter (ends_with "_split") (names_of_kind Transform (hst st1)) = [].
Proof.
  intros C H. apply empty_by_contra. intros x Hx.
  apply filter_In in Hx as [Hx Hs].
  pose proof (names_of_kind_exist _ _ _ Hx) as Hex.
  apply in_names_of_kind in Hx as (n & Hn & E & Hk).
  apply (cl_shrinks _ _ _ _ C) in Hn.
  assert (Hin : In x (List.filter (ends_with "_split") (names_of_kind Transform (hst st)))).
  { apply filter_In. split; [|done]. apply in_names_of_kind. eauto. }
  apply H in Hin. apply (cl_gone _ _ _ _ C) in Hin. unfold gone in Hin. congruence.
Qed.

Lemma controls_restored ocs h : controls (restored ocs h) = controls h.
Proof.
  unfold restored. destruct ocs as [cs|]; [|done].
  by destruct (negb (String.eqb (cs_camera_shape cs) EmptyString)
               && exists_node (cs_camera_shape cs) h).
Qed.

Lemma log_restored ocs h : log (restored ocs h) = log h.
Proof.
  unfold restored. destruct ocs as [cs|]; [|done].
  by destruct (negb (String.eqb (cs_camera_shape cs) EmptyString)
               && exists_node (cs_camera_shape cs) h).
Qed.

Lemma checkbox_or_restored d name ocs h :
  checkbox_or d name (restored ocs h) = checkbox_or d name h.
Proof. unfold checkbox_or. by rewrite controls_restored. Qed.

Lemma tracked_skeleton s h h' : skeleton h = skeleton h' -> tracked s h = tracked s h'.
Proof.
  intros E. unfold tracked. destruct (projection_curves s) as [|c l].
  - destruct (projection_curve s) as [c|]; [|done].
    by rewrite (exists_node_skeleton _ _ c E).
  - apply filter_ext. intros x. by apply exists_node_skeleton.
Qed.

Lemma cleanup_names_skeleton keep s h h' :
  skeleton h = skeleton h' -> cleanup_names keep s h = cleanup_names keep s h'.
Proof.
  intros E. unfold cleanup_names.
  rewrite !(names_of_kind_skeleton _ _ _ E), (parent_names_skeleton _ _ _ E),
    (tracked_skeleton _ _ _ E). done.
Qed.

Lemma skeleton_before_deletes st : skeleton (before_deletes st) = skeleton (hst st).
Proof. unfold before_deletes. by rewrite skeleton_history_deleted, skeleton_restored. Qed.

(** The master lemma, in terms of the scene Finish is started in. *)
Lemma finish_cleans st :
  exists st' st1 dels,
    finish_and_cleanup st = (Val tt, st')
    /\ cleans (cleanup_names (checkbox_or false "keepHistory" (hst st)) (self st) (hst st))
              dels (State (before_deletes st) (self st)) st1
    /\ nodes (hst st') = nodes (hst st1)
    /\ log (hst st') = log (hst st1)
    /\ self st' = self st.
Proof.
  destruct (finish_and_cleanup_spec st) as (st' & st1 & dels & E & C & H).
  exists st', st1, dels. split; [done|]. split; [|done].
  rewrite checkbox_or_restored in C.
  by rewrite (cleanup_names_skeleton _ _ _ _ (skeleton_restored _ _)) in C.
Qed.

Lemma in_cleanup_names keep s h x :
  In x (cleanup_names keep s h)
  <-> In x (List.filter (ends_with "_split") (names_of_kind Transform h))
      \/ In x (names_of_kind Stroke h)
      \/ In x (parent_names (names_of_kind Stroke h) h)
      \/ In x (tracked s h)
      \/ (keep = false /\ In x (names_of_kind CurveVarGroup h))
      \/ In x (opt_list (temp_plane s)).
Proof.
  unfold cleanup_names. rewrite !in_app_iff.
  destruct keep; simpl; intuition congruence.
Qed.

(** C10.  Finish deletes by scene-wide queries: whatever the scene held
    when Finish was started, and whoever made it, no transform whose name
    ends with [_split] is left, no stroke, no parent of a stroke and, unless
    the keep option is set, no curve-variation group.  Execute Split, too,
    takes every curve-variation group of the scene: its one split call is
    made on all of them, followed by the duplicated geometry. *)
Theorem cleanup_is_scene_wide st :
  let st' := run finish_and_cleanup st in
  outcome finish_and_cleanup st = Val tt
  /\ List.filter (ends_with "_split") (names_of_kind Transform (hst st')) = []
  /\ names_of_kind Stroke (hst st') = []
  /\ (forall p, In p (parent_names (names_of_kind Stroke (hst st)) (hst st)) ->
                gone p (hst st'))
  /\ (checkbox_or false "keepHistory" (hst st) = false ->
      names_of_kind CurveVarGroup (hst st') = [])
  /\ (forall d, duplicated_geo (self st) = Some d ->
                exists_node d (hst st) = true ->
                names_of_kind CurveVarGroup (hst st) <> [] ->
                split_calls (log (hst (run execute_split st)))
                = SplitCall (names_of_kind CurveVarGroup (hst st) ++ [d])
                            (Some (split_operation (hst st)))
                  :: split_calls (log (hst st))).
Proof.
  destruct (finish_cleans st) as (st' & st1 & dels & E & C & Hn & Hl & Hs).
  pose proof (skeleton_before_deletes st) as Hsk.
  unfold run, outcome. rewrite E. simpl. split; [done|].
  split; [|split; [|split; [|split]]].
  - unfold names_of_kind. rewrite Hn. fold (names_of_kind Transform (hst st1)).
    apply (cleans_clears_split _ _ _ _ C). simpl. intros x Hx.
    rewrite (names_of_kind_skeleton _ _ _ Hsk) in Hx. apply in_cleanup_names. auto.
  - rewrite (names_of_kind_nodes _ _ _ Hn).
    apply (cleans_clears_kind _ _ _ _ _ C). simpl. intros x Hx.
    rewrite (names_of_kind_skeleton _ _ _ Hsk) in Hx. apply in_cleanup_names. auto.
  - intros p Hp. unfold gone. rewrite (exists_node_nodes _ _ _ Hn).
    apply (cl_gone _ _ _ _ C). apply in_cleanup_names. auto.
  - intros Hk. rewrite (names_of_kind_nodes _ _ _ Hn).
    apply (cleans_clears_kind _ _ _ _ _ C). simpl. intros x Hx.
    rewrite (names_of_kind_skeleton _ _ _ Hsk) in Hx. apply in_cleanup_names. auto 10.
  - intros d Hd Hex Hne. pose proof (execute_split_spec st) as H.
    destruct (names_of_kind CurveVarGroup (hst st)) as [|g gs]; [done|].
    by destruct (H d Hd Hex) as (_ & Hc & _).
Qed.

Lemma skeleton_in h h' n :
  skeleton h = skeleton h' -> In n (nodes h) ->
  exists n', In n' (nodes h') /\ nname n' = nname n /\ nkind n' = nkind n
             /\ npath n' = npath n.
Proof.
  intros E Hn.
  assert (Hin : In (nname n, nkind n, npath n) (skeleton h)).
  { unfold skeleton. apply in_map_iff. eauto. }
  rewrite E in Hin. unfold skeleton in Hin. apply in_map_iff in Hin as (n' & En & Hn').
  injection En as E1 E2 E3. eauto.
Qed.

Lemma history_deleted_in o h n :
  In n (nodes (history_deleted o h)) ->
  exists m, In m (nodes h) /\ nname m = nname n /\ nattrs m = nattrs n
            /\ (forall d, In d (opt_list o) -> nname n = d -> nhistory n = false).
Proof.
  unfold history_deleted, opt_list. destruct o as [x|].
  - destruct (truthy (Some x)) eqn:T; simpl.
    + destruct (exists_node x h) eqn:E; simpl.
      * intros Hn. apply in_map_iff in Hn as (m & <- & Hm). exists m.
        destruct (named x m) eqn:Em; simpl;
          (split; [done|]; split; [done|]; split; [done|]).
        { by intros d _ _. }
        intros d [<-|[]] Hd. apply named_true in Hd. congruence.
      * intros Hn. exists n. split; [done|]. split; [done|]. split; [done|].
        intros d [<-|[]] Hd.
        assert (exists_node x h = true) by (apply exists_node_spec; eauto).
        congruence.
    + intros Hn. exists n. split; [done|]. split; [done|]. split; [done|].
      intros d [].
  - intros Hn. exists n. split; [done|]. split; [done|]. split; [done|].
    intros d [].
Qed.

Lemma set_attr_in x a v h n :
  In n (nodes (set_attr x a v h)) ->
  exists m, In m (nodes h) /\ nname m = nname n
            /\ (forall b, b <> a -> nattrs n !! b = nattrs m !! b)
            /\ (nname n = x -> nattrs n !! a = Some v).
Proof.
  unfold set_attr. simpl. intros Hn. apply in_map_iff in Hn as (m & <- & Hm).
  exists m. destruct (named x m) eqn:E; simpl.
  - split; [done|]. split; [done|]. split.
    + intros b Hb. by apply lookup_insert_ne.
    + intros _. apply lookup_insert_eq.
  - split; [done|]. split; [done|]. split; [done|].
    intros Hx. apply named_true in Hx. congruence.
Qed.

Lemma restored_in ocs h n :
  In n (nodes (restored ocs h)) ->
  exists m, In m (nodes h) /\ nname m = nname n
            /\ nattrs n !! "visibility" = nattrs m !! "visibility"
            /\ (forall cs, ocs = Some cs ->
                           cs_camera_shape cs <> EmptyString ->
                           nname n = cs_camera_shape cs ->
                           nattrs n !! "orthographic" = Some (cs_orthographic cs)
                           /\ nattrs n !! "orthographicWidth"
                              = Some (cs_orthographicWidth cs)).
Proof.
  unfold restored. destruct ocs as [cs|].
  - destruct (String.eqb (cs_camera_shape cs) EmptyString) eqn:Es; simpl.
    + intros Hn. exists n. split; [done|]. split; [done|]. split; [done|].
      intros cs' [= <-] Hne. apply String.eqb_eq in Es. done.
    + destruct (exists_node (cs_camera_shape cs) h) eqn:E; simpl.
      * intros Hn.
        apply (set_attr_in _ _ _ (set_attr (cs_camera_shape cs) "orthographic"
                                     (cs_orthographic cs) h)) in Hn
          as (m1 & Hm1 & N1 & A1 & S1).
        apply set_attr_in in Hm1 as (m & Hm & N & A & S).
        exists m. split; [done|]. split; [congruence|]. split.
        { rewrite A1 by done. by apply A. }
        intros cs' [= <-] _ Hx. split; [|by apply S1].
        rewrite A1 by done. apply S. congruence.
      * intros Hn. exists n. split; [done|]. split; [done|]. split; [done|].
        intros cs' [= <-] _ Hx.
        assert (exists_node (cs_camera_shape cs) h = true)
          by (apply exists_node_spec; eauto).
        congruence.
  - intros Hn. exists n. split; [done|]. split; [done|]. split; [done|].
    intros cs [=].
Qed.

(** Every node Finish leaves was in the scene before Finish, hidden or
    shown as it was, and with the camera attributes of the snapshot if it
    is the camera shape. *)
Lemma finish_survivor st n :
  In n (nodes (hst (run finish_and_cleanup st))) ->
  exists m, In m (nodes (hst st)) /\ nname m = nname n
            /\ nattrs n !! "visibility" = nattrs m !! "visibility"
            /\ (forall cs, original_camera_state (self st) = Some cs ->
                           cs_camera_shape cs <> EmptyString ->
                           nname n = cs_camera_shape cs ->
                           nattrs n !! "orthographic" = Some (cs_orthographic cs)
                           /\ nattrs n !! "orthographicWidth"
                              = Some (cs_orthographicWidth cs))
            /\ (forall d, In d (opt_list (duplicated_geo (self st))) ->
                          nname n = d -> nhistory n = false).
Proof.
  destruct (finish_cleans st) as (st' & st1 & dels & E & C & Hn & Hl & Hs).
  unfold run. rewrite E. simpl. rewrite Hn. intros Hin.
  apply (cl_shrinks _ _ _ _ C) in Hin. simpl in Hin. unfold before_deletes in Hin.
  apply history_deleted_in in Hin as (m1 & Hm1 & N1 & A1 & H1).
  apply restored_in in Hm1 as (m & Hm & N & V & Cam).
  exists m. split; [done|]. split; [congruence|]. split; [by rewrite <- A1|].
  split; [|done].
  intros cs Hcs Hne Hx. rewrite <- A1. apply (Cam cs Hcs Hne). congruence.
Qed.

(** C7.  Finish restores the camera whatever the stage and the options:
    the camera shape of the snapshot, if the scene still has it after
    Finish, has the orthographic flag and width of the snapshot.  And Finish
    shows nothing that was hidden: every node it leaves has the visibility
    it had before, so the original geometry stays hidden. *)
Theorem finish_restores_camera_not_visibility st :
  let st' := run finish_and_cleanup st in
  outcome finish_and_cleanup st = Val tt
  /\ (forall cs n,
        original_camera_state (self st) = Some cs ->
        cs_camera_shape cs <> EmptyString ->
        In n (nodes (hst st')) ->
        nname n = cs_camera_shape cs ->
        nattrs n !! "orthographic" = Some (cs_orthographic cs)
        /\ nattrs n !! "orthographicWidth" = Some (cs_orthographicWidth cs))
  /\ (forall n, In n (nodes (hst st')) ->
                exists m, In m (nodes (hst st)) /\ nname m = nname n
                          /\ nattrs m !! "visibility" = nattrs n !! "visibility").
Proof.
  split; [|split].
  - destruct (finish_cleans st) as (st' & st1 & dels & E & _).
    unfold outcome. by rewrite E.
  - intros cs n Hcs Hne Hn Hx.
    destruct (finish_survivor st n Hn) as (m & _ & _ & _ & Cam & _). eauto.
  - intros n Hn.
    destruct (finish_survivor st n Hn) as (m & Hm & N & V & _). eauto.
Qed.

Lemma under_same x n n' :
  nname n' = nname n -> npath n' = npath n -> under x n' = under x n.
Proof. intros E1 E2. unfold under, named, in_path. by rewrite E1, E2. Qed.

Lemma tracked_or_gone s h x :
  In x (projection_curves s) -> In x (tracked s h) \/ gone x h.
Proof.
  intros Hx. unfold tracked. destruct (projection_curves s) as [|c l]; [done|].
  destruct (exists_node x h) eqn:E; [left|by right].
  apply filter_In. auto.
Qed.

(** X13.  Finish never fails and leaves in the scene: not the temporary
    plane the session records, no stroke and no parent of a stroke, none of
    the reference curves the session records, and no construction history
    on the duplicated geometry.  Without the keep option no curve-variation
    group is left.  With it, Finish deletes no group for being a group: a
    group of the scene as Finish found it, of this Conversion or not, is
    still there unless it is one of the other nodes Finish deletes, or
    under one. *)
Theorem finish_removes_what_it_finds st :
  let st' := run finish_and_cleanup st in
  let keep := checkbox_or false "keepHistory" (hst st) in
  outcome finish_and_cleanup st = Val tt
  /\ (forall x, In x (opt_list (temp_plane (self st))) -> gone x (hst st'))
  /\ names_of_kind Stroke (hst st') = []
  /\ (forall p, In p (parent_names (names_of_kind Stroke (hst st)) (hst st)) ->
                gone p (hst st'))
  /\ (forall x, In x (projection_curves (self st)) -> gone x (hst st'))
  /\ (forall d n, In d (opt_list (duplicated_geo (self st))) ->
                  In n (nodes (hst st')) -> nname n = d -> nhistory n = false)
  /\ (keep = false -> names_of_kind CurveVarGroup (hst st') = [])
  /\ (keep = true ->
      forall n, In n (nodes (hst st)) -> nkind n = CurveVarGroup ->
                (forall x, In x (cleanup_names true (self st) (hst st)) ->
                           under x n = false) ->
                In (nname n) (names_of_kind CurveVarGroup (hst st'))).
Proof.
  intros st0' keep.
  assert (Hsurv : forall n, In n (nodes (hst st0')) ->
                            forall d, In d (opt_list (duplicated_geo (self st))) ->
                                      nname n = d -> nhistory n = false).
  { intros n Hn. by destruct (finish_survivor st n Hn) as (m & _ & _ & _ & _ & H). }
  subst st0'.
  destruct (finish_cleans st) as (st' & st1 & dels & E & C & Hn & Hl & Hs).
  fold keep in C.
  pose proof (skeleton_before_deletes st) as Hsk.
  unfold run, outcome in *. rewrite E in *. simpl in *. split; [done|].
  split; [|split; [|split; [|split; [|split; [|split]]]]].
  - intros x Hx. unfold gone. rewrite (exists_node_nodes _ _ _ Hn).
    apply (cl_gone _ _ _ _ C). apply in_cleanup_names. auto 10.
  - rewrite (names_of_kind_nodes _ _ _ Hn).
    apply (cleans_clears_kind _ _ _ _ _ C). simpl. intros x Hx.
    rewrite (names_of_kind_skeleton _ _ _ Hsk) in Hx. apply in_cleanup_names. auto.
  - intros p Hp. unfold gone. rewrite (exists_node_nodes _ _ _ Hn).
    apply (cl_gone _ _ _ _ C). apply in_cleanup_names. auto.
  - intros x Hx. unfold gone. rewrite (exists_node_nodes _ _ _ Hn).
    destruct (tracked_or_gone _ (hst st) _ Hx) as [Ht|Hg].
    + apply (cl_gone _ _ _ _ C). apply in_cleanup_names. auto 10.
    + apply (gone_shrinks _ _ _ (cl_shrinks _ _ _ _ C)). simpl. unfold gone.
      by rewrite (exists_node_skeleton _ _ x Hsk).
  - intros d n Hd Hin Hx. eauto.
  - intros Hk. rewrite (names_of_kind_nodes _ _ _ Hn).
    apply (cleans_clears_kind _ _ _ _ _ C). simpl. intros x Hx.
    rewrite (names_of_kind_skeleton _ _ _ Hsk) in Hx. apply in_cleanup_names. auto 10.
  - intros Hk n Hin Hkind Hfree. rewrite Hk in C.
    destruct (skeleton_in _ _ n (eq_sym Hsk) Hin) as (nB & HB & N & K & P).
    rewrite (names_of_kind_nodes _ _ _ Hn). apply in_names_of_kind.
    destruct (cl_frame _ _ _ _ C nB HB) as [H|[H|(x & Hx & Hu)]].
    + exists nB. split; [done|]. split; [done|]. by rewrite K, Hkind.
    + congruence.
    + destruct (cl_dels _ _ _ _ C x Hx) as (Hnames & _).
      rewrite (under_same _ _ _ N P) in Hu. rewrite Hfree in Hu; done.
Qed.

(** ** Conversion: one stroke *)

Lemma connectAttr_ok src dst st :
  exists_node (fst src) (hst st) = true ->
  exists_node (fst dst) (hst st) = true ->
  connectAttr src dst st
  = (Val tt,
     State (with_conns
              (fun l => (src, dst) :: List.filter (fun c => negb (plug_eqb (snd c) dst)) l)
              (with_log (cons (ConnectCall src dst)) (hst st)))
           (self st)).
Proof.
  intros H1 H2. unfold connectAttr. rewrite bind_on_host.
  erewrite bind_val by (apply need_ok; exact H1).
  erewrite bind_val by (apply need_ok; exact H2).
  done.
Qed.

Lemma circle_eq name st :
  circle name st
  = (Val [unique_name (hst st) name], State (circle_added name (hst st)) (self st)).
Proof. done. Qed.

Lemma extends_circle_added name h : extends h (circle_added name h).
Proof.
  unfold circle_added. eapply extends_trans; apply extends_add_node.
Qed.

Lemma circle_added_exists name h :
  exists_node (unique_name h name) (circle_added name h) = true.
Proof.
  unfold circle_added. rewrite !exists_node_add_node. unfold named. simpl.
  by rewrite String.eqb_refl, orb_true_r.
Qed.

Lemma circle_added_shape name h :
  exists sh, In sh (shapes_of (unique_name h name) (circle_added name h)).
Proof.
  eexists. unfold shapes_of. apply in_map_iff. eexists. split; [reflexivity|].
  apply filter_In. split.
  - unfold circle_added, add_node. simpl. apply in_app_iff. right. by left.
  - unfold child_of. simpl. by rewrite String.eqb_refl.
Qed.

Lemma shapes_of_exist x sh h : In sh (shapes_of x h) -> exists_node sh h = true.
Proof.
  unfold shapes_of. intros H. apply in_map_iff in H as (n & E & Hn).
  apply filter_In in Hn as [Hn _]. apply exists_node_spec. eauto.
Qed.

Lemma listRelatives_parent_ok x st :
  exists_node x (hst st) = true ->
  exists l, listRelatives_parent x st = (Val l, st).
Proof.
  intros H. destruct (exists_lookup _ _ H) as [n Hn].
  unfold listRelatives_parent. rewrite Hn. eauto.
Qed.

Lemma names_of_kind_add_node t n h :
  names_of_kind t (add_node n h)
  = names_of_kind t h ++ (if kind_is t (nkind n) then [nname n] else []).
Proof.
  unfold names_of_kind, add_node. simpl. rewrite List.filter_app, map_app. simpl.
  by destruct (kind_is t (nkind n)).
Qed.

Lemma convert_stroke_invalid i s st :
  nonempty s && exists_node s (hst st) = false ->
  convert_stroke (i, s) st
  = (Val tt, State (with_log (cons (Warning (invalid_warning i))) (hst st)) (self st)).
Proof.
  intros H. unfold convert_stroke, and_m, objExists. simpl fst. simpl snd.
  fold (nonempty s). destruct (nonempty s); simpl in H.
  - by rewrite bind_gets, H.
  - by rewrite bind_ret.
Qed.

Lemma convert_stroke_valid i s st :
  nonempty s = true ->
  exists_node s (hst st) = true ->
  let c := unique_name (hst st) (curve_name i) in
  exists st' sh,
    convert_stroke (i, s) st = (Val tt, st')
    /\ self st' = set_projection_curves (projection_curves (self st) ++ [c]) (self st)
    /\ extends (hst st) (hst st')
    /\ exists_node c (hst st') = true
    /\ In sh (shapes_of c (hst st'))
    /\ log (hst st') = ConnectCall (s, "outMainCurves[0]") (sh, "create") :: log (hst st)
    /\ controls (hst st') = controls (hst st)
    /\ names_of_kind CurveVarGroup (hst st') = names_of_kind CurveVarGroup (hst st).
Proof.
  intros Hs Hex c. unfold convert_stroke, and_m, objExists. simpl fst. simpl snd.
  fold (nonempty s). rewrite Hs, bind_gets, Hex. cbn [negb].
  destruct (listRelatives_parent_ok s st Hex) as [l El].
  rewrite (bind_val _ _ _ _ _ El).
  fold (curve_name i). rewrite (bind_val _ _ _ _ _ (circle_eq _ _)).
  cbn [first]. rewrite bind_ret. fold c.
  set (h2 := circle_added (curve_name i) (hst st)).
  assert (Hc : exists_node c h2 = true) by apply circle_added_exists.
  unfold listRelatives_shapes.
  erewrite bind_val.
  2:{ erewrite bind_val by (apply need_ok; exact Hc). reflexivity. }
  simpl hst.
  destruct (circle_added_shape (curve_name i) (hst st)) as [sh0 Hsh0].
  fold c h2 in Hsh0.
  destruct (shapes_of c h2) as [|sh shs] eqn:Esh; [destruct Hsh0|].
  cbn [first]. rewrite bind_ret, bind_on_self.
  assert (Hin : In sh (shapes_of c h2)) by (rewrite Esh; by left).
  rewrite connectAttr_ok.
  2:{ simpl. eapply extends_exists; [apply extends_circle_added|done]. }
  2:{ simpl. by eapply shapes_of_exist. }
  eexists _, sh. split; [reflexivity|]. simpl.
  split; [done|]. split; [apply extends_circle_added|].
  split; [done|]. split; [done|]. split; [done|]. split; [done|].
  change (names_of_kind CurveVarGroup h2 = names_of_kind CurveVarGroup (hst st)).
  unfold h2, circle_added. rewrite !names_of_kind_add_node. simpl.
  by rewrite !app_nil_r.
Qed.

(** ** Conversion: the loop over the strokes *)

Lemma extends_shapes_of h h' c sh :
  extends h h' -> In sh (shapes_of c h) -> In sh (shapes_of c h').
Proof.
  intros [l E] H. unfold shapes_of in *. rewrite E, List.filter_app, map_app.
  apply in_app_iff. by left.
Qed.

Lemma extends_fresh h h' x :
  extends h h' -> exists_node x h' = false -> exists_node x h = false.
Proof.
  intros He H. destruct (exists_node x h) eqn:E; [|done].
  by rewrite (extends_exists _ _ _ He E) in H.
Qed.

Lemma convert_loop strokes :
  forall i st,
    (forall s, In s strokes -> exists_node s (hst st) = true) ->
    exists st' new shapes,
      for_each (enumerate_from i strokes) convert_stroke st = (Val tt, st')
      /\ converted strokes new shapes st st'.
Proof.
  induction strokes as [|s strokes IH]; intros i st Hall.
  - exists st, [], []. split; [done|]. split; simpl; auto using extends_refl.
    + rewrite app_nil_r. by destruct (self st).
    + constructor.
    + exists []. by repeat split.
  - assert (Hs : exists_node s (hst st) = true) by (apply Hall; by left).
    simpl enumerate_from. simpl for_each.
    destruct (nonempty s) eqn:En.
    + destruct (convert_stroke_valid i s st En Hs)
        as (st1 & sh & E1 & S1 & X1 & C1 & Sh1 & L1 & U1 & G1).
      destruct (IH (S i) st1) as (st2 & new & shapes & E2 & Cv).
      { intros s' Hs'. eapply extends_exists; [exact X1|]. apply Hall. by right. }
      destruct Cv as [S2 X2 U2 N2 F2 D2 Sh2 G2 (added & L2 & Lc & Lp & Ls & Lw)].
      exists st2, (unique_name (hst st) (curve_name i) :: new), (sh :: shapes).
      rewrite (bind_val _ _ _ _ _ E1). split; [exact E2|]. split.
      * rewrite S2, S1. simpl. by rewrite <- app_assoc.
      * eauto using extends_trans.
      * congruence.
      * simpl. rewrite En. simpl. by rewrite N2.
      * constructor.
        -- split; [apply unique_name_fresh|]. eapply extends_exists; eauto.
        -- eapply Forall_impl; [exact F2|]. simpl. intros c [H1 H2].
           split; [|done]. eapply extends_fresh; eauto.
      * apply NoDup_cons. split; [|done]. intros Hin.
        rewrite Forall_forall in F2.
        destruct (F2 _ Hin) as [H1 _]. congruence.
      * constructor; [|done]. eapply extends_shapes_of; eauto.
      * congruence.
      * exists (added ++ [ConnectCall (s, "outMainCurves[0]") (sh, "create")]).
        rewrite L2, L1. simpl. rewrite En. simpl.
        unfold connect_calls, project_calls, split_calls, warnings in *.
        rewrite !List.filter_app, Lc, Lp, Ls, length_app, Lw. simpl.
        rewrite <- app_assoc. repeat split; try done; try lia.
    + rewrite (bind_val _ _ _ _ _ (convert_stroke_invalid i s st
                                     ltac:(by rewrite En))).
      destruct (IH (S i)
                  (State (with_log (cons (Warning (invalid_warning i))) (hst st)) (self st)))
        as (st2 & new & shapes & E2 & Cv).
      { intros s' Hs'. simpl. apply Hall. by right. }
      destruct Cv as [S2 X2 U2 N2 F2 D2 Sh2 G2 (added & L2 & Lc & Lp & Ls & Lw)].
      exists st2, new, shapes. split; [exact E2|]. split; simpl in *; auto.
      * by rewrite En.
      * exists (added ++ [Warning (invalid_warning i)]).
        rewrite L2. rewrite En. simpl.
        unfold connect_calls, project_calls, split_calls, warnings in *.
        rewrite !List.filter_app, Lc, Lp, Ls, length_app, Lw. simpl.
        rewrite <- app_assoc, app_nil_r. repeat split; try done; try lia.
Qed.

(** ** Conversion: the projections *)

Lemma read_settings_eq st : read_settings st = (Val (settings (hst st)), st).
Proof.
  unfold read_settings, settings, try_assign, intField_query, floatField_query,
    checkBox_query, query, bind, ret, raise, default_params.
  destruct (controls (hst st) !! "curveSamples") as [[? []]|]; simpl; try done.
  destruct (controls (hst st) !! "projTolerance") as [[? []]|]; simpl; try done.
  destruct (controls (hst st) !! "pointsOnEdges") as [[? []]|]; simpl; try done.
  destruct (controls (hst st) !! "automatic") as [[? []]|]; simpl; done.
Qed.

Lemma names_of_kind_group_added h :
  names_of_kind CurveVarGroup (group_added h)
  = names_of_kind CurveVarGroup h ++ [unique_name h "polyProjectionCurve1"].
Proof.
  unfold group_added. rewrite !names_of_kind_add_node. simpl. by rewrite app_nil_r.
Qed.

Lemma extends_group_added h : extends h (group_added h).
Proof. unfold group_added. eapply extends_trans; apply extends_add_node. Qed.

Lemma polyProjectCurve_ok c d p st :
  exists_node c (hst st) = true ->
  exists_node d (hst st) = true ->
  exists pc,
    polyProjectCurve c (Some d) p st
    = (Val [pc; unique_name (hst st) "polyProjectionCurve1"],
       State (group_added (with_log (cons (ProjectCall c (Some d) p)) (hst st)))
             (self st)).
Proof.
  intros Hc Hd. unfold polyProjectCurve. rewrite bind_on_host.
  erewrite bind_val by (apply need_ok; exact Hc).
  erewrite bind_val by (apply need_ok; exact Hd).
  eexists. reflexivity.
Qed.

(** A projection on a mesh that is not there is asked for, and raises. *)
Lemma polyProjectCurve_no_mesh c p st :
  exists_node c (hst st) = true ->
  exists e,
    polyProjectCurve c None p st
    = (Exc e, State (with_log (cons (ProjectCall c None p)) (hst st)) (self st)).
Proof.
  intros Hc. unfold polyProjectCurve. rewrite bind_on_host.
  erewrite bind_val by (apply need_ok; exact Hc).
  eexists. reflexivity.
Qed.

Lemma project_loop p d curves :
  forall acc st,
    duplicated_geo (self st) = Some d ->
    exists_node d (hst st) = true ->
    (forall c, In c curves -> exists_node c (hst st) = true) ->
    exists st' groups,
      fold_m (project_curve p) curves acc st = (Val (acc ++ groups), st')
      /\ self st' = self st
      /\ extends (hst st) (hst st')
      /\ controls (hst st') = controls (hst st)
      /\ log (hst st') = rev (projections d p curves) ++ log (hst st)
      /\ length groups = length curves
      /\ names_of_kind CurveVarGroup (hst st')
         = names_of_kind CurveVarGroup (hst st) ++ groups
      /\ Forall (fun g => exists_node g (hst st) = false) groups
      /\ NoDup groups.
Proof.
  induction curves as [|c curves IH]; intros acc st Hd Hex Hall.
  - exists st, []. simpl. rewrite !app_nil_r.
    repeat split; auto using extends_refl; constructor.
  - assert (Hc : exists_node c (hst st) = true) by (apply Hall; by left).
    destruct (polyProjectCurve_ok c d p st Hc Hex) as [pc E].
    set (g := unique_name (hst st) "polyProjectionCurve1") in *.
    set (st1 := State (group_added (with_log (cons (ProjectCall c (Some d) p)) (hst st)))
                      (self st)) in *.
    assert (E' : project_curve p acc c st = (Val (acc ++ [g]), st1)).
    { unfold project_curve. rewrite bind_gets, Hd. by rewrite (bind_val _ _ _ _ _ E). }
    simpl fold_m. rewrite (bind_val _ _ _ _ _ E').
    assert (X1 : extends (hst st) (hst st1)).
    { apply (extends_group_added (with_log (cons (ProjectCall c (Some d) p)) (hst st))). }
    destruct (IH (acc ++ [g]) st1) as (st2 & groups & E2 & S2 & X2 & U2 & L2 & N2 & G2 & F2 & D2).
    { done. }
    { eapply extends_exists; eauto. }
    { intros c' Hc'. eapply extends_exists; [exact X1|]. apply Hall. by right. }
    exists st2, (g :: groups). rewrite E2, <- app_assoc. simpl.
    split; [done|]. split; [done|]. split; [eauto using extends_trans|].
    split; [done|]. split.
    { rewrite L2. simpl. by rewrite <- app_assoc. }
    split; [by rewrite N2|]. split.
    { rewrite G2. unfold st1. simpl.
      rewrite (names_of_kind_group_added
                 (with_log (cons (ProjectCall c (Some d) p)) (hst st))).
      by rewrite <- app_assoc. }
    split.
    + constructor.
      * apply (unique_name_fresh (hst st)).
      * eapply Forall_impl; [exact F2|]. simpl. intros g' Hg'.
        eapply extends_fresh; eauto.
    + apply NoDup_cons. split; [|done]. intros Hin.
      rewrite Forall_forall in F2. specialize (F2 _ Hin).
      assert (exists_node g (hst st1) = true).
      { apply names_of_kind_exist with (t := CurveVarGroup). unfold st1. simpl.
        rewrite (names_of_kind_group_added
                   (with_log (cons (ProjectCall c (Some d) p)) (hst st))).
        apply in_app_iff. right. by left. }
      congruence.
Qed.

Lemma try_catch_val {A} (m : M A) h st a st' :
  m st = (Val a, st') -> try_catch m h st = (Val a, st').
Proof. intros H. unfold try_catch. by rewrite H. Qed.

Lemma settings_controls h h' : controls h' = controls h -> settings h' = settings h.
Proof. intros E. unfold settings. by rewrite E. Qed.

Lemma projections_are_calls d p curves :
  project_calls (rev (projections d p curves)) = rev (projections d p curves)
  /\ connect_calls (rev (projections d p curves)) = []
  /\ split_calls (rev (projections d p curves)) = []
  /\ warnings (rev (projections d p curves)) = [].
Proof.
  unfold project_calls, connect_calls, split_calls, warnings, projections.
  induction curves as [|c curves (I1 & I2 & I3 & I4)]; simpl; [done|].
  rewrite !List.filter_app, I1, I2, I3, I4. done.
Qed.

(** ** Conversion, as a whole *)
Lemma convert_and_project_spec st :
  match names_of_kind Stroke (hst st) with
  | [] =>
      convert_and_project st
      = (Val tt, State (with_log (cons (Warning no_stroke_warning)) (hst st)) (self st))
  | s :: ss =>
      forall d,
        duplicated_geo (self st) = Some d ->
        exists_node d (hst st) = true ->
        exists st' curves shapes groups,
          convert_and_project st = (Val tt, st')
          /\ conversion (s :: ss) d curves shapes groups st st'
  end.
Proof.
  destruct (names_of_kind Stroke (hst st)) as [|s ss] eqn:Hst.
  - unfold convert_and_project, ls_type. by rewrite bind_gets, Hst.
  - intros d Hd Hex. unfold convert_and_project, ls_type.
    rewrite bind_gets, Hst, bind_on_self.
    set (st0 := State (hst st) (set_projection_curves [] (self st))).
    destruct (convert_loop (s :: ss) 0 st0) as (st1 & new & shapes & E1 & Cv).
    { intros x Hx. simpl. apply (names_of_kind_exist x Stroke). by rewrite Hst. }
    rewrite (bind_val _ _ _ _ _ E1).
    destruct Cv as [S1 X1 U1 N1 F1 D1 Sh1 G1 (added & L1 & Lc & Lp & Ls & Lw)].
    simpl in S1, X1, U1, F1, L1, G1.
    rewrite bind_gets. rewrite S1. simpl projection_curves.
    destruct new as [|c new].
    + simpl. exists (State (with_log (cons (Warning no_valid_curve_warning)) (hst st1))
                           (self st1)), [], [], [].
      split; [done|]. inversion Sh1; subst.
      split; simpl; rewrite ?S1; simpl; auto; try constructor.
      * by rewrite app_nil_r.
      * exists (Warning no_valid_curve_warning :: added). rewrite L1.
        unfold connect_calls, project_calls, split_calls, warnings in *. simpl.
        rewrite Lc, Lp, Ls, Lw. unfold projections. simpl.
        rewrite combine_nil. repeat split; try done. lia.
    + cbn [when]. rewrite bind_on_self.
      set (st2 := State (hst st1)
                        (set_projection_curve (head (c :: new)) (self st1))).
      assert (Hd2 : duplicated_geo (self st2) = Some d).
      { unfold st2. simpl. rewrite S1. simpl. done. }
      destruct (project_loop (settings (hst st2)) d (c :: new) [] st2 Hd2)
        as (st3 & groups & E3 & S3 & X3 & U3 & L3 & N3 & G3 & F3 & D3).
      { simpl. eapply extends_exists; eauto. }
      { intros x Hx. simpl. rewrite Forall_forall in F1.
        apply list_elem_of_In in Hx. by destruct (F1 _ Hx). }
      assert (Hp : projection_curves (self st2) = c :: new).
      { unfold st2. simpl. rewrite S1. simpl. done. }
      exists st3, (c :: new), shapes, groups. split.
      * apply try_catch_val.
        rewrite (bind_val _ _ _ _ _ (read_settings_eq st2)).
        rewrite bind_gets, Hp. rewrite (bind_val _ _ _ _ _ E3). done.
      * simpl in X3, U3, L3, G3, F3.
        assert (Hset : settings (hst st1) = settings (hst st))
          by (apply settings_controls; congruence).
        rewrite Hset in L3.
        split; rewrite ?S3; simpl; rewrite ?S1; simpl; auto.
        -- eauto using extends_trans.
        -- eapply Forall_impl; [exact F1|]. simpl. intros x [H1 H2].
           split; [done|]. eapply extends_exists; eauto.
        -- eapply Forall2_impl; [exact Sh1|]. simpl. intros x y H.
           eapply extends_shapes_of; eauto.
        -- rewrite G3. f_equal.
           done.
        -- eapply Forall_impl; [exact F3|]. simpl. intros g Hg.
           eapply extends_fresh; eauto.
        -- exists (rev (projections d (settings (hst st)) (c :: new)) ++ added).
           rewrite L3, L1, <- app_assoc.
           destruct (projections_are_calls d (settings (hst st)) (c :: new))
             as (P1 & P2 & P3 & P4).
           unfold connect_calls, project_calls, split_calls, warnings in *.
           rewrite !List.filter_app, P1, P2, P3, P4, Lc, Lp, Ls. simpl.
           rewrite app_nil_r. repeat split; try done.
           ++ by rewrite <- !app_assoc.
           ++ rewrite Nat.add_0_r. exact Lw.
Qed.

(** ** Reading a run backwards *)

Lemma bind_val_inv {A B} (m : M A) (k : A -> M B) st b st' :
  bind m k st = (Val b, st') ->
  exists a st1, m st = (Val a, st1) /\ k a st1 = (Val b, st').
Proof.
  unfold bind. destruct (m st) as [[a|e] st1]; [eauto|discriminate].
Qed.

Lemma need_inv x st u st' :
  need x st = (Val u, st') -> st' = st /\ exists_node x (hst st) = true.
Proof.
  unfold need. destruct (exists_node x (hst st)); [|discriminate].
  intros [= _ <-]. done.
Qed.

Lemma setAttr_inv x a v st u st' :
  setAttr x a v st = (Val u, st') ->
  st' = State (set_attr x a v (hst st)) (self st) /\ exists_node x (hst st) = true.
Proof.
  unfold setAttr. intros H. apply bind_val_inv in H as (? & st1 & H1 & H2).
  apply need_inv in H1 as [-> Hex]. injection H2 as _ <-. done.
Qed.

Lemma getAttr_inv x a st v st' :
  getAttr x a st = (Val v, st') -> st' = st /\ attr_of x a (hst st) = Some v.
Proof.
  unfold getAttr, attr_of. destruct (lookup_node x (hst st)) as [n|]; [|discriminate].
  destruct (nattrs n !! a); [|discriminate]. intros [= -> <-]. done.
Qed.

Lemma first_inv {A} (l : list A) st a st' :
  first l st = (Val a, st') -> st' = st /\ exists l', l = a :: l'.
Proof. destruct l as [|b l]; [discriminate|]. intros [= -> <-]. eauto. Qed.

Lemma listRelatives_shapes_inv x st l st' :
  listRelatives_shapes x st = (Val l, st') ->
  st' = st /\ l = shapes_of x (hst st).
Proof.
  unfold listRelatives_shapes. intros H. apply bind_val_inv in H as (? & st1 & H1 & H2).
  apply need_inv in H1 as [-> _]. injection H2 as <- <-. done.
Qed.

Lemma exactWorldBoundingBox_inv x st b st' :
  exactWorldBoundingBox x st = (Val b, st') ->
  st' = st /\ exists n, lookup_node x (hst st) = Some n /\ b = nbbox n.
Proof.
  unfold exactWorldBoundingBox. destruct (lookup_node x (hst st)) as [n|]; [|discriminate].
  intros [= <- <-]. eauto.
Qed.

Lemma connectAttr_inv src dst st u st' :
  connectAttr src dst st = (Val u, st') ->
  st' = State (with_conns
                 (fun l => (src, dst)
                           :: List.filter (fun c => negb (plug_eqb (snd c) dst)) l)
                 (with_log (cons (ConnectCall src dst)) (hst st)))
              (self st).
Proof.
  unfold connectAttr. rewrite bind_on_host. intros H.
  apply bind_val_inv in H as (? & st1 & H1 & H). apply need_inv in H1 as [-> _].
  apply bind_val_inv in H as (? & st2 & H2 & H). apply need_inv in H2 as [-> _].
  by injection H as _ <-.
Qed.

Lemma parent_inv child newparent st u st' :
  parent child newparent st = (Val u, st') ->
  exists p, st' = State (with_nodes (map (reparent child (newparent :: npath p))) (hst st))
                        (self st).
Proof.
  unfold parent. destruct (lookup_node newparent (hst st)) as [p|]; [|discriminate].
  destruct (exists_node child (hst st)); [|discriminate].
  intros [= _ <-]. eauto.
Qed.

(** Finding the panel and its camera changes nothing. *)
Lemma typeOf_pure p st r st' : getPanel_typeOf p st = (r, st') -> st' = st.
Proof.
  unfold getPanel_typeOf. destruct (find_panel p (hst st)); by intros [= _ <-].
Qed.

Lemma is_model_pure p st r st' :
  (let* t := getPanel_typeOf p in ret (String.eqb t "modelPanel")) st = (r, st') ->
  st' = st.
Proof.
  unfold bind. destruct (getPanel_typeOf p st) as [[t|e] st1] eqn:E;
    apply typeOf_pure in E as ->; by intros [= _ <-].
Qed.

Lemma filter_m_pure {A} (f : A -> M bool) l :
  (forall a st r st', f a st = (r, st') -> st' = st) ->
  forall st r st', filter_m f l st = (r, st') -> st' = st.
Proof.
  intros Hf. induction l as [|a l IH]; intros st r st'; simpl.
  - by intros [= _ <-].
  - unfold bind at 1. destruct (f a st) as [[b|e] st1] eqn:E;
      apply Hf in E as ->; [|by intros [= _ <-]].
    unfold bind at 1. destruct (filter_m f l st) as [[b'|e] st1] eqn:E';
      apply IH in E' as ->; by intros [= _ <-].
Qed.

Lemma current_model_panel_pure st r st' :
  current_model_panel st = (r, st') -> st' = st.
Proof.
  unfold current_model_panel, getPanel_withFocus, getPanel_visiblePanels.
  rewrite bind_gets. unfold bind at 1.
  destruct (and_m _ _ st) as [[b|e] st1] eqn:E.
  - assert (st1 = st) as ->.
    { unfold and_m in E. destruct (negb _); [by apply is_model_pure in E|].
      by injection E as _ <-. }
    destruct b; [by intros [= _ <-]|].
    rewrite bind_gets. unfold bind.
    destruct (filter_m _ _ st) as [[l|e] st1] eqn:E'.
    + apply filter_m_pure in E' as ->; [by intros [= _ <-]|].
      intros a st0 r0 st0'. apply is_model_pure.
    + apply filter_m_pure in E' as ->; [by intros [= _ <-]|].
      intros a st0 r0 st0'. apply is_model_pure.
  - assert (st1 = st) as ->.
    { unfold and_m in E. destruct (negb _); [by apply is_model_pure in E|].
      by injection E as _ <-. }
    by intros [= _ <-].
Qed.

Lemma modelPanel_camera_pure p st r st' : modelPanel_camera p st = (r, st') -> st' = st.
Proof.
  unfold modelPanel_camera. destruct p as [p|]; [|by intros [= _ <-]].
  destruct (find_panel p (hst st)) as [q|]; [|by intros [= _ <-]].
  destruct (String.eqb (ptype q) "modelPanel"); by intros [= _ <-].
Qed.

(** ** Paint Activation: the camera *)

Lemma setup_orthographic_camera_inv st u st' :
  setup_orthographic_camera st = (Val u, st') ->
  exists cam cs o w t nt,
    target_geo (self st) = Some t
    /\ lookup_node t (hst st) = Some nt
    /\ exists_node cs (hst st) = true
    /\ In cs (shapes_of cam (hst st))
    /\ attr_of cs "orthographic" (hst st) = Some o
    /\ attr_of cs "orthographicWidth" (hst st) = Some w
    /\ st' = State (camera_set cs (stored (bbox_width (nbbox nt))) (hst st))
                   (set_original_camera_state (Some (CameraState cam cs o w)) (self st)).
Proof.
  unfold setup_orthographic_camera. intros H.
  apply bind_val_inv in H as (panel & st1 & H1 & H).
  apply current_model_panel_pure in H1 as ->.
  apply bind_val_inv in H as (cam & st1 & H1 & H).
  apply modelPanel_camera_pure in H1 as ->.
  apply bind_val_inv in H as (shapes & st1 & H1 & H).
  apply listRelatives_shapes_inv in H1 as [-> ->].
  apply bind_val_inv in H as (cs & st1 & H1 & H).
  apply first_inv in H1 as [-> [l' El]].
  apply bind_val_inv in H as (o & st1 & H1 & H).
  apply getAttr_inv in H1 as [-> Ho].
  apply bind_val_inv in H as (w & st1 & H1 & H).
  apply getAttr_inv in H1 as [-> Hw].
  rewrite bind_on_self, bind_gets in H. simpl self in H. simpl target_geo in H.
  destruct (target_geo (self st)) as [t|] eqn:Et.
  2:{ apply bind_val_inv in H as (? & ? & H1 & _). discriminate. }
  apply bind_val_inv in H as (b & st1 & H1 & H).
  apply exactWorldBoundingBox_inv in H1 as [-> (nt & Hnt & ->)].
  apply bind_val_inv in H as (? & st1 & H1 & H).
  apply setAttr_inv in H1 as [-> Hex].
  apply bind_val_inv in H as (? & st1 & H1 & H).
  apply setAttr_inv in H1 as [-> _].
  unfold tumbleCtx_orthoLock, tumbleCtx_autoOrthoConstrain in H.
  rewrite bind_on_host in H. injection H as _ <-.
  exists cam, cs, o, w, t, nt. simpl in Hex.
  split; [done|]. split; [done|]. split; [done|].
  split; [rewrite El; by left|]. done.
Qed.

(** ** Nodes kept up to one attribute *)

Lemma keeps_refl l h : keeps l h h.
Proof. unfold keeps. induction (nodes h); constructor; auto. Qed.

Lemma keeps_nodes l h h1 h2 : nodes h2 = nodes h1 -> keeps l h h1 -> keeps l h h2.
Proof. intros E H. unfold keeps. by rewrite E. Qed.

Lemma keeps_trans l h1 h2 h3 : keeps l h1 h2 -> keeps l h2 h3 -> keeps l h1 h3.
Proof.
  unfold keeps. generalize (nodes h1) (nodes h2) (nodes h3).
  induction l0 as [|x l0 IH]; intros l2 l3 H1 H2.
  - apply Forall2_nil_inv_l in H1 as ->. by apply Forall2_nil_inv_l in H2 as ->.
  - apply Forall2_cons_inv_l in H1 as (y & l2' & (N1 & K1 & A1) & H1 & ->).
    apply Forall2_cons_inv_l in H2 as (z & l3' & (N2 & K2 & A2) & H2 & ->).
    constructor; [|eauto]. split; [congruence|]. split; [congruence|].
    intros a Ha. rewrite A2, A1; done.
Qed.

Lemma keeps_map l (f : node -> node) h :
  (forall n, nname (f n) = nname n /\ nkind (f n) = nkind n
             /\ forall a, In a l -> nattrs (f n) !! a = nattrs n !! a) ->
  keeps l h (with_nodes (map f) h).
Proof.
  intros Hf. unfold keeps. simpl. induction (nodes h); simpl; constructor; auto.
Qed.

Lemma keeps_set_attr l x b v h : ~ In b l -> keeps l h (set_attr x b v h).
Proof.
  intros Hb. apply keeps_map. intros n. destruct (named x n); simpl; [|done].
  split; [done|]. split; [done|]. intros a Ha. apply lookup_insert_ne. by intros ->.
Qed.

Lemma keeps_reparent l child newpath h :
  keeps l h (with_nodes (map (reparent child newpath)) h).
Proof.
  apply keeps_map. intros n. unfold reparent.
  destruct (named child n); [done|]. by destruct (in_path child n).
Qed.

Lemma keeps_in l h h' n :
  keeps l h h' -> In n (nodes h) ->
  exists n', In n' (nodes h') /\ nname n' = nname n /\ nkind n' = nkind n
             /\ forall a, In a l -> nattrs n' !! a = nattrs n !! a.
Proof.
  unfold keeps. intros H Hn. apply list_elem_of_In in Hn.
  apply list_elem_of_lookup_1 in Hn as [i Hi].
  destruct (Forall2_lookup_l _ _ _ _ _ H Hi) as (n' & Hn' & P).
  exists n'. split; [|done]. apply list_elem_of_In. by eapply list_elem_of_lookup_2.
Qed.

Lemma keeps_in_rev l h h' n' :
  keeps l h h' -> In n' (nodes h') ->
  exists n, In n (nodes h) /\ nname n' = nname n /\ nkind n' = nkind n
            /\ forall a, In a l -> nattrs n' !! a = nattrs n !! a.
Proof.
  unfold keeps. intros H Hn. apply list_elem_of_In in Hn.
  apply list_elem_of_lookup_1 in Hn as [i Hi].
  destruct (Forall2_lookup_r _ _ _ _ _ H Hi) as (n & Hn' & P).
  exists n. split; [|done]. apply list_elem_of_In. by eapply list_elem_of_lookup_2.
Qed.

(** ** Paint Activation: the temporary plane *)

Lemma polyPlane_inv w name st l st' :
  polyPlane w w name st = (Val l, st') ->
  l = [unique_name (hst st) name; nname (List.last (plane_nodes w name (hst st)) (Node name Mesh [] ∅ bbox0 false))]
  /\ nodes (hst st') = nodes (hst st) ++ plane_nodes w name (hst st)
  /\ log (hst st') = log (hst st)
  /\ self st' = self st.
Proof.
  unfold polyPlane. intros [= <- <-]. simpl.
  split; [done|]. split; [|done]. by rewrite <- !app_assoc.
Qed.

Lemma placed_trans st1 st2 st3 : placed st1 st2 -> placed st2 st3 -> placed st1 st3.
Proof.
  intros (K1 & S1 & L1 & X1) (K2 & S2 & L2 & X2). split; [|split; [|split]].
  - intros l Hl. eapply keeps_trans; eauto.
  - congruence.
  - congruence.
  - intros y. by rewrite X2, X1.
Qed.

Lemma setAttr_placed x b v st u st' :
  In b plane_keys -> setAttr x b v st = (Val u, st') -> placed st st'.
Proof.
  intros Hb H. apply setAttr_inv in H as [-> _]. split; [|split; [|split]]; simpl.
  - intros l Hl. apply keeps_set_attr. intros Hin. by apply (Hl b).
  - done.
  - done.
  - intros y. apply exists_node_set_attr.
Qed.

Lemma create_temporary_plane_inv st u st' cam cs o w :
  original_camera_state (self st) = Some (CameraState cam cs o w) ->
  create_temporary_plane st = (Val u, st') ->
  exists ow hp pn,
    attr_of cs "orthographicWidth" (hst st) = Some ow
    /\ nodes hp = nodes (hst st) ++ plane_nodes ow "ddSplit_tempPlane" (hst st)
    /\ In pn (plane_nodes ow "ddSplit_tempPlane" (hst st))
    /\ nkind pn = PolyPlane
    /\ nattrs pn !! "width" = Some ow
    /\ nattrs pn !! "height" = Some ow
    /\ (forall l, (forall a, In a l -> ~ In a plane_keys) -> keeps l hp (hst st'))
    /\ self st' = set_temp_plane (Some (unique_name (hst st) "ddSplit_tempPlane")) (self st)
    /\ exists_node (unique_name (hst st) "ddSplit_tempPlane") (hst st') = true
    /\ log (hst st')
       = ConnectCall (cs, "orthographicWidth") (nname pn, "height")
         :: ConnectCall (cs, "orthographicWidth") (nname pn, "width")
         :: log (hst st).
Proof.
  intros Hocs. unfold create_temporary_plane. rewrite bind_gets, Hocs.
  simpl cs_camera. simpl cs_camera_shape. intros H.
  apply bind_val_inv in H as (ow & st1 & H1 & H).
  apply getAttr_inv in H1 as [-> How].
  apply bind_val_inv in H as (l & st1 & H1 & H).
  apply polyPlane_inv in H1 as (-> & Hn1 & Hl1 & Hs1).
  rewrite bind_on_self in H.
  apply bind_val_inv in H as (? & st2 & H2 & H). apply connectAttr_inv in H2 as ->.
  apply bind_val_inv in H as (? & st2 & H2 & H). apply connectAttr_inv in H2 as ->.
  apply bind_val_inv in H as (? & st2 & H2 & H). apply parent_inv in H2 as [p E2].
  apply bind_val_inv in H as (? & st3 & H3 & H).
  pose proof (setAttr_inv _ _ _ _ _ _ H3) as [_ Hex].
  apply setAttr_placed in H3; [|simpl; tauto].
  apply bind_val_inv in H as (? & st4 & H4 & H).
  apply setAttr_placed in H4; [|simpl; tauto].
  pose proof (placed_trans _ _ _ H3 H4) as P4. clear H3 H4.
  apply bind_val_inv in H as (? & st5 & H5 & H).
  apply setAttr_placed in H5; [|simpl; tauto].
  pose proof (placed_trans _ _ _ P4 H5) as P5. clear P4 H5.
  apply bind_val_inv in H as (? & st6 & H6 & H).
  apply setAttr_placed in H6; [|simpl; tauto].
  pose proof (placed_trans _ _ _ P5 H6) as P6. clear P5 H6.
  apply bind_val_inv in H as (? & st7 & H7 & H).
  apply setAttr_placed in H7; [|simpl; tauto].
  pose proof (placed_trans _ _ _ P6 H7) as P7. clear P6 H7.
  apply bind_val_inv in H as (? & st8 & H8 & H).
  apply setAttr_placed in H8; [|simpl; tauto].
  pose proof (placed_trans _ _ _ P7 H8) as P8. clear P7 H8.
  apply bind_val_inv in H as (? & st9 & H9 & H).
  apply setAttr_placed in H9; [|simpl; tauto].
  pose proof (placed_trans _ _ _ P8 H9) as P9. clear P8 H9.
  apply bind_val_inv in H as (? & st10 & H10 & H).
  apply setAttr_placed in H10; [|simpl; tauto].
  pose proof (placed_trans _ _ _ P9 H10) as P10. clear P9 H10.
  apply setAttr_placed in H; [|simpl; tauto].
  pose proof (placed_trans _ _ _ P10 H) as (K & S & L & X). clear P10 H.
  subst st2. simpl hst in *. simpl self in *.
  exists ow, (hst st1),
    (List.last (plane_nodes ow "ddSplit_tempPlane" (hst st))
               (Node "ddSplit_tempPlane" Mesh [] ∅ bbox0 false)).
  split; [done|]. split; [done|].
  split; [simpl; auto|]. split; [done|].
  split; [simpl; apply lookup_insert_eq|].
  split; [simpl; rewrite lookup_insert_ne by done; apply lookup_insert_eq|].
  split.
  { intros l Hl. eapply keeps_trans; [|apply (K l Hl)].
    eapply keeps_trans; [|apply keeps_reparent].
    apply (keeps_nodes l _ (hst st1)); [done|apply keeps_refl]. }
  split; [by rewrite S, Hs1|].
  split; [by rewrite X|].
  rewrite L. simpl. by rewrite Hl1.
Qed.

(** ** Paint Activation: the paint tool *)

Lemma scene_kept_refl st : scene_kept st st.
Proof. by repeat split. Qed.

Lemma scene_kept_trans st1 st2 st3 :
  scene_kept st1 st2 -> scene_kept st2 st3 -> scene_kept st1 st3.
Proof.
  intros (A1 & B1 & C1 & D1 & E1) (A2 & B2 & C2 & D2 & E2).
  repeat split; congruence.
Qed.

Lemma mel_source_kept cmd st r st' : mel_source cmd st = (r, st') -> scene_kept st st'.
Proof.
  unfold mel_source, mel_eval. destruct (existsb _ _); intros [= _ <-]; by repeat split.
Qed.

(** Loading the preset never fails: the three paths are tried in turn and
    the last failure is dropped. *)
Lemma load_preset_ok st :
  exists st',
    try_catch (mel_source preset_2026)
      (fun _ => try_catch (mel_source preset_2022)
                  (fun _ => try_catch (mel_source preset_env) pass)) st
    = (Val tt, st')
    /\ scene_kept st st'.
Proof.
  unfold try_catch.
  destruct (mel_source preset_2026 st) as [[[]|e1] st1] eqn:E1;
    apply mel_source_kept in E1; [eauto|].
  destruct (mel_source preset_2022 st1) as [[[]|e2] st2] eqn:E2;
    apply mel_source_kept in E2; [eauto using scene_kept_trans|].
  destruct (mel_source preset_env st2) as [[[]|e3] st3] eqn:E3;
    apply mel_source_kept in E3; unfold pass, ret; eauto 6 using scene_kept_trans.
Qed.

Lemma wire_mode_ok st :
  exists st', try_catch (dynWireCtx_dam false) pass st = (Val tt, st') /\ scene_kept st st'.
Proof.
  unfold try_catch, dynWireCtx_dam, pass, ret.
  destruct (wire_ctx (hst st)); eexists; (split; [reflexivity|by repeat split]).
Qed.

Lemma make_paintable_ok st :
  exists st', try_catch mel_MakePaintable pass st = (Val tt, st') /\ scene_kept st st'.
Proof.
  unfold try_catch, mel_MakePaintable, mel_eval, pass, ret.
  destruct (existsb _ _); eexists; (split; [reflexivity|by repeat split]).
Qed.

(** Whatever the paint tool does, succeeding or not, it leaves the nodes,
    the log and the session as they are. *)
Lemma activate_paint_effects_kept st r st' :
  activate_paint_effects st = (r, st') -> scene_kept st st'.
Proof.
  unfold activate_paint_effects.
  destruct (load_preset_ok st) as (st1 & E1 & K1). rewrite (bind_val _ _ _ _ _ E1).
  destruct (wire_mode_ok st1) as (st2 & E2 & K2). rewrite (bind_val _ _ _ _ _ E2).
  rewrite bind_gets.
  assert (K : scene_kept st st2) by eauto using scene_kept_trans.
  destruct (temp_plane (self st2)) as [p|]; [|intros [= _ <-]; done].
  unfold when. destruct (truthy (Some p)); [|intros [= _ <-]; done].
  unfold select. unfold bind at 1. unfold bind at 1. unfold need.
  destruct (exists_node p (hst st2)); [|intros [= _ <-]; done].
  simpl.
  destruct (make_paintable_ok (State (with_selection [p] (hst st2)) (self st2)))
    as (st3 & E3 & K3).
  rewrite E3. intros [= _ <-].
  eapply scene_kept_trans; [exact K|]. eapply scene_kept_trans; [|exact K3].
  by repeat split.
Qed.

(** With the temporary plane in the scene, the paint tool is activated
    whatever preset, tool context or command is missing. *)
Lemma activate_paint_effects_ok st :
  (forall p, temp_plane (self st) = Some p -> exists_node p (hst st) = true) ->
  exists st', activate_paint_effects st = (Val tt, st') /\ scene_kept st st'.
Proof.
  intros Hp. unfold activate_paint_effects.
  destruct (load_preset_ok st) as (st1 & E1 & K1). rewrite (bind_val _ _ _ _ _ E1).
  destruct (wire_mode_ok st1) as (st2 & E2 & K2). rewrite (bind_val _ _ _ _ _ E2).
  rewrite bind_gets.
  assert (K : scene_kept st st2) by eauto using scene_kept_trans.
  destruct K as (Kn & Kl & Kc & Ko & Ks).
  destruct (temp_plane (self st2)) as [p|] eqn:Ep; [|exists st2; by repeat split].
  unfold when. destruct (truthy (Some p)); [|exists st2; by repeat split].
  assert (Hex : exists_node p (hst st2) = true).
  { rewrite (exists_node_nodes _ _ _ Kn). apply Hp. congruence. }
  unfold select. erewrite bind_val.
  2:{ erewrite bind_val by (apply need_ok; exact Hex). reflexivity. }
  destruct (make_paintable_ok (State (with_selection [p] (hst st2)) (self st2)))
    as (st3 & E3 & (K3n & K3l & K3c & K3o & K3s)).
  exists st3. split; [exact E3|]. simpl in *. repeat split; congruence.
Qed.

Lemma plane_nodes_fresh w name h m :
  In m (plane_nodes w name h) -> exists_node (nname m) h = false.
Proof.
  unfold plane_nodes. simpl. intros [<-|[<-|[<-|[]]]]; simpl.
  - apply unique_name_fresh.
  - eapply extends_fresh; [|apply unique_name_fresh]. apply extends_add_node.
  - eapply extends_fresh; [|apply unique_name_fresh].
    eapply extends_trans; apply extends_add_node.
Qed.

Lemma sized_not_plane a : In a sized_keys -> ~ In a plane_keys.
Proof.
  unfold sized_keys, plane_keys. simpl.
  intros [<-|[<-|[<-|[<-|[]]]]] H;
    repeat (destruct H as [H|H]; [discriminate|]); done.
Qed.

Lemma set_attr_in_other x a v h n :
  In n (nodes (set_attr x a v h)) -> nname n <> x -> In n (nodes h).
Proof.
  unfold set_attr. simpl. intros Hn Hx. apply in_map_iff in Hn as (m & <- & Hm).
  destruct (named x m) eqn:E; [|done].
  apply named_true in E. simpl in Hx. congruence.
Qed.

Lemma names_set_attr x a v h :
  map nname (nodes (set_attr x a v h)) = map nname (nodes h).
Proof.
  unfold set_attr. simpl. rewrite map_map. apply map_ext.
  intros n. by destruct (named x n).
Qed.

Lemma unique_name_names h h' base :
  map nname (nodes h') = map nname (nodes h) -> unique_name h' base = unique_name h base.
Proof. intros E. unfold unique_name. by rewrite E. Qed.

Lemma names_camera_set cs w h :
  map nname (nodes (camera_set cs w h)) = map nname (nodes h).
Proof.
  unfold camera_set.
  change (map nname (nodes (set_attr cs "orthographicWidth" w
                              (set_attr cs "orthographic" 1 h))) = map nname (nodes h)).
  by rewrite !names_set_attr.
Qed.

Lemma exists_node_camera_set x cs w h :
  exists_node x (camera_set cs w h) = exists_node x h.
Proof.
  unfold camera_set.
  change (exists_node x (set_attr cs "orthographicWidth" w
                           (set_attr cs "orthographic" 1 h)) = exists_node x h).
  by rewrite !exists_node_set_attr.
Qed.

Lemma attr_of_camera_set cs w h :
  exists_node cs h = true -> attr_of cs "orthographicWidth" (camera_set cs w h) = Some w.
Proof.
  intros H. unfold camera_set.
  change (attr_of cs "orthographicWidth"
            (set_attr cs "orthographicWidth" w (set_attr cs "orthographic" 1 h)) = Some w).
  apply attr_of_set_attr. by rewrite exists_node_set_attr.
Qed.

Lemma camera_set_in cs w h n :
  In n (nodes (camera_set cs w h)) -> nname n = cs ->
  nattrs n !! "orthographic" = Some 1%Q /\ nattrs n !! "orthographicWidth" = Some w.
Proof.
  unfold camera_set.
  change (In n (nodes (set_attr cs "orthographicWidth" w
                         (set_attr cs "orthographic" 1 h))) -> nname n = cs ->
          nattrs n !! "orthographic" = Some 1%Q /\ nattrs n !! "orthographicWidth" = Some w).
  intros Hm Hx.
  apply set_attr_in in Hm as (m1 & Hm1 & N1 & A1 & S1).
  apply set_attr_in in Hm1 as (m0 & Hm0 & N0 & A0 & S0).
  split; [|by apply S1]. rewrite A1 by done. apply S0. congruence.
Qed.

(** The whole of Paint Activation, read backwards from a normal return. *)
Lemma activate_paint_tool_inv st st' :
  truthy (target_geo (self st)) = true ->
  activate_paint_tool st = (Val tt, st') ->
  exists cam cs o w t nt pn,
    target_geo (self st) = Some t
    /\ lookup_node t (hst st) = Some nt
    /\ attr_of cs "orthographic" (hst st) = Some o
    /\ attr_of cs "orthographicWidth" (hst st) = Some w
    /\ self st'
       = set_temp_plane (Some (unique_name (hst st) "ddSplit_tempPlane"))
           (set_original_camera_state (Some (CameraState cam cs o w)) (self st))
    /\ exists_node cs (hst st') = true
    /\ exists_node (unique_name (hst st) "ddSplit_tempPlane") (hst st') = true
    /\ exists_node (unique_name (hst st) "ddSplit_tempPlane") (hst st) = false
    /\ (forall n, In n (nodes (hst st')) -> nname n = cs ->
                  nattrs n !! "orthographic" = Some 1%Q
                  /\ nattrs n !! "orthographicWidth" = Some (stored (bbox_width (nbbox nt))))
    /\ In pn (nodes (hst st'))
    /\ nkind pn = PolyPlane
    /\ nattrs pn !! "width" = Some (stored (bbox_width (nbbox nt)))
    /\ nattrs pn !! "height" = Some (stored (bbox_width (nbbox nt)))
    /\ log (hst st')
       = ConnectCall (cs, "orthographicWidth") (nname pn, "height")
         :: ConnectCall (cs, "orthographicWidth") (nname pn, "width")
         :: log (hst st).
Proof.
  intros Ht. unfold activate_paint_tool. rewrite bind_gets, Ht. cbn [negb].
  intros H.
  apply bind_val_inv in H as (? & st1 & H1 & H).
  apply bind_val_inv in H as (? & st2 & H2 & H3).
  apply setup_orthographic_camera_inv in H1
    as (cam & cs & o & w & t & nt & Et & Hnt & Hex & Hsh & Ho & Hw & ->).
  eapply create_temporary_plane_inv in H2; [|reflexivity].
  destruct H2 as (ow & hp & pn & How & Hhp & Hpn & Kpn & Wpn & Hgt & Hk & Hs2 & Hex2 & Hl2).
  apply activate_paint_effects_kept in H3 as (Kn & Kl & Kc & Ko & Ks).
  simpl hst in *. simpl self in *.
  set (W := stored (bbox_width (nbbox nt))) in *.
  rewrite (unique_name_names _ _ _ (names_camera_set cs W (hst st))) in Hs2, Hex2.
  assert (HW : ow = W).
  { rewrite attr_of_camera_set in How by done. congruence. }
  subst ow.
  specialize (Hk sized_keys sized_not_plane).
  assert (Hex1 : exists_node cs (camera_set cs W (hst st)) = true)
    by (by rewrite exists_node_camera_set).
  exists cam, cs, o, w, t, nt.
  destruct (keeps_in _ _ _ pn Hk) as (pn' & Hpn' & Npn & Kpn' & Apn).
  { rewrite Hhp. apply in_app_iff. by right. }
  exists pn'.
  split; [done|]. split; [done|]. split; [done|]. split; [done|].
  split; [by rewrite Ks, Hs2|].
  split.
  { rewrite (exists_node_nodes _ _ _ Kn).
    apply exists_node_spec in Hex1 as (m & Hm & Nm).
    destruct (keeps_in _ _ _ m Hk) as (m' & Hm' & Nm' & _).
    { rewrite Hhp. apply in_app_iff. by left. }
    apply exists_node_spec. exists m'. split; [done|]. congruence. }
  split; [by rewrite (exists_node_nodes _ _ _ Kn)|].
  split; [apply unique_name_fresh|].
  split.
  { intros n Hn Hname. rewrite Kn in Hn.
    destruct (keeps_in_rev _ _ _ n Hk Hn) as (m & Hm & Nm & _ & Am).
    rewrite Hhp in Hm. apply in_app_iff in Hm as [Hm|Hm].
    - rewrite !Am by (unfold sized_keys; simpl; tauto).
      apply (camera_set_in cs W (hst st)); [done|congruence].
    - apply plane_nodes_fresh in Hm. congruence. }
  split; [by rewrite Kn|]. split; [congruence|].
  split; [rewrite Apn by (unfold sized_keys; simpl; tauto); done|].
  split; [rewrite Apn by (unfold sized_keys; simpl; tauto); done|].
  rewrite Kl, Hl2, Npn. done.
Qed.

(** ** Cancel, as a whole *)

Lemma show_guarded o st :
  when_exists o showHidden st = (Val tt, State (shown o (hst st)) (self st)).
Proof.
  unfold when_exists, shown. destruct o as [t|]; [|by rewrite state_eta].
  unfold and_m, objExists. destruct (truthy (Some t)); simpl.
  - rewrite bind_gets. destruct (exists_node t (hst st)) eqn:E; simpl.
    + unfold showHidden. by rewrite (setAttr_ok _ _ _ _ E).
    + by rewrite state_eta.
  - by rewrite bind_ret, state_eta.
Qed.

Lemma cancel_operation_spec st :
  let s := self st in
  let A := restored (original_camera_state s) (hst st) in
  exists st' st1 dels,
    cancel_operation st = (Val tt, st')
    /\ cleans (opt_list (duplicated_geo s) ++ opt_list (temp_plane s)) dels (State A s) st1
    /\ nodes (hst st') = nodes (shown (target_geo s) (hst st1))
    /\ log (hst st') = log (hst st1)
    /\ self st' = s.
Proof.
  intros s A. unfold cancel_operation.
  rewrite (bind_val _ _ _ _ _ (restore_camera_state_eq st)). fold s A.
  rewrite bind_gets. simpl self.
  destruct (delete_guarded_cleans (duplicated_geo s) (State A s)) as (s1 & d1 & E1 & C1).
  rewrite (bind_val _ _ _ _ _ E1). rewrite bind_gets.
  assert (S1 : self s1 = s) by apply (cl_self _ _ _ _ C1).
  destruct (delete_guarded_cleans (temp_plane (self s1)) s1) as (s2 & d2 & E2 & C2).
  rewrite (bind_val _ _ _ _ _ E2). rewrite bind_gets.
  rewrite S1 in C2.
  assert (S2 : self s2 = s) by (rewrite (cl_self _ _ _ _ C2); exact S1).
  rewrite (bind_val _ _ _ _ _ (show_guarded _ _)).
  destruct (close_gui_ok (State (shown (target_geo (self s2)) (hst s2)) (self s2)))
    as (s3 & E3 & Hn & Hl & Hs).
  exists s3, s2, (d2 ++ d1). split; [exact E3|].
  split; [exact (cleans_trans _ _ _ _ _ _ _ C1 C2)|].
  simpl in Hn, Hl, Hs. rewrite S2 in Hn. split; [exact Hn|]. split.
  - rewrite Hl. unfold shown. destruct (target_geo (self s2)) as [t|]; [|done].
    by destruct (truthy (Some t) && exists_node t (hst s2)).
  - congruence.
Qed.

Lemma shown_in o h n :
  In n (nodes (shown o h)) ->
  exists m, In m (nodes h) /\ nname m = nname n
            /\ (forall b, b <> "visibility" -> nattrs n !! b = nattrs m !! b)
            /\ (forall t, In t (opt_list o) -> nname n = t ->
                          nattrs n !! "visibility" = Some 1%Q).
Proof.
  unfold shown, opt_list. destruct o as [t|].
  - destruct (truthy (Some t)) eqn:T; simpl.
    + destruct (exists_node t h) eqn:E.
      * intros Hn. apply set_attr_in in Hn as (m & Hm & N & A & S).
        exists m. split; [done|]. split; [done|]. split; [done|].
        intros t' [<-|[]] Hx. by apply S.
      * intros Hn. exists n. split; [done|]. split; [done|]. split; [done|].
        intros t' [<-|[]] Hx.
        assert (exists_node t h = true) by (apply exists_node_spec; eauto).
        congruence.
    + intros Hn. exists n. split; [done|]. split; [done|]. split; [done|].
      intros t' [].
  - intros Hn. exists n. split; [done|]. split; [done|]. split; [done|].
    intros t' [].
Qed.

(** What Cancel leaves: the duplicate and the plane are gone, the camera
    shape has the attributes of the snapshot, the original is shown. *)
Lemma cancel_leaves st :
  let st' := run cancel_operation st in
  outcome cancel_operation st = Val tt
  /\ self st' = self st
  /\ (forall x, In x (opt_list (duplicated_geo (self st))) -> gone x (hst st'))
  /\ (forall x, In x (opt_list (temp_plane (self st))) -> gone x (hst st'))
  /\ (forall cs n, original_camera_state (self st) = Some cs ->
                   cs_camera_shape cs <> EmptyString ->
                   In n (nodes (hst st')) -> nname n = cs_camera_shape cs ->
                   nattrs n !! "orthographic" = Some (cs_orthographic cs)
                   /\ nattrs n !! "orthographicWidth" = Some (cs_orthographicWidth cs))
  /\ (forall t n, In t (opt_list (target_geo (self st))) ->
                  In n (nodes (hst st')) -> nname n = t ->
                  nattrs n !! "visibility" = Some 1%Q).
Proof.
  destruct (cancel_operation_spec st) as (st' & st1 & dels & E & C & Hn & Hl & Hs).
  unfold run, outcome. rewrite E. simpl. split; [done|]. split; [done|].
  assert (Hgone : forall x, gone x (hst st1) -> gone x (hst st')).
  { intros x Hx. unfold gone in *. destruct (exists_node x (hst st')) eqn:Ex; [|done].
    apply exists_node_spec in Ex as (n & Hin & Nn). rewrite Hn in Hin.
    apply shown_in in Hin as (m & Hm & Nm & _).
    assert (exists_node x (hst st1) = true) by (apply exists_node_spec; exists m; split; [done|congruence]).
    congruence. }
  split; [|split; [|split]].
  - intros x Hx. apply Hgone, (cl_gone _ _ _ _ C). apply in_app_iff. by left.
  - intros x Hx. apply Hgone, (cl_gone _ _ _ _ C). apply in_app_iff. by right.
  - intros cs n Hcs Hne Hin Hx. rewrite Hn in Hin.
    apply shown_in in Hin as (m & Hm & Nm & Am & _).
    apply (cl_shrinks _ _ _ _ C) in Hm. simpl in Hm.
    apply restored_in in Hm as (m0 & _ & _ & _ & Cam).
    rewrite !Am by done. apply (Cam cs Hcs Hne). congruence.
  - intros t n Ht Hin Hx. rewrite Hn in Hin.
    apply shown_in in Hin as (m & _ & _ & _ & S). eauto.
Qed.

(** ** Soft failures and hard checks *)

Lemma activate_paint_tool_blocked st :
  truthy (target_geo (self st)) = false ->
  activate_paint_tool st
  = (Val tt, State (with_log (cons (Warning no_target_warning)) (hst st)) (self st)).
Proof. intros H. unfold activate_paint_tool. by rewrite bind_gets, H. Qed.

Lemma settings_defaults h :
  (controls h !! "curveSamples" = None -> settings h = ProjParams 50 (1 # 1000) false true)
  /\ (controls h !! "projTolerance" = None ->
      tolerance (settings h) = (1 # 1000)%Q
      /\ pointsOnEdges (settings h) = false /\ automatic (settings h) = true)
  /\ (controls h !! "pointsOnEdges" = None ->
      pointsOnEdges (settings h) = false /\ automatic (settings h) = true)
  /\ (controls h !! "automatic" = None -> automatic (settings h) = true).
Proof.
  unfold settings, default_params.
  destruct (controls h !! "curveSamples") as [[? []]|];
    destruct (controls h !! "projTolerance") as [[? []]|];
    destruct (controls h !! "pointsOnEdges") as [[? []]|];
    destruct (controls h !! "automatic") as [[? []]|]; simpl;
    repeat split; try done.
Qed.

Lemma checkbox_or_missing d name h : controls h !! name = None -> checkbox_or d name h = d.
Proof. intros H. unfold checkbox_or. by rewrite H. Qed.

(** ** The delete calls of Finish and of Cancel *)

Lemma log_before_deletes st :
  exists hist, log (before_deletes st) = hist ++ log (hst st) /\ only_history hist.
Proof.
  unfold before_deletes, history_deleted.
  destruct (duplicated_geo (self st)) as [x|].
  - destruct (truthy (Some x) && exists_node x _).
    + exists [DeleteHistoryCall x]. simpl. rewrite log_restored. split; [done|].
      constructor; [eauto|constructor].
    + exists []. rewrite log_restored. split; [done|constructor].
  - exists []. rewrite log_restored. split; [done|constructor].
Qed.

Lemma finish_deletes st :
  let st' := run finish_and_cleanup st in
  outcome finish_and_cleanup st = Val tt
  /\ exists dels hist,
      log (hst st') = delete_calls dels ++ hist ++ log (hst st)
      /\ only_history hist
      /\ NoDup dels
      /\ forall x, In x dels -> exists_node x (hst st) = true /\ gone x (hst st').
Proof.
  destruct (finish_cleans st) as (st' & st1 & dels & E & C & Hn & Hl & Hs).
  destruct (log_before_deletes st) as (hist & Lh & Oh).
  unfold run, outcome. rewrite E. simpl. split; [done|].
  exists dels, hist. split.
  { rewrite Hl, (cl_log _ _ _ _ C). simpl. by rewrite Lh. }
  split; [done|]. split; [apply (cl_nodup _ _ _ _ C)|].
  intros x Hx. destruct (cl_dels _ _ _ _ C x Hx) as (_ & Hex & Hg). simpl in Hex.
  split.
  - by rewrite <- (exists_node_skeleton _ _ x (skeleton_before_deletes st)).
  - unfold gone. by rewrite (exists_node_nodes _ _ _ Hn).
Qed.

Lemma cancel_deletes st :
  let st' := run cancel_operation st in
  outcome cancel_operation st = Val tt
  /\ exists dels,
      log (hst st') = delete_calls dels ++ log (hst st)
      /\ NoDup dels
      /\ forall x, In x dels -> exists_node x (hst st) = true /\ gone x (hst st').
Proof.
  destruct (cancel_operation_spec st) as (st' & st1 & dels & E & C & Hn & Hl & Hs).
  unfold run, outcome. rewrite E. simpl. split; [done|].
  exists dels. split.
  { rewrite Hl, (cl_log _ _ _ _ C). simpl. by rewrite log_restored. }
  split; [apply (cl_nodup _ _ _ _ C)|].
  intros x Hx. destruct (cl_dels _ _ _ _ C x Hx) as (_ & Hex & Hg). simpl in Hex.
  split.
  - by rewrite <- (exists_node_skeleton _ _ x
                     (skeleton_restored (original_camera_state (self st)) (hst st))).
  - unfold gone in *. destruct (exists_node x (hst st')) eqn:Ex; [|done].
    apply exists_node_spec in Ex as (n & Hin & Nn). rewrite Hn in Hin.
    apply shown_in in Hin as (m & Hm & Nm & _).
    assert (exists_node x (hst st1) = true)
      by (apply exists_node_spec; exists m; split; [done|congruence]).
    congruence.
Qed.

(** * The claims *)

(** ** C5: Setup *)

(** C5, amended.  Setup goes on as soon as at least one transform is
    selected, and works on the first one: it records it as the target,
    duplicates it under a new name, records the duplicate and hides the
    target.  With no transform selected it gives one warning and changes
    nothing else, in the scene or in the session. *)
Theorem setup_uses_first_selected_transform st :
  match selected_of_kind Transform (hst st) with
  | [] =>
      setup_geometry st
      = (Val tt, State (with_log (cons (Warning no_selection_warning)) (hst st)) (self st))
  | t :: _ =>
      let d := unique_name (hst st) (t +:+ "_split") in
      let st' := run setup_geometry st in
      outcome setup_geometry st = Val tt
      /\ target_geo (self st') = Some t
      /\ duplicated_geo (self st') = Some d
      /\ exists_node d (hst st) = false
      /\ exists_node d (hst st') = true
      /\ attr_of t "visibility" (hst st') = Some 0%Q
      /\ log (hst st') = log (hst st)
  end.
Proof. exact (setup_geometry_spec st). Qed.

(** C5 as stated fails: with two transforms selected, Setup still goes on,
    on the first of them. *)
Lemma setup_proceeds_with_two_selected :
  selected_of_kind Transform (hst st_two) = ["pCube1"; "pSphere1"]
  /\ outcome setup_geometry st_two = Val tt
  /\ target_geo (self st_two) = None
  /\ target_geo (self (run setup_geometry st_two)) = Some "pCube1"
  /\ duplicated_geo (self (run setup_geometry st_two)) = Some "pCube1_split"
  /\ exists_node "pCube1_split" (hst st_two) = false
  /\ exists_node "pCube1_split" (hst (run setup_geometry st_two)) = true.
Proof. vm_compute. repeat split. Qed.

(** ** C6: Execute Split *)

(** C6, amended.  Execute Split goes on only when the scene has a
    curve-variation group: with none it gives one warning and does nothing
    else.  With some, and the duplicated geometry of Setup in the scene, it
    sets the
    split option (2, detach, when the check box is set or cannot be read;
    1, keep together, otherwise), selects all the groups and then the
    duplicated geometry, and calls the split procedure once on that
    selection, with the option already set. *)
Theorem split_once_over_all_groups st :
  match names_of_kind CurveVarGroup (hst st) with
  | [] =>
      execute_split st
      = (Val tt, State (with_log (cons (Warning no_curve_warning)) (hst st)) (self st))
  | g :: gs =>
      forall d,
        duplicated_geo (self st) = Some d ->
        exists_node d (hst st) = true ->
        let st' := run execute_split st in
        outcome execute_split st = Val tt
        /\ split_calls (log (hst st'))
           = SplitCall ((g :: gs) ++ [d]) (Some (split_operation (hst st)))
             :: split_calls (log (hst st))
        /\ selection (hst st') = (g :: gs) ++ [d]
        /\ optionVars (hst st') !! "splitPolyWithCurveOperation"
           = Some (split_operation (hst st))
        /\ self st' = self st
  end.
Proof. exact (execute_split_spec st). Qed.

Lemma split_once_over_all_groups_witness :
  duplicated_geo (self st_projected) = Some "pCube1_split"
  /\ exists_node "pCube1_split" (hst st_projected) = true
  /\ split_calls (log (hst (run execute_split st_projected)))
     = [SplitCall ["polyProjectionCurve1"; "polyProjectionCurve11"; "pCube1_split"]
                  (Some 2%Z)].
Proof.
  assert (Hd : duplicated_geo (self st_projected) = Some "pCube1_split")
    by (vm_compute; reflexivity).
  assert (He : exists_node "pCube1_split" (hst st_projected) = true)
    by (vm_compute; reflexivity).
  split; [exact Hd|]. split; [exact He|].
  pose proof (split_once_over_all_groups st_projected) as H.
  assert (Hg : names_of_kind CurveVarGroup (hst st_projected)
               = ["polyProjectionCurve1"; "polyProjectionCurve11"])
    by (vm_compute; reflexivity).
  rewrite Hg in H.
  destruct (H "pCube1_split" Hd He) as (_ & Hc & _).
  rewrite Hc. vm_compute. reflexivity.
Defined.

(** C6 as stated fails: with groups in the scene but the duplicated
    geometry deleted, Execute Split passes its entry check and goes on, yet
    it never calls the split procedure, and what it leaves selected are the
    groups alone.  And with no detach check box to read, the option is the
    detach value, not the keep-together one. *)
Lemma split_proceeds_without_split_call :
  let st' := run execute_split st_lost_projected in
  names_of_kind CurveVarGroup (hst st_lost_projected)
  = ["polyProjectionCurve1"; "polyProjectionCurve11"]
  /\ duplicated_geo (self st_lost_projected) = Some "pCube1_split"
  /\ exists_node "pCube1_split" (hst st_lost_projected) = false
  /\ outcome execute_split st_lost_projected = Val tt
  /\ optionVars (hst st') !! "splitPolyWithCurveOperation" = Some 2%Z
  /\ selection (hst st') = ["polyProjectionCurve1"; "polyProjectionCurve11"]
  /\ split_calls (log (hst st')) = []
  /\ warnings (log (hst st'))
     = [Warning "Split failed: No object matches name: pCube1_split"]
  /\ controls (hst (user bare st_projected)) !! "detachEdges" = None
  /\ optionVars (hst (run execute_split (user bare st_projected)))
       !! "splitPolyWithCurveOperation" = Some 2%Z.
Proof. vm_compute. repeat split. Qed.

(** ** C9: the size of the camera view and of the plane *)










(** ** C1: Cancel *)

(** C1 fails on the code.  Cancel does restore the camera, delete the
    duplicate and the plane and show the original, but it deletes nothing
    else: after a Conversion, the reference curves, the strokes and the
    curve-variation groups of the session are still in the scene. *)
Theorem cancel_leaves_conversion_nodes :
  let st' := run cancel_operation st_projected in
  outcome cancel_operation st_projected = Val tt
  /\ projection_curves (self st_projected) = ["projCurve_01"; "projCurve_02"]
  /\ exists_node "projCurve_01" scene0 = false
  /\ exists_node "projCurve_01" (hst st') = true
  /\ exists_node "projCurve_02" (hst st') = true
  /\ names_of_kind Stroke (hst st')
     = ["strokeShapeDefaultPaint1"; "strokeShapeDefaultPaint2"]
  /\ names_of_kind CurveVarGroup scene0 = []
  /\ names_of_kind CurveVarGroup (hst st')
     = ["polyProjectionCurve1"; "polyProjectionCurve11"]
  /\ exists_node "pCube1_split" (hst st') = false
  /\ exists_node "ddSplit_tempPlane" (hst st') = false
  /\ attr_of "pCube1" "visibility" (hst st') = Some 1%Q
  /\ attr_of "perspShape" "orthographicWidth" (hst st') = Some 30%Q.
Proof. vm_compute. repeat split. Qed.

(** ** C2: Conversion *)

(** C2, amended.  A stroke that is not valid is skipped with one warning
    and nothing else.  With the duplicated geometry of Setup in the scene, one
    Conversion over the strokes of the scene records as many reference
    curves as there are valid strokes, all of them new nodes and no two the
    same; it wires each valid stroke, in order, to a shape of its curve; and
    it asks for exactly one projection per curve, in order, onto the
    duplicated geometry.  The strokes that are skipped take nothing from
    these counts: each adds a warning only. *)
Theorem conversion_one_curve_one_projection_per_stroke st :
  (forall i s st0,
      nonempty s && exists_node s (hst st0) = false ->
      convert_stroke (i, s) st0
      = (Val tt, State (with_log (cons (Warning (invalid_warning i))) (hst st0)) (self st0)))
  /\ match names_of_kind Stroke (hst st) with
     | [] =>
         convert_and_project st
         = (Val tt, State (with_log (cons (Warning no_stroke_warning)) (hst st)) (self st))
     | s :: ss =>
         forall d,
           duplicated_geo (self st) = Some d ->
           exists_node d (hst st) = true ->
           let st' := run convert_and_project st in
           let curves := projection_curves (self st') in
           let valid := List.filter nonempty (s :: ss) in
           outcome convert_and_project st = Val tt
           /\ length curves = length valid
           /\ NoDup curves
           /\ Forall (fun c => exists_node c (hst st) = false
                               /\ exists_node c (hst st') = true) curves
           /\ project_calls (log (hst st'))
              = rev (projections d (settings (hst st)) curves)
                ++ project_calls (log (hst st))
           /\ length (project_calls (log (hst st')))
              = length valid + length (project_calls (log (hst st)))
           /\ (exists shapes,
                  Forall2 (fun c sh => In sh (shapes_of c (hst st'))) curves shapes
                  /\ connect_calls (log (hst st'))
                     = rev (map wire (combine valid shapes))
                       ++ connect_calls (log (hst st)))
           /\ length (warnings (log (hst st')))
              = length (List.filter (fun x => negb (nonempty x)) (s :: ss))
                + match curves with [] => 1 | _ => 0 end
                + length (warnings (log (hst st)))
     end.
Proof.
  split; [intros i s st0; apply convert_stroke_invalid|].
  pose proof (convert_and_project_spec st) as H.
  destruct (names_of_kind Stroke (hst st)) as [|s ss]; [done|].
  intros d Hd Hex.
  destruct (H d Hd Hex) as (st' & curves & shapes & groups & E & C).
  destruct C as [Cc _ _ _ _ _ _ Cn Cnew Cnd Csh _ _ _ (added & L & Lp & Lc & Ls & Lw)].
  unfold run, outcome. rewrite E. simpl. rewrite Cc.
  split; [done|]. split; [done|]. split; [done|]. split; [done|].
  rewrite L. unfold project_calls, connect_calls, warnings in *.
  rewrite !List.filter_app, Lp, Lc, !length_app, Lw.
  split; [done|]. split.
  { unfold projections. by rewrite length_rev, length_map, Cn. }
  split; [|done]. exists shapes. done.
Qed.

Lemma conversion_witness :
  duplicated_geo (self st_painted) = Some "pCube1_split"
  /\ exists_node "pCube1_split" (hst st_painted) = true
  /\ length (projection_curves (self (run convert_and_project st_painted))) = 2
  /\ length (project_calls (log (hst (run convert_and_project st_painted)))) = 2.
Proof.
  assert (Hd : duplicated_geo (self st_painted) = Some "pCube1_split")
    by (vm_compute; reflexivity).
  assert (He : exists_node "pCube1_split" (hst st_painted) = true)
    by (vm_compute; reflexivity).
  split; [exact Hd|]. split; [exact He|].
  destruct (conversion_one_curve_one_projection_per_stroke st_painted) as [_ H].
  assert (Hs : names_of_kind Stroke (hst st_painted)
               = ["strokeShapeDefaultPaint1"; "strokeShapeDefaultPaint2"])
    by (vm_compute; reflexivity).
  rewrite Hs in H.
  destruct (H "pCube1_split" Hd He) as (_ & Hc & _ & _ & _ & Hp & _).
  rewrite Hc, Hp. vm_compute. split; reflexivity.
Defined.

(** C2 as stated fails: with two valid strokes but the duplicated geometry
    deleted, a Conversion makes the two reference curves and asks for one
    projection only; that one fails, and the failure ends the loop. *)
Lemma conversion_projects_once_without_duplicate :
  let st' := run convert_and_project st_lost in
  List.filter nonempty (names_of_kind Stroke (hst st_lost))
  = ["strokeShapeDefaultPaint1"; "strokeShapeDefaultPaint2"]
  /\ exists_node "strokeShapeDefaultPaint1" (hst st_lost) = true
  /\ exists_node "strokeShapeDefaultPaint2" (hst st_lost) = true
  /\ duplicated_geo (self st_lost) = Some "pCube1_split"
  /\ exists_node "pCube1_split" (hst st_lost) = false
  /\ outcome convert_and_project st_lost = Val tt
  /\ projection_curves (self st') = ["projCurve_01"; "projCurve_02"]
  /\ project_calls (log (hst st_lost)) = []
  /\ project_calls (log (hst st'))
     = [ProjectCall "projCurve_01" (Some "pCube1_split") default_params]
  /\ warnings (log (hst st'))
     = [Warning "Projection failed: No object matches name: pCube1_split"].
Proof. vm_compute. repeat split. Qed.

(** ** C4: the groups of a Conversion are not recorded *)

(** C4 as stated fails: the curve-variation group a Conversion creates is
    a new node, and no field of the session holds its name. *)
Lemma conversion_group_untracked :
  exists_node "polyProjectionCurve1" (hst st_painted) = false
  /\ names_of_kind CurveVarGroup (hst st_projected)
     = ["polyProjectionCurve1"; "polyProjectionCurve11"]
  /\ session_names (self st_projected)
     = ["pCube1"; "pCube1_split"; "ddSplit_tempPlane"; "projCurve_01";
        "projCurve_01"; "projCurve_02"]
  /\ ~ In "polyProjectionCurve1" (session_names (self st_projected)).
Proof.
  vm_compute. repeat split.
  intros H. repeat (destruct H as [H|H]; [discriminate|]). done.
Qed.

(** ** C3, X13, C7 and C10 on the example scenes *)

(** C3 fails on the code.  Finish deletes the reference curves and the
    plane that the session records at that moment.  A second Conversion
    starts the record of the curves anew, and a second Paint Activation
    overwrites the recorded plane: the curves of the first Conversion and
    the plane of the first Activation, all made by the session, are still
    in the scene after Finish. *)
Theorem finish_leaves_earlier_curves_and_plane :
  let f1 := run finish_and_cleanup st_twice in
  let f2 := run finish_and_cleanup st_reactivated in
  projection_curves (self st_projected) = ["projCurve_01"; "projCurve_02"]
  /\ exists_node "projCurve_01" (hst st_painted) = false
  /\ exists_node "projCurve_02" (hst st_painted) = false
  /\ outcome convert_and_project st_projected = Val tt
  /\ projection_curves (self st_twice) = ["projCurve_011"; "projCurve_021"]
  /\ outcome finish_and_cleanup st_twice = Val tt
  /\ exists_node "projCurve_01" (hst f1) = true
  /\ exists_node "projCurve_02" (hst f1) = true
  /\ exists_node "projCurve_011" (hst f1) = false
  /\ exists_node "projCurve_021" (hst f1) = false
  /\ temp_plane (self st_paint) = Some "ddSplit_tempPlane"
  /\ exists_node "ddSplit_tempPlane" (hst st_setup) = false
  /\ outcome activate_paint_tool st_paint = Val tt
  /\ temp_plane (self st_reactivated) = Some "ddSplit_tempPlane1"
  /\ outcome finish_and_cleanup st_reactivated = Val tt
  /\ exists_node "ddSplit_tempPlane" (hst f2) = true
  /\ exists_node "ddSplit_tempPlane1" (hst f2) = false.
Proof. vm_compute. repeat split. Qed.

(** With the keep option set, the groups Finish leaves are not only those
    of the Conversion: a group that was in the scene before the tool was
    started is left as well. *)
Lemma finish_keeps_foreign_group :
  names_of_kind CurveVarGroup (hst st_old_painted) = ["oldCurves"]
  /\ names_of_kind CurveVarGroup (hst st_old_projected)
     = ["oldCurves"; "polyProjectionCurve1"]
  /\ checkbox_or false "keepHistory" (hst st_old_keep) = true
  /\ names_of_kind CurveVarGroup (hst (run finish_and_cleanup st_old_keep))
     = ["oldCurves"; "polyProjectionCurve1"].
Proof. vm_compute. repeat split. Qed.

Lemma finish_removes_witness :
  checkbox_or false "keepHistory" (hst st_old_keep) = true
  /\ In "oldCurves" (names_of_kind CurveVarGroup (hst (run finish_and_cleanup st_old_keep))).
Proof.
  assert (Hk : checkbox_or false "keepHistory" (hst st_old_keep) = true)
    by (vm_compute; reflexivity).
  split; [exact Hk|].
  destruct (finish_removes_what_it_finds st_old_keep) as (_ & _ & _ & _ & _ & _ & _ & H).
  apply (H Hk (Node "oldCurves" CurveVarGroup [] vis1 bbox0 false)).
  - vm_compute. repeat (first [left; reflexivity | right]).
  - reflexivity.
  - assert (Hall : forallb
                     (fun x => negb (under x (Node "oldCurves" CurveVarGroup [] vis1
                                                   bbox0 false)))
                     (cleanup_names true (self st_old_keep) (hst st_old_keep)) = true)
      by (vm_compute; reflexivity).
    intros x Hx. rewrite forallb_forall in Hall. apply Hall in Hx.
    by destruct (under x _).
Defined.

Lemma finish_restores_camera_witness :
  exists cs n,
    original_camera_state (self st_split) = Some cs
    /\ In n (nodes (hst (run finish_and_cleanup st_split)))
    /\ nname n = "perspShape"
    /\ nattrs n !! "orthographicWidth" = Some 30%Q.
Proof.
  set (cs := CameraState "persp" "perspShape" 0 30).
  assert (Hcs : original_camera_state (self st_split) = Some cs)
    by (vm_compute; reflexivity).
  assert (Hex : exists_node "perspShape" (hst (run finish_and_cleanup st_split)) = true)
    by (vm_compute; reflexivity).
  destruct (exists_lookup _ _ Hex) as [n Hn].
  apply lookup_node_some in Hn as [Hin Hname].
  destruct (finish_restores_camera_not_visibility st_split) as (_ & Hcam & _).
  exists cs, n. split; [exact Hcs|]. split; [exact Hin|]. split; [exact Hname|].
  apply (Hcam cs n Hcs); [discriminate|exact Hin|exact Hname].
Defined.

Lemma cleanup_is_scene_wide_witness :
  checkbox_or false "keepHistory" (hst st_split) = false
  /\ names_of_kind CurveVarGroup (hst (run finish_and_cleanup st_split)) = []
  /\ split_calls (log (hst (run execute_split st_projected)))
     = [SplitCall ["polyProjectionCurve1"; "polyProjectionCurve11"; "pCube1_split"]
                  (Some 2%Z)].
Proof.
  assert (Hk : checkbox_or false "keepHistory" (hst st_split) = false)
    by (vm_compute; reflexivity).
  split; [exact Hk|]. split.
  - destruct (cleanup_is_scene_wide st_split) as (_ & _ & _ & _ & H & _). exact (H Hk).
  - destruct (cleanup_is_scene_wide st_projected) as (_ & _ & _ & _ & _ & H).
    rewrite (H "pCube1_split"); vm_compute; [reflexivity..|discriminate].
Defined.

(** * Further properties of the tool *)

(** ** Cancel and the camera *)

(** X1.  Cancel never fails.  It leaves the fields of the session as they
    are; the duplicated geometry and the temporary plane of the session are
    no longer in the scene; the camera shape of the snapshot, if it is
    still there, has the orthographic flag and width of the snapshot; and
    the target, if it is still there, is shown. *)
Theorem cancel_restores_and_removes st :
  let st' := run cancel_operation st in
  outcome cancel_operation st = Val tt
  /\ self st' = self st
  /\ (forall x, In x (opt_list (duplicated_geo (self st))) -> gone x (hst st'))
  /\ (forall x, In x (opt_list (temp_plane (self st))) -> gone x (hst st'))
  /\ (forall cs n, original_camera_state (self st) = Some cs ->
                   cs_camera_shape cs <> EmptyString ->
                   In n (nodes (hst st')) -> nname n = cs_camera_shape cs ->
                   nattrs n !! "orthographic" = Some (cs_orthographic cs)
                   /\ nattrs n !! "orthographicWidth" = Some (cs_orthographicWidth cs))
  /\ (forall t n, In t (opt_list (target_geo (self st))) ->
                  In n (nodes (hst st')) -> nname n = t ->
                  nattrs n !! "visibility" = Some 1%Q).
Proof. exact (cancel_leaves st). Qed.

Lemma cancel_restores_and_removes_witness :
  In "pCube1_split" (opt_list (duplicated_geo (self st_projected)))
  /\ gone "pCube1_split" (hst (run cancel_operation st_projected)).
Proof.
  assert (H : In "pCube1_split" (opt_list (duplicated_geo (self st_projected))))
    by (vm_compute; left; reflexivity).
  split; [exact H|].
  destruct (cancel_restores_and_removes st_projected) as (_ & _ & Hd & _).
  exact (Hd _ H).
Defined.

(** X2.  [restore_camera_state] does nothing at all before the first Paint
    Activation, when there is no snapshot.  With a snapshot it never fails
    and always locks the tumble tool again; when the camera shape of the
    snapshot is not in the scene any more, no node is touched. *)
Theorem restore_camera_state_edges st :
  (original_camera_state (self st) = None -> restore_camera_state st = (Val tt, st))
  /\ (forall cs,
         original_camera_state (self st) = Some cs ->
         let st' := run restore_camera_state st in
         outcome restore_camera_state st = Val tt
         /\ self st' = self st
         /\ orthoLock (hst st') = true
         /\ autoOrthoConstrain (hst st') = true
         /\ log (hst st') = log (hst st)
         /\ (exists_node (cs_camera_shape cs) (hst st) = false ->
             nodes (hst st') = nodes (hst st))).
Proof.
  split.
  - intros H. rewrite restore_camera_state_eq, H. simpl. by rewrite state_eta.
  - intros cs H. unfold run, outcome. rewrite restore_camera_state_eq, H. simpl.
    split; [done|]. split; [done|]. split; [done|]. split; [done|].
    split.
    + by destruct (negb (String.eqb (cs_camera_shape cs) EmptyString)
                   && exists_node (cs_camera_shape cs) (hst st)).
    + intros He. rewrite He, andb_false_r. done.
Qed.

Lemma restore_camera_state_edges_witness :
  original_camera_state (self st_setup) = None
  /\ restore_camera_state st_setup = (Val tt, st_setup).
Proof.
  assert (H : original_camera_state (self st_setup) = None) by (vm_compute; reflexivity).
  split; [exact H|].
  destruct (restore_camera_state_edges st_setup) as [Hn _]. exact (Hn H).
Defined.

Lemma attr_of_set_attr_ne x a y b v h :
  a <> b -> attr_of x a (set_attr y b v h) = attr_of x a h.
Proof.
  intros Hab. unfold attr_of, lookup_node, set_attr. simpl.
  rewrite find_map_named by (intros m; by destruct (named y m)).
  destruct (find (named x) (nodes h)) as [n|]; simpl; [|done].
  destruct (named y n); simpl; [|done]. by apply lookup_insert_ne.
Qed.

(** X3.  Paint Activation and [restore_camera_state] are a round trip on
    the camera: restoring right after an activation gives the camera shape
    the orthographic flag and width it had before the activation. *)
Theorem activation_then_restore_round_trip st st1 :
  truthy (target_geo (self st)) = true ->
  activate_paint_tool st = (Val tt, st1) ->
  exists cs,
    original_camera_state (self st1) = Some cs
    /\ (cs_camera_shape cs <> EmptyString ->
        let st2 := run restore_camera_state st1 in
        outcome restore_camera_state st1 = Val tt
        /\ attr_of (cs_camera_shape cs) "orthographic" (hst st2)
           = attr_of (cs_camera_shape cs) "orthographic" (hst st)
        /\ attr_of (cs_camera_shape cs) "orthographicWidth" (hst st2)
           = attr_of (cs_camera_shape cs) "orthographicWidth" (hst st)).
Proof.
  intros Ht H.
  destruct (activate_paint_tool_inv st st1 Ht H)
    as (cam & cs & o & w & t & nt & pn & _ & _ & Ho & Hw & Hs & Hex & _).
  exists (CameraState cam cs o w). split; [by rewrite Hs|].
  simpl cs_camera_shape. intros Hne.
  unfold run, outcome. rewrite restore_camera_state_eq, Hs. simpl.
  assert (Hn : negb (String.eqb cs EmptyString) = true).
  { destruct (String.eqb cs EmptyString) eqn:E; [|done].
    apply String.eqb_eq in E. done. }
  rewrite Hn, Hex. simpl. split; [done|].
  rewrite Ho, Hw.
  split.
  - rewrite (attr_of_nodes (set_attr cs "orthographicWidth" w
                              (set_attr cs "orthographic" o (hst st1)))) by done.
    rewrite attr_of_set_attr_ne by done. by apply attr_of_set_attr.
  - rewrite (attr_of_nodes (set_attr cs "orthographicWidth" w
                              (set_attr cs "orthographic" o (hst st1)))) by done.
    apply attr_of_set_attr. by rewrite exists_node_set_attr.
Qed.

Lemma activation_then_restore_witness :
  truthy (target_geo (self st_setup)) = true
  /\ activate_paint_tool st_setup = (Val tt, st_paint)
  /\ exists cs,
       original_camera_state (self st_paint) = Some cs
       /\ (cs_camera_shape cs <> EmptyString ->
           let st2 := run restore_camera_state st_paint in
           outcome restore_camera_state st_paint = Val tt
           /\ attr_of (cs_camera_shape cs) "orthographic" (hst st2)
              = attr_of (cs_camera_shape cs) "orthographic" (hst st_setup)
           /\ attr_of (cs_camera_shape cs) "orthographicWidth" (hst st2)
              = attr_of (cs_camera_shape cs) "orthographicWidth" (hst st_setup)).
Proof.
  assert (Ht : truthy (target_geo (self st_setup)) = true) by (vm_compute; reflexivity).
  assert (Hr : activate_paint_tool st_setup = (Val tt, st_paint)).
  { unfold st_paint, run.
    destruct (activate_paint_tool st_setup) as [r s] eqn:E.
    assert (Hv : fst (activate_paint_tool st_setup) = Val tt) by (vm_compute; reflexivity).
    rewrite E in Hv. simpl in Hv. by rewrite Hv. }
  split; [exact Ht|]. split; [exact Hr|].
  exact (activation_then_restore_round_trip st_setup st_paint Ht Hr).
Defined.

(** ** The panel *)

Lemma filter_eqb_none w (ws : list string) :
  existsb (String.eqb w) ws = false -> List.filter (String.eqb w) ws = [].
Proof.
  induction ws as [|v ws IH]; simpl; [done|].
  destruct (String.eqb w v); simpl; [done|]. exact IH.
Qed.

Lemma filter_eqb_removed w (ws : list string) :
  List.filter (String.eqb w) (List.filter (fun v => negb (String.eqb v w)) ws) = [].
Proof.
  induction ws as [|v ws IH]; simpl; [done|].
  destruct (String.eqb v w) eqn:E; simpl; [exact IH|].
  rewrite String.eqb_sym, E. exact IH.
Qed.

Lemma deleteUI_ok w st :
  existsb (String.eqb w) (windows (hst st)) = true ->
  deleteUI w st
  = (Val tt,
     State (with_ui (List.filter (fun v => negb (String.eqb v w)) (windows (hst st)))
                    (filter (fun kv => fst (snd kv) <> w) (controls (hst st))) (hst st))
           (self st)).
Proof. intros E. unfold deleteUI. cbn zeta. by rewrite E. Qed.

(** The controls of the panel, over the controls [base] of other windows. *)
Lemma create_ui_controls st :
  exists st0,
    create_ui st
    = (Val tt,
       State (with_ui (window_name :: windows (hst st0))
                (panel_controls (controls (hst st0))) (hst st0))
             (set_gui_window (Some window_name) (self st)))
    /\ List.filter (String.eqb window_name) (windows (hst st0)) = []
    /\ nodes (hst st0) = nodes (hst st)
    /\ selection (hst st0) = selection (hst st)
    /\ log (hst st0) = log (hst st).
Proof.
  unfold create_ui, window_exists. rewrite bind_gets.
  destruct (existsb (String.eqb window_name) (windows (hst st))) eqn:E.
  - unfold when. rewrite (bind_val _ _ _ _ _ (deleteUI_ok _ _ E)).
    exists (State (with_ui (List.filter (fun v => negb (String.eqb v window_name))
                                        (windows (hst st)))
                           (filter (fun kv => fst (snd kv) <> window_name)
                                   (controls (hst st))) (hst st))
                  (self st)).
    split; [reflexivity|]. cbn.
    split; [apply filter_eqb_removed|done].
  - unfold when. rewrite bind_ret.
    exists st. split; [by destruct st as [[] ?]|].
    split; [by apply filter_eqb_none|done].
Qed.

Lemma panel_settings base : 
  forall h, controls h = panel_controls base -> settings h = default_params.
Proof.
  intros h E. unfold settings. rewrite E. unfold panel_controls.
  repeat (rewrite lookup_insert_ne by done). rewrite lookup_insert_eq.
  repeat (rewrite lookup_insert_ne by done). rewrite lookup_insert_eq.
  repeat (rewrite lookup_insert_ne by done). rewrite lookup_insert_eq.
  repeat (rewrite lookup_insert_ne by done). rewrite lookup_insert_eq.
  done.
Qed.

(** X4.  Opening the tool never fails, whatever windows and controls are
    there: afterwards exactly one window of the tool is open, the session
    is fresh but for that window, the scene and the log are untouched, and
    the panel reads back the values the Conversion and the Split fall back
    to when a query fails: 50 samples, tolerance 0.001, no points on edges,
    automatic, detach on, keep history off. *)
Theorem show_tool_defaults h :
  let st := snd (show_tool h) in
  fst (show_tool h) = Val tt
  /\ self st = set_gui_window (Some window_name) init
  /\ open_count window_name (hst st) = 1
  /\ read_settings st = (Val default_params, st)
  /\ (forall d, checkbox_or d "detachEdges" (hst st) = true)
  /\ (forall d, checkbox_or d "keepHistory" (hst st) = false)
  /\ nodes (hst st) = nodes h
  /\ selection (hst st) = selection h
  /\ log (hst st) = log h.
Proof.
  unfold show_tool.
  destruct (create_ui_controls (State h init)) as (st0 & -> & Hw & Hn & Hs & Hl).
  cbn [fst snd hst self] in *.
  split; [done|]. split; [done|]. split.
  { unfold open_count. cbn. rewrite String.eqb_refl. cbn. by rewrite Hw. }
  split.
  { rewrite read_settings_eq. f_equal. f_equal.
    by apply (panel_settings (controls (hst st0))). }
  split.
  { intros d. unfold checkbox_or, panel_controls. cbn. by rewrite lookup_insert_eq. }
  split; [|done].
  intros d. unfold checkbox_or, panel_controls. cbn.
  rewrite lookup_insert_ne by done. by rewrite lookup_insert_eq.
Qed.

(** ** Conversion and Split without the duplicated geometry *)

Lemma polyProjectCurve_absent c mesh p st :
  exists_node c (hst st) = true ->
  absent mesh (hst st) ->
  exists e,
    polyProjectCurve c mesh p st
    = (Exc e, State (with_log (cons (ProjectCall c mesh p)) (hst st)) (self st)).
Proof.
  intros Hc Ha. destruct mesh as [d|]; [|by apply polyProjectCurve_no_mesh].
  unfold polyProjectCurve. rewrite bind_on_host.
  erewrite bind_val by (apply need_ok; exact Hc).
  erewrite bind_exc by (apply need_fail; exact Ha).
  eexists. reflexivity.
Qed.

Lemma project_first_fails p c curves acc st :
  exists_node c (hst st) = true ->
  absent (duplicated_geo (self st)) (hst st) ->
  exists e,
    fold_m (project_curve p) (c :: curves) acc st
    = (Exc e,
       State (with_log (cons (ProjectCall c (duplicated_geo (self st)) p)) (hst st))
             (self st)).
Proof.
  intros Hc Ha.
  destruct (polyProjectCurve_absent c _ p st Hc Ha) as [e E].
  exists e.
  assert (E' : project_curve p acc c st
               = (Exc e, State (with_log (cons (ProjectCall c (duplicated_geo (self st)) p))
                                         (hst st)) (self st))).
  { unfold project_curve. rewrite bind_gets. by rewrite (bind_exc _ _ _ _ _ E). }
  simpl fold_m. by rewrite (bind_exc _ _ _ _ _ E').
Qed.

(** X5.  When the duplicated geometry of the session is not in the scene
    once the Conversion is over (Setup was not run, or the duplicate was
    deleted), the Conversion still returns normally and has made the
    reference curves, but it has asked for one projection only, that of
    the first curve: the failure ends the loop, the newest log entry is the
    warning that the projection failed, and no curve group was made. *)
Theorem conversion_aborts_without_duplicate st :
  let st' := run convert_and_project st in
  List.filter nonempty (names_of_kind Stroke (hst st)) <> [] ->
  absent (duplicated_geo (self st)) (hst st') ->
  outcome convert_and_project st = Val tt
  /\ exists c rest e,
       projection_curves (self st') = c :: rest
       /\ length (c :: rest) = length (List.filter nonempty (names_of_kind Stroke (hst st)))
       /\ exists_node c (hst st') = true
       /\ hd_error (log (hst st')) = Some (Warning ("Projection failed: " +:+ e))
       /\ project_calls (log (hst st'))
          = ProjectCall c (duplicated_geo (self st)) (settings (hst st))
              :: project_calls (log (hst st))
       /\ names_of_kind CurveVarGroup (hst st') = names_of_kind CurveVarGroup (hst st).
Proof.
  unfold run, outcome. intros Hne.
  destruct (names_of_kind Stroke (hst st)) as [|s ss] eqn:Hst; [done|].
  unfold convert_and_project, ls_type.
  rewrite bind_gets, Hst, bind_on_self.
  set (st0 := State (hst st) (set_projection_curves [] (self st))).
  destruct (convert_loop (s :: ss) 0 st0) as (st1 & new & shapes & E1 & Cv).
  { intros x Hx. simpl. apply (names_of_kind_exist x Stroke). by rewrite Hst. }
  rewrite (bind_val _ _ _ _ _ E1).
  destruct Cv as [S1 X1 U1 N1 F1 D1 Sh1 G1 (added & L1 & Lc & Lp & Ls & Lw)].
  simpl in S1, X1, U1, F1, L1, G1.
  rewrite bind_gets. rewrite S1. simpl projection_curves.
  destruct new as [|c new].
  { exfalso. destruct (List.filter nonempty (s :: ss)); [done|discriminate N1]. }
  cbn [when]. rewrite bind_on_self.
  set (st2 := State (hst st1) (set_projection_curve (head (c :: new)) (self st1))).
  assert (Hd2 : duplicated_geo (self st2) = duplicated_geo (self st)).
  { unfold st2. simpl. rewrite S1. simpl. done. }
  assert (Hp : projection_curves (self st2) = c :: new).
  { unfold st2. simpl. rewrite S1. simpl. done. }
  assert (Hc : exists_node c (hst st2) = true).
  { apply Forall_cons in F1 as [[_ Hc] _]. exact Hc. }
  assert (Hset : settings (hst st2) = settings (hst st))
    by (apply settings_controls; simpl; congruence).
  destruct (duplicated_geo (self st)) as [d|] eqn:Hd.
  - destruct (exists_node d (hst st2)) eqn:Hex.
    + (* the duplicate is there: every projection succeeds, and it stays *)
      destruct (project_loop (settings (hst st2)) d (c :: new) [] st2 Hd2 Hex)
        as (st3 & groups & E3 & S3 & X3 & _).
      { intros x Hx. simpl. rewrite Forall_forall in F1.
        apply list_elem_of_In in Hx. by destruct (F1 _ Hx). }
      erewrite try_catch_val; cycle 1.
      { rewrite (bind_val _ _ _ _ _ (read_settings_eq st2)).
        rewrite bind_gets, Hp. rewrite (bind_val _ _ _ _ _ E3). reflexivity. }
      simpl. intros Ha. by rewrite (extends_exists _ _ _ X3 Hex) in Ha.
    + intros _.
      destruct (project_first_fails (settings (hst st2)) c new [] st2 Hc) as [e E].
      { by rewrite Hd2. }
      unfold try_catch.
      rewrite (bind_val _ _ _ _ _ (read_settings_eq st2)).
      rewrite bind_gets, Hp. rewrite (bind_exc _ _ _ _ _ E).
      unfold warning, on_host. simpl.
      split; [done|]. exists c, new, e.
      rewrite S1. simpl. split; [done|]. split; [exact N1|].
      split; [exact Hc|]. split; [done|]. split; [|exact G1].
      simpl in Hset. rewrite L1, Hset, ?Hd. unfold project_calls in *.
      by rewrite List.filter_app, Lp.
  - intros _.
    destruct (project_first_fails (settings (hst st2)) c new [] st2 Hc) as [e E].
    { by rewrite Hd2. }
    unfold try_catch.
    rewrite (bind_val _ _ _ _ _ (read_settings_eq st2)).
    rewrite bind_gets, Hp. rewrite (bind_exc _ _ _ _ _ E).
    unfold warning, on_host. simpl.
    split; [done|]. exists c, new, e.
    rewrite S1. simpl. split; [done|]. split; [exact N1|].
    split; [exact Hc|]. split; [done|]. split; [|exact G1].
    simpl in Hset. rewrite L1, Hset, ?Hd. unfold project_calls in *.
    by rewrite List.filter_app, Lp.
Qed.

Lemma conversion_aborts_witness :
  List.filter nonempty (names_of_kind Stroke (hst st_lost)) <> []
  /\ absent (duplicated_geo (self st_lost)) (hst (run convert_and_project st_lost))
  /\ outcome convert_and_project st_lost = Val tt.
Proof.
  assert (H1 : List.filter nonempty (names_of_kind Stroke (hst st_lost)) <> [])
    by (vm_compute; discriminate).
  assert (H2 : absent (duplicated_geo (self st_lost))
                      (hst (run convert_and_project st_lost)))
    by (vm_compute; reflexivity).
  split; [exact H1|]. split; [exact H2|].
  exact (proj1 (conversion_aborts_without_duplicate st_lost H1 H2)).
Defined.

Lemma select_add_absent o st :
  absent o (hst st) -> exists e, select_add o st = (Exc e, st).
Proof.
  intros Ha. destruct o as [d|]; [|by eexists].
  unfold select_add. erewrite bind_exc by (apply need_fail; exact Ha). by eexists.
Qed.

(** X6.  When there are curve groups but the duplicated geometry of the
    session is not in the scene, Split returns normally without ever
    calling the split procedure: the failure of the selection is caught and
    is the newest log entry.  What was done before the failure stays: the
    split option is set and the selection is replaced by the curve groups.
    No node is touched. *)
Theorem split_aborts_without_duplicate st :
  names_of_kind CurveVarGroup (hst st) <> [] ->
  absent (duplicated_geo (self st)) (hst st) ->
  let st' := run execute_split st in
  outcome execute_split st = Val tt
  /\ split_calls (log (hst st')) = split_calls (log (hst st))
  /\ (exists e, log (hst st') = Warning ("Split failed: " +:+ e) :: log (hst st))
  /\ selection (hst st') = names_of_kind CurveVarGroup (hst st)
  /\ optionVars (hst st') !! "splitPolyWithCurveOperation"
     = Some (split_operation (hst st))
  /\ nodes (hst st') = nodes (hst st)
  /\ self st' = self st.
Proof.
  intros Hne Ha.
  destruct (names_of_kind CurveVarGroup (hst st)) as [|g gs] eqn:Hg; [done|].
  set (h1 := with_selection (g :: gs)
               (with_optionVars (<["splitPolyWithCurveOperation":=split_operation (hst st)]>)
                  (hst st))).
  destruct (select_add_absent (duplicated_geo (self st)) (State h1 (self st)) Ha)
    as [e E].
  assert (H : execute_split st
              = (Val tt, State (with_log (cons (Warning ("Split failed: " +:+ e))) h1)
                               (self st))).
  { unfold execute_split, ls_type.
    rewrite bind_gets, Hg. rewrite (bind_val _ _ _ _ _ (keep_query _ _ _)).
    fold (split_operation (hst st)).
    unfold optionVar_int.
    erewrite try_catch_bind_val by reflexivity.
    erewrite try_catch_bind_val.
    2:{ apply select_replace_ok. intros x Hx. simpl.
        apply (names_of_kind_exist x CurveVarGroup (hst st)). by rewrite Hg. }
    erewrite try_catch_bind_val by reflexivity.
    simpl self. simpl hst. fold h1.
    unfold try_catch. by rewrite (bind_exc _ _ _ _ _ E). }
  unfold run, outcome. rewrite H. simpl.
  split; [done|]. split; [done|]. split; [by exists e|]. split; [done|].
  split; [apply lookup_insert_eq|done].
Qed.

Lemma split_aborts_witness :
  names_of_kind CurveVarGroup (hst st_lost_projected) <> []
  /\ absent (duplicated_geo (self st_lost_projected)) (hst st_lost_projected)
  /\ split_calls (log (hst (run execute_split st_lost_projected)))
     = split_calls (log (hst st_lost_projected)).
Proof.
  assert (H1 : names_of_kind CurveVarGroup (hst st_lost_projected) <> [])
    by (vm_compute; discriminate).
  assert (H2 : absent (duplicated_geo (self st_lost_projected)) (hst st_lost_projected))
    by (vm_compute; reflexivity).
  split; [exact H1|]. split; [exact H2|].
  exact (proj1 (proj2 (split_aborts_without_duplicate st_lost_projected H1 H2))).
Defined.

(** ** Conversion, twice *)

Lemma extends_names_of_kind t h h' :
  extends h h' -> exists l, names_of_kind t h' = names_of_kind t h ++ l.
Proof.
  intros [l E]. unfold names_of_kind. rewrite E, List.filter_app, map_app. eauto.
Qed.

(** X7.  A second Conversion starts its record of reference curves anew:
    the curves of the first Conversion stay in the scene, but none of them
    is among the curves the session records afterwards, which are all new
    nodes. *)
Theorem second_conversion_forgets_first st d :
  names_of_kind Stroke (hst st) <> [] ->
  duplicated_geo (self st) = Some d ->
  exists_node d (hst st) = true ->
  let st1 := run convert_and_project st in
  let st2 := run convert_and_project st1 in
  outcome convert_and_project st1 = Val tt
  /\ (forall c, In c (projection_curves (self st1)) ->
                exists_node c (hst st2) = true
                /\ ~ In c (projection_curves (self st2)))
  /\ (forall c, In c (projection_curves (self st2)) ->
                exists_node c (hst st1) = false).
Proof.
  intros Hne Hd Hex.
  pose proof (convert_and_project_spec st) as H1.
  destruct (names_of_kind Stroke (hst st)) as [|s ss] eqn:Hst; [done|].
  destruct (H1 d Hd Hex) as (st1 & curves & shapes & groups & E1 & C1).
  unfold run, outcome. rewrite E1. cbn [fst snd].
  pose proof (convert_and_project_spec st1) as H2.
  destruct (extends_names_of_kind Stroke _ _ (cn_extends _ _ _ _ _ _ _ C1)) as [l El].
  rewrite Hst in El. simpl in El. rewrite El in H2.
  destruct (H2 d) as (st2 & curves2 & shapes2 & groups2 & E2 & C2).
  { by rewrite (cn_dup _ _ _ _ _ _ _ C1). }
  { eapply extends_exists; [exact (cn_extends _ _ _ _ _ _ _ C1)|exact Hex]. }
  rewrite E2. cbn [fst snd]. split; [done|].
  pose proof (cn_new _ _ _ _ _ _ _ C1) as N1.
  pose proof (cn_new _ _ _ _ _ _ _ C2) as N2.
  rewrite Forall_forall in N1. rewrite Forall_forall in N2.
  rewrite (cn_curves _ _ _ _ _ _ _ C1), (cn_curves _ _ _ _ _ _ _ C2).
  split.
  - intros c Hc. apply list_elem_of_In in Hc. destruct (N1 _ Hc) as [_ Hc1]. split.
    + eapply extends_exists; [exact (cn_extends _ _ _ _ _ _ _ C2)|exact Hc1].
    + intros Hc2. apply list_elem_of_In in Hc2. destruct (N2 _ Hc2) as [Hf _]. congruence.
  - intros c Hc. apply list_elem_of_In in Hc. by destruct (N2 _ Hc).
Qed.

Lemma second_conversion_witness :
  names_of_kind Stroke (hst st_painted) <> []
  /\ duplicated_geo (self st_painted) = Some "pCube1_split"
  /\ exists_node "pCube1_split" (hst st_painted) = true
  /\ outcome convert_and_project (run convert_and_project st_painted) = Val tt.
Proof.
  assert (H1 : names_of_kind Stroke (hst st_painted) <> []) by (vm_compute; discriminate).
  assert (H2 : duplicated_geo (self st_painted) = Some "pCube1_split")
    by (vm_compute; reflexivity).
  assert (H3 : exists_node "pCube1_split" (hst st_painted) = true)
    by (vm_compute; reflexivity).
  split; [exact H1|]. split; [exact H2|]. split; [exact H3|].
  exact (proj1 (second_conversion_forgets_first st_painted "pCube1_split" H1 H2 H3)).
Defined.

(** ** Finish and the duplicated geometry *)

Lemma substring_all s : String.substring 0 (String.length s) s = s.
Proof. induction s as [|a s IH]; simpl; [done|]. by rewrite IH. Qed.

Lemma substring_append s suf :
  String.substring (String.length s) (String.length suf) (s +:+ suf) = suf.
Proof. induction s as [|a s IH]; simpl; [apply substring_all|exact IH]. Qed.

Lemma length_append s t : String.length (s +:+ t) = String.length s + String.length t.
Proof. induction s as [|a s IH]; simpl; [done|]. by rewrite IH. Qed.

Lemma ends_with_append s suf : ends_with suf (s +:+ suf) = true.
Proof.
  unfold ends_with. cbn zeta. rewrite length_append.
  replace (String.length s + String.length suf - String.length suf)
    with (String.length s) by lia.
  rewrite substring_append, String.eqb_refl, andb_true_r.
  apply Nat.leb_le. lia.
Qed.

Lemma extends_in h h' n : extends h h' -> In n (nodes h) -> In n (nodes h').
Proof. intros [l E] H. rewrite E. apply in_app_iff. by left. Qed.

(** The duplicate Setup records is a transform of the scene. *)
Lemma setup_duplicate_is_transform st t rest :
  selected_of_kind Transform (hst st) = t :: rest ->
  In (unique_name (hst st) (t +:+ "_split"))
     (names_of_kind Transform (hst (run setup_geometry st))).
Proof.
  intros Hsel. destruct (selected_lookup _ _ _ _ Hsel) as (n & Hn & Hk).
  unfold run, setup_geometry, ls_selection.
  rewrite bind_gets, Hsel, bind_on_self.
  erewrite bind_val by (by apply duplicate_ok).
  cbn [first]. rewrite bind_ret, bind_on_self. simpl hst. simpl self.
  set (h1 := duplicated t (t +:+ "_split") n (hst st)).
  assert (Ht : exists_node t h1 = true).
  { eapply extends_exists; [apply extends_duplicated|]. by eapply lookup_exists. }
  unfold hide. erewrite bind_val by (by apply setAttr_ok).
  simpl hst. simpl self.
  edestruct status_text_ok as (st' & -> & Hnodes & _).
  cbn [snd]. simpl hst in Hnodes.
  assert (Hsk : skeleton (hst st') = skeleton h1).
  { unfold skeleton at 1. rewrite Hnodes. apply skeleton_set_attr. }
  rewrite (names_of_kind_skeleton _ _ Transform Hsk).
  apply in_names_of_kind.
  exists (rename (unique_name (hst st) (t +:+ "_split")) (npath n) n).
  split; [|by split].
  unfold h1, duplicated. eapply extends_in; [apply extends_add_copies|].
  unfold add_node. simpl. apply in_app_iff. right. by left.
Qed.

(** X8.  Setup asks for the duplicate under the name of the target with
    [_split] appended, and Finish deletes every transform whose name ends
    with [_split].  So when that name was free at Setup, the duplicated
    geometry of the session is a transform named so, and a Finish from any
    later state in which it still is one, which always returns, leaves no
    node of that name in the scene. *)
Theorem finish_deletes_duplicate_named_by_setup st t rest :
  selected_of_kind Transform (hst st) = t :: rest ->
  exists_node (t +:+ "_split") (hst st) = false ->
  let st1 := run setup_geometry st in
  let d := t +:+ "_split" in
  duplicated_geo (self st1) = Some d
  /\ In d (names_of_kind Transform (hst st1))
  /\ forall st2,
       In d (names_of_kind Transform (hst st2)) ->
       outcome finish_and_cleanup st2 = Val tt
       /\ gone d (hst (run finish_and_cleanup st2)).
Proof.
  intros Hsel Hfree. cbn zeta.
  pose proof (setup_geometry_spec st) as Hs. rewrite Hsel in Hs. cbn zeta in Hs.
  destruct Hs as (_ & _ & Hd & _).
  pose proof (setup_duplicate_is_transform st t rest Hsel) as Hk.
  rewrite (unique_name_free _ _ Hfree) in Hd, Hk.
  split; [exact Hd|]. split; [exact Hk|].
  intros st2 Hin.
  destruct (finish_cleans st2) as (st' & st3 & dels & E & C & Hn & _).
  unfold run, outcome. rewrite E. cbn [fst snd]. split; [done|].
  unfold gone, exists_node. rewrite Hn.
  apply (cl_gone _ _ _ _ C). apply in_cleanup_names. left.
  apply filter_In. split; [exact Hin|apply ends_with_append].
Qed.

Lemma finish_deletes_duplicate_witness :
  selected_of_kind Transform (hst st_idle) = ["pCube1"]
  /\ exists_node ("pCube1" +:+ "_split") (hst st_idle) = false
  /\ gone ("pCube1" +:+ "_split") (hst (run finish_and_cleanup st_split)).
Proof.
  assert (H1 : selected_of_kind Transform (hst st_idle) = ["pCube1"])
    by (vm_compute; reflexivity).
  assert (H2 : exists_node ("pCube1" +:+ "_split") (hst st_idle) = false)
    by (vm_compute; reflexivity).
  assert (H3 : In ("pCube1" +:+ "_split") (names_of_kind Transform (hst st_split))).
  { assert (H : existsb (String.eqb ("pCube1" +:+ "_split"))
                        (names_of_kind Transform (hst st_split)) = true)
      by (vm_compute; reflexivity).
    apply existsb_exists in H as (x & Hx & Ex). apply String.eqb_eq in Ex. by subst. }
  split; [exact H1|]. split; [exact H2|].
  destruct (finish_deletes_duplicate_named_by_setup st_idle "pCube1" [] H1 H2)
    as (_ & _ & Hf).
  exact (proj2 (Hf st_split H3)).
Defined.

(** ** The view buttons *)

Lemma find_panel_set_xray p x b h :
  find_panel p
    (with_panels (map (fun q => if String.eqb (pname q) x
                                then Panel (pname q) (ptype q) (pvisible q) (pcamera q) b
                                else q)) h)
  = (fun q => if String.eqb (pname q) x then with_xray b q else q) <$> find_panel p h.
Proof.
  unfold find_panel. simpl. induction (panels h) as [|a l IH]; simpl; [done|].
  destruct (String.eqb (pname a) x) eqn:E; simpl.
  - destruct (String.eqb (pname a) p); [|exact IH]. simpl. by rewrite E.
  - destruct (String.eqb (pname a) p); [|exact IH]. simpl. by rewrite E.
Qed.

Lemma find_panel_name p h q : find_panel p h = Some q -> pname q = p.
Proof.
  unfold find_panel. intros H. apply find_some in H as [_ H].
  by apply String.eqb_eq.
Qed.

(** One toggle on a focused model panel. *)
Lemma toggle_xray_model st q :
  find_panel (focus (hst st)) (hst st) = Some q ->
  ptype q = "modelPanel" ->
  exists st',
    toggle_xray st = (Val tt, st')
    /\ find_panel (focus (hst st)) (hst st') = Some (with_xray (negb (pxray q)) q)
    /\ focus (hst st') = focus (hst st)
    /\ nodes (hst st') = nodes (hst st)
    /\ selection (hst st') = selection (hst st)
    /\ log (hst st') = log (hst st)
    /\ self st' = self st.
Proof.
  intros Hq Ht.
  unfold toggle_xray, getPanel_withFocus. rewrite bind_gets.
  unfold getPanel_typeOf, modelEditor_xray, modelEditor_set_xray, bind, when.
  rewrite Hq, Ht. simpl. rewrite Hq. simpl. rewrite Hq.
  eexists. split; [reflexivity|]. simpl.
  split; [|done].
  rewrite find_panel_set_xray, Hq. simpl.
  by rewrite (find_panel_name _ _ _ Hq), String.eqb_refl.
Qed.

(** X9.  The X-ray button needs a panel with the focus: without one it
    raises and changes nothing.  On a focused panel that is no model panel
    it does nothing.  On a focused model panel it never fails and inverts
    the X-ray flag of that panel, so that pressing it twice gives the flag
    back; the scene, the selection, the log and the session stay as they
    are. *)
Theorem toggle_xray_twice st :
  match find_panel (focus (hst st)) (hst st) with
  | None => exists e, toggle_xray st = (Exc e, st)
  | Some q =>
      if String.eqb (ptype q) "modelPanel"
      then
        let st1 := run toggle_xray st in
        let st2 := run toggle_xray st1 in
        outcome toggle_xray st = Val tt
        /\ outcome toggle_xray st1 = Val tt
        /\ focused_xray (hst st1) = Some (negb (pxray q))
        /\ focused_xray (hst st2) = Some (pxray q)
        /\ nodes (hst st2) = nodes (hst st)
        /\ selection (hst st2) = selection (hst st)
        /\ log (hst st2) = log (hst st)
        /\ self st2 = self st
      else toggle_xray st = (Val tt, st)
  end.
Proof.
  destruct (find_panel (focus (hst st)) (hst st)) as [q|] eqn:Hq.
  - destruct (String.eqb (ptype q) "modelPanel") eqn:Ht.
    + apply String.eqb_eq in Ht.
      destruct (toggle_xray_model st q Hq Ht)
        as (st1 & E1 & Q1 & F1 & N1 & S1 & L1 & Z1).
      rewrite <- F1 in Q1.
      destruct (toggle_xray_model st1 _ Q1 Ht)
        as (st2 & E2 & Q2 & F2 & N2 & S2 & L2 & Z2).
      unfold run, outcome. rewrite E1. cbn [fst snd]. rewrite E2. cbn [fst snd].
      unfold focused_xray. rewrite F2, Q2, Q1. simpl.
      rewrite negb_involutive. repeat split; congruence.
    + unfold toggle_xray, getPanel_withFocus. rewrite bind_gets.
      unfold getPanel_typeOf, bind, when. by rewrite Hq, Ht.
  - unfold toggle_xray, getPanel_withFocus. rewrite bind_gets.
    unfold getPanel_typeOf, bind. rewrite Hq. by eexists.
Qed.



(** ** Paint Activation without a model panel *)

Lemma find_panel_in p h q : find_panel p h = Some q -> In q (panels h).
Proof. unfold find_panel. intros H. by apply find_some in H as [H _]. Qed.

Lemma find_panel_of_in h q : In q (panels h) -> is_Some (find_panel (pname q) h).
Proof.
  unfold find_panel. induction (panels h) as [|a l IH]; simpl; [done|].
  intros [->|H].
  - rewrite String.eqb_refl. by eexists.
  - destruct (String.eqb (pname a) (pname q)); [by eexists|by apply IH].
Qed.

Lemma filter_m_none {A} (f : A -> M bool) l st :
  (forall a, In a l -> f a st = (Val false, st)) -> filter_m f l st = (Val [], st).
Proof.
  induction l as [|a l IH]; intros H; simpl; [done|].
  rewrite (bind_val _ _ _ _ _ (H a (or_introl eq_refl))).
  rewrite (bind_val _ _ _ _ _ (IH (fun b Hb => H b (or_intror Hb)))). done.
Qed.

Lemma typeOf_not_model p st :
  (forall q, In q (panels (hst st)) -> ptype q <> "modelPanel") ->
  is_Some (find_panel p (hst st)) ->
  (let* t := getPanel_typeOf p in ret (String.eqb t "modelPanel")) st = (Val false, st).
Proof.
  intros Hno [q Hq]. unfold bind, getPanel_typeOf. rewrite Hq. simpl.
  destruct (String.eqb (ptype q) "modelPanel") eqn:E; [|done].
  apply String.eqb_eq in E. by apply Hno in E; [|eapply find_panel_in].
Qed.

Lemma current_model_panel_none st :
  (forall q, In q (panels (hst st)) -> ptype q <> "modelPanel") ->
  focus (hst st) = EmptyString \/ is_Some (find_panel (focus (hst st)) (hst st)) ->
  current_model_panel st = (Val None, st).
Proof.
  intros Hno Hf.
  assert (E1 : and_m (negb (String.eqb (focus (hst st)) EmptyString))
                 (let* t := getPanel_typeOf (focus (hst st)) in
                  ret (String.eqb t "modelPanel")) st = (Val false, st)).
  { destruct (String.eqb (focus (hst st)) EmptyString) eqn:E; [done|].
    destruct Hf as [Hf|Hf]; [by rewrite Hf in E|].
    simpl. by apply typeOf_not_model. }
  unfold current_model_panel, getPanel_withFocus, getPanel_visiblePanels.
  rewrite bind_gets. rewrite (bind_val _ _ _ _ _ E1). rewrite bind_gets.
  rewrite (bind_val _ _ st [] st); [done|].
  apply filter_m_none. intros p Hp.
  apply typeOf_not_model; [exact Hno|].
  apply in_map_iff in Hp as (q & <- & Hq). apply filter_In in Hq as [Hq _].
  by apply find_panel_of_in.
Qed.

(** X11.  Paint Activation needs a model panel.  With a target set up but
    no model panel among the panels (the focus being on no panel or on one
    of them), it raises, the exception is not caught, and nothing at all
    has changed: no snapshot, no plane, the camera and the tumble tool as
    before. *)
Theorem activation_needs_model_panel st :
  truthy (target_geo (self st)) = true ->
  (forall q, In q (panels (hst st)) -> ptype q <> "modelPanel") ->
  focus (hst st) = EmptyString \/ is_Some (find_panel (focus (hst st)) (hst st)) ->
  exists e, activate_paint_tool st = (Exc e, st).
Proof.
  intros Ht Hno Hf. eexists.
  unfold activate_paint_tool. rewrite bind_gets, Ht. cbn [negb].
  erewrite bind_exc; [reflexivity|].
  unfold setup_orthographic_camera.
  rewrite (bind_val _ _ _ _ _ (current_model_panel_none st Hno Hf)).
  reflexivity.
Qed.

Lemma activation_needs_model_panel_witness :
  truthy (target_geo (self st_no_panel)) = true
  /\ (forall q, In q (panels (hst st_no_panel)) -> ptype q <> "modelPanel")
  /\ exists e, activate_paint_tool st_no_panel = (Exc e, st_no_panel).
Proof.
  assert (H1 : truthy (target_geo (self st_no_panel)) = true) by (vm_compute; reflexivity).
  assert (H2 : forall q, In q (panels (hst st_no_panel)) -> ptype q <> "modelPanel").
  { intros q [<-|[]]. discriminate. }
  assert (H3 : focus (hst st_no_panel) = EmptyString
               \/ is_Some (find_panel (focus (hst st_no_panel)) (hst st_no_panel))).
  { right. eexists. vm_compute. reflexivity. }
  split; [exact H1|]. split; [exact H2|].
  exact (activation_needs_model_panel st_no_panel H1 H2 H3).
Defined.

(** ** Paint Activation, forwards *)

Lemma getAttr_ok x a v st : attr_of x a (hst st) = Some v -> getAttr x a st = (Val v, st).
Proof.
  unfold attr_of, getAttr. destruct (lookup_node x (hst st)); [|done]. by intros ->.
Qed.

Lemma attr_of_exists x a v h : attr_of x a h = Some v -> exists_node x h = true.
Proof.
  unfold attr_of. destruct (lookup_node x h) eqn:E; [|done]. intros _.
  by eapply lookup_exists.
Qed.

Lemma lookup_node_set_attr y x a v h :
  lookup_node y (set_attr x a v h)
  = option_map (fun n => if named x n then set_attrs (<[a:=v]>) n else n) (lookup_node y h).
Proof.
  unfold lookup_node, set_attr. simpl. apply find_map_named.
  intros n. by destruct (named x n).
Qed.

Lemma path_of_set_attr y x a v h : path_of y (set_attr x a v h) = path_of y h.
Proof.
  unfold path_of. rewrite lookup_node_set_attr.
  destruct (lookup_node y h) as [n|]; [|done]. simpl. by destruct (named x n).
Qed.

Lemma exists_node_set_all y x l h : exists_node y (set_all x l h) = exists_node y h.
Proof.
  revert h. induction l as [|kv l IH]; intros h; [done|].
  change (set_all x (kv :: l) h) with (set_all x l (set_attr x (fst kv) (snd kv) h)).
  by rewrite IH, exists_node_set_attr.
Qed.

Lemma path_of_set_all y x l h : path_of y (set_all x l h) = path_of y h.
Proof.
  revert h. induction l as [|kv l IH]; intros h; [done|].
  change (set_all x (kv :: l) h) with (set_all x l (set_attr x (fst kv) (snd kv) h)).
  by rewrite IH, path_of_set_attr.
Qed.

Lemma attr_of_set_all_other y a x l h :
  ~ In a (map fst l) -> attr_of y a (set_all x l h) = attr_of y a h.
Proof.
  revert h. induction l as [|kv l IH]; intros h Hn; [done|].
  change (set_all x (kv :: l) h) with (set_all x l (set_attr x (fst kv) (snd kv) h)).
  rewrite IH by (intros H; apply Hn; by right).
  apply attr_of_set_attr_ne. intros ->. apply Hn. by left.
Qed.

(** Each attribute of a list without repeated keys has its value in the end. *)
Lemma attr_of_set_all x l h a v :
  exists_node x h = true -> NoDup (map fst l) -> In (a, v) l ->
  attr_of x a (set_all x l h) = Some v.
Proof.
  revert h. induction l as [|kv l IH]; intros h Hex Hnd Hin; [done|].
  simpl in Hnd. apply NoDup_cons in Hnd as [Hk Hnd].
  destruct Hin as [->|Hin].
  - change (set_all x ((a, v) :: l) h) with (set_all x l (set_attr x a v h)).
    rewrite attr_of_set_all_other.
    + by apply attr_of_set_attr.
    + intros H. apply Hk. by apply list_elem_of_In.
  - change (set_all x (kv :: l) h) with (set_all x l (set_attr x (fst kv) (snd kv) h)).
    apply IH; [by rewrite exists_node_set_attr|done|done].
Qed.

Lemma find_app_fresh x (l l' : list node) :
  existsb (named x) l = false -> find (named x) (l ++ l') = find (named x) l'.
Proof.
  induction l as [|a l IH]; simpl; [done|].
  destruct (named x a); [done|]. exact IH.
Qed.

Lemma polyPlane_ok w name st :
  polyPlane w w name st
  = (Val [unique_name (hst st) name; plane_creator name (hst st)],
     State (plane_made w name (hst st)) (self st)).
Proof. done. Qed.

Lemma extends_plane_made w name h : extends h (plane_made w name h).
Proof.
  unfold plane_made. cbn zeta.
  eexists [_; _; _]. simpl. by rewrite <- !app_assoc.
Qed.

Lemma plane_made_plane w name h :
  lookup_node (unique_name h name) (plane_made w name h)
  = Some (Node (unique_name h name) Transform [] ∅ bbox0 true).
Proof.
  unfold lookup_node, plane_made. cbn zeta. simpl. rewrite <- !app_assoc.
  rewrite find_app_fresh by apply unique_name_fresh.
  simpl. unfold named. simpl. by rewrite String.eqb_refl.
Qed.

Lemma plane_made_creator w name h :
  exists_node (plane_creator name h) (plane_made w name h) = true.
Proof.
  unfold plane_made, plane_creator. cbn zeta.
  apply exists_node_spec. eexists. split.
  - simpl. apply in_app_iff. right. by left.
  - done.
Qed.

Lemma current_model_panel_focused st q :
  focus (hst st) <> EmptyString ->
  find_panel (focus (hst st)) (hst st) = Some q ->
  ptype q = "modelPanel" ->
  current_model_panel st = (Val (Some (focus (hst st))), st).
Proof.
  intros Hne Hq Ht.
  assert (E1 : and_m (negb (String.eqb (focus (hst st)) EmptyString))
                 (let* t := getPanel_typeOf (focus (hst st)) in
                  ret (String.eqb t "modelPanel")) st = (Val true, st)).
  { destruct (String.eqb (focus (hst st)) EmptyString) eqn:E.
    - apply String.eqb_eq in E. done.
    - simpl. unfold bind, getPanel_typeOf. by rewrite Hq, Ht. }
  unfold current_model_panel, getPanel_withFocus.
  rewrite bind_gets. by rewrite (bind_val _ _ _ _ _ E1).
Qed.

Lemma setup_orthographic_camera_ok st q t nt cs rest o w :
  target_geo (self st) = Some t ->
  lookup_node t (hst st) = Some nt ->
  focus (hst st) <> EmptyString ->
  find_panel (focus (hst st)) (hst st) = Some q ->
  ptype q = "modelPanel" ->
  exists_node (pcamera q) (hst st) = true ->
  shapes_of (pcamera q) (hst st) = cs :: rest ->
  attr_of cs "orthographic" (hst st) = Some o ->
  attr_of cs "orthographicWidth" (hst st) = Some w ->
  setup_orthographic_camera st
  = (Val tt,
     State (camera_set cs (stored (bbox_width (nbbox nt))) (hst st))
           (set_original_camera_state (Some (CameraState (pcamera q) cs o w)) (self st))).
Proof.
  intros Ht Hnt Hne Hq Hty Hcam Hsh Ho Hw.
  pose proof (attr_of_exists _ _ _ _ Ho) as Hcs.
  unfold setup_orthographic_camera.
  rewrite (bind_val _ _ _ _ _ (current_model_panel_focused st q Hne Hq Hty)).
  assert (E2 : modelPanel_camera (Some (focus (hst st))) st = (Val (pcamera q), st)).
  { unfold modelPanel_camera. by rewrite Hq, Hty. }
  rewrite (bind_val _ _ _ _ _ E2).
  assert (E3 : listRelatives_shapes (pcamera q) st = (Val (cs :: rest), st)).
  { unfold listRelatives_shapes. rewrite (bind_val _ _ _ _ _ (need_ok _ _ Hcam)).
    unfold gets. by rewrite Hsh. }
  rewrite (bind_val _ _ _ _ _ E3). cbn [first]. rewrite bind_ret.
  rewrite (bind_val _ _ _ _ _ (getAttr_ok _ _ _ _ Ho)).
  rewrite (bind_val _ _ _ _ _ (getAttr_ok _ _ _ _ Hw)).
  rewrite bind_on_self, bind_gets. simpl self. simpl target_geo. rewrite Ht.
  erewrite bind_val; cycle 1.
  { unfold exactWorldBoundingBox. simpl hst. by rewrite Hnt. }
  erewrite bind_val by (by apply setAttr_ok).
  erewrite bind_val by (apply setAttr_ok; simpl; by rewrite exists_node_set_attr).
  reflexivity.
Qed.

Lemma reparent_name child newpath n : nname (reparent child newpath n) = nname n.
Proof.
  unfold reparent. destruct (named child n); [done|]. by destruct (in_path child n).
Qed.

Lemma lookup_node_map (f : node -> node) x h :
  (forall n, nname (f n) = nname n) ->
  lookup_node x (with_nodes (map f) h) = option_map f (lookup_node x h).
Proof. intros Hf. unfold lookup_node. simpl. by apply find_map_named. Qed.

Lemma place_plane_ok p st :
  exists_node p (hst st) = true ->
  (do* setAttr p "translateX" 0 in
   do* setAttr p "translateY" 0 in
   do* setAttr p "translateZ" (-100) in
   do* setAttr p "rotateX" 90 in
   do* setAttr p "rotateY" 0 in
   do* setAttr p "rotateZ" 0 in
   do* setAttr p "overrideEnabled" 1 in
   do* setAttr p "overrideDisplayType" 2 in
   setAttr p "visibility" 0) st
  = (Val tt, State (set_all p plane_settings (hst st)) (self st)).
Proof.
  intros H.
  do 8 (erewrite bind_val
          by (apply setAttr_ok; simpl hst; rewrite ?exists_node_set_attr; exact H)).
  rewrite setAttr_ok by (simpl hst; rewrite ?exists_node_set_attr; exact H).
  reflexivity.
Qed.

Lemma plane_settings_keys : NoDup (map fst plane_settings).
Proof. apply (bool_decide_unpack _). vm_compute. exact I. Qed.

Lemma create_temporary_plane_ok st cam cs o w0 W pc :
  original_camera_state (self st) = Some (CameraState cam cs o w0) ->
  attr_of cs "orthographicWidth" (hst st) = Some W ->
  lookup_node cam (hst st) = Some pc ->
  exists st',
    create_temporary_plane st = (Val tt, st')
    /\ self st' = set_temp_plane (Some (unique_name (hst st) "ddSplit_tempPlane")) (self st)
    /\ exists_node (unique_name (hst st) "ddSplit_tempPlane") (hst st') = true
    /\ path_of (unique_name (hst st) "ddSplit_tempPlane") (hst st') = Some (cam :: npath pc)
    /\ (forall a v, In (a, v) plane_settings ->
                    attr_of (unique_name (hst st) "ddSplit_tempPlane") a (hst st') = Some v).
Proof.
  intros Hocs HW Hcam.
  pose proof (attr_of_exists _ _ _ _ HW) as Hcs.
  set (p := unique_name (hst st) "ddSplit_tempPlane").
  set (c := plane_creator "ddSplit_tempPlane" (hst st)).
  set (h2 := plane_made W "ddSplit_tempPlane" (hst st)).
  pose proof (extends_plane_made W "ddSplit_tempPlane" (hst st)) as X2. fold h2 in X2.
  pose proof (plane_made_plane W "ddSplit_tempPlane" (hst st)) as P2. fold h2 p in P2.
  pose proof (plane_made_creator W "ddSplit_tempPlane" (hst st)) as C2. fold h2 c in C2.
  set (s2 := set_temp_plane (Some p) (self st)).
  set (h3 := with_conns
               (fun l => ((cs, "orthographicWidth"), (c, "width"))
                         :: List.filter
                              (fun x => negb (plug_eqb (snd x) (c, "width"))) l)
               (with_log (cons (ConnectCall (cs, "orthographicWidth") (c, "width"))) h2)).
  set (h4 := with_conns
               (fun l => ((cs, "orthographicWidth"), (c, "height"))
                         :: List.filter
                              (fun x => negb (plug_eqb (snd x) (c, "height"))) l)
               (with_log (cons (ConnectCall (cs, "orthographicWidth") (c, "height"))) h3)).
  set (h5 := with_nodes (map (reparent p (cam :: npath pc))) h4).
  assert (N4 : nodes h4 = nodes h2) by done.
  assert (E1 : connectAttr (cs, "orthographicWidth") (c, "width") (State h2 s2)
               = (Val tt, State h3 s2)).
  { apply connectAttr_ok; simpl; [by eapply extends_exists|done]. }
  assert (E2 : connectAttr (cs, "orthographicWidth") (c, "height") (State h3 s2)
               = (Val tt, State h4 s2)).
  { apply connectAttr_ok; simpl.
    - rewrite (exists_node_nodes h2 h3) by done. by eapply extends_exists.
    - by rewrite (exists_node_nodes h2 h3). }
  assert (L4 : lookup_node p h4 = Some (Node p Transform [] ∅ bbox0 true)).
  { by rewrite (lookup_node_nodes h2 h4). }
  assert (E3 : parent p cam (State h4 s2) = (Val tt, State h5 s2)).
  { unfold parent. simpl hst.
    rewrite (lookup_node_nodes h2 h4) by done.
    rewrite (extends_lookup _ _ _ _ X2 Hcam).
    by rewrite (lookup_exists _ _ _ L4). }
  assert (L5 : lookup_node p h5
               = Some (Node p Transform (cam :: npath pc) ∅ bbox0 true)).
  { unfold h5. rewrite lookup_node_map by apply reparent_name.
    rewrite L4. simpl. unfold reparent, named. simpl.
    by rewrite String.eqb_refl. }
  pose proof (lookup_exists _ _ _ L5) as X5.
  exists (State (set_all p plane_settings h5) s2).
  split.
  { unfold create_temporary_plane. rewrite bind_gets, Hocs.
    simpl cs_camera. simpl cs_camera_shape.
    rewrite (bind_val _ _ _ _ _ (getAttr_ok _ _ _ _ HW)).
    rewrite (bind_val _ _ _ _ _ (polyPlane_ok W "ddSplit_tempPlane" st)).
    fold p c h2. rewrite bind_on_self. simpl hst. simpl self. fold s2.
    rewrite (bind_val _ _ _ _ _ E1), (bind_val _ _ _ _ _ E2), (bind_val _ _ _ _ _ E3).
    by apply (place_plane_ok p (State h5 s2)). }
  cbn [hst self]. split; [done|].
  split; [by rewrite exists_node_set_all|].
  split.
  { rewrite path_of_set_all. unfold path_of. by rewrite L5. }
  intros a v Hin. apply attr_of_set_all; [done|apply plane_settings_keys|done].
Qed.

Lemma lookup_node_camera_set x cs w h n :
  lookup_node x h = Some n ->
  exists n', lookup_node x (camera_set cs w h) = Some n' /\ npath n' = npath n.
Proof.
  intros H. unfold camera_set.
  rewrite (lookup_node_nodes (set_attr cs "orthographicWidth" w
                                (set_attr cs "orthographic" 1 h))) by done.
  rewrite !lookup_node_set_attr, H. simpl. eexists. split; [reflexivity|].
  destruct (named cs n); simpl; by destruct (named cs _).
Qed.

(** X12.  Paint Activation succeeds whenever a target is set up and in the
    scene, the focus is on a model panel, the camera of that panel is in
    the scene and has a shape, and that shape has both orthographic
    attributes.  It then records the snapshot of that camera and a new
    plane, and leaves the plane under the camera, 100 units in front of it
    and turned by 90 degrees about X, with its display overridden to
    bounding box and hidden. *)
Theorem paint_activation_succeeds_and_places_plane st q t nt cs rest o w pc :
  target_geo (self st) = Some t ->
  t <> EmptyString ->
  lookup_node t (hst st) = Some nt ->
  focus (hst st) <> EmptyString ->
  find_panel (focus (hst st)) (hst st) = Some q ->
  ptype q = "modelPanel" ->
  lookup_node (pcamera q) (hst st) = Some pc ->
  shapes_of (pcamera q) (hst st) = cs :: rest ->
  attr_of cs "orthographic" (hst st) = Some o ->
  attr_of cs "orthographicWidth" (hst st) = Some w ->
  let p := unique_name (hst st) "ddSplit_tempPlane" in
  let st' := run activate_paint_tool st in
  outcome activate_paint_tool st = Val tt
  /\ temp_plane (self st') = Some p
  /\ original_camera_state (self st') = Some (CameraState (pcamera q) cs o w)
  /\ path_of p (hst st') = Some (pcamera q :: npath pc)
  /\ (forall a v, In (a, v) plane_settings -> attr_of p a (hst st') = Some v).
Proof.
  intros Ht Hne Hnt Hf Hq Hty Hcam Hsh Ho Hw.
  pose proof (attr_of_exists _ _ _ _ Ho) as Hcs.
  set (W := stored (bbox_width (nbbox nt))).
  set (st1 := State (camera_set cs W (hst st))
                    (set_original_camera_state
                       (Some (CameraState (pcamera q) cs o w)) (self st))).
  assert (E1 : setup_orthographic_camera st = (Val tt, st1)).
  { eapply setup_orthographic_camera_ok; eauto. by eapply lookup_exists. }
  destruct (lookup_node_camera_set _ cs W _ _ Hcam) as (pc' & Hcam' & Hpath).
  destruct (create_temporary_plane_ok st1 (pcamera q) cs o w W pc')
    as (st2 & E2 & S2 & X2 & P2 & A2).
  { done. }
  { simpl. by apply attr_of_camera_set. }
  { exact Hcam'. }
  simpl hst in S2, X2, P2, A2. simpl self in S2.
  rewrite (unique_name_names _ _ _ (names_camera_set cs W (hst st))) in S2, X2, P2, A2.
  destruct (activate_paint_effects_ok st2) as (st3 & E3 & Kn & _ & _ & _ & Ks).
  { intros p' Hp'. rewrite S2 in Hp'. simpl in Hp'. by injection Hp' as <-. }
  assert (E : activate_paint_tool st = (Val tt, st3)).
  { unfold activate_paint_tool. rewrite bind_gets, Ht.
    assert (Htr : truthy (Some t) = true).
    { simpl. destruct (String.eqb t EmptyString) eqn:Et; [|done].
      apply String.eqb_eq in Et. done. }
    rewrite Htr. cbn [negb].
    by rewrite (bind_val _ _ _ _ _ E1), (bind_val _ _ _ _ _ E2). }
  unfold run, outcome. rewrite E. cbn [fst snd]. cbn zeta.
  split; [done|]. rewrite Ks, S2.
  split; [done|]. split; [done|]. split.
  - unfold path_of. rewrite (lookup_node_nodes _ _ _ Kn). rewrite <- Hpath. exact P2.
  - intros a v Hin. rewrite (attr_of_nodes _ _ _ _ Kn). by apply A2.
Qed.

Lemma paint_activation_succeeds_witness :
  outcome activate_paint_tool st_setup = Val tt
  /\ path_of "ddSplit_tempPlane" (hst (run activate_paint_tool st_setup)) = Some ["persp"]
  /\ attr_of "ddSplit_tempPlane" "translateZ" (hst (run activate_paint_tool st_setup))
     = Some (-100)%Q.
Proof.
  assert (H1 : target_geo (self st_setup) = Some "pCube1") by (vm_compute; reflexivity).
  assert (H2 : "pCube1" <> EmptyString) by discriminate.
  assert (H3 : lookup_node "pCube1" (hst st_setup)
               = Some (Node "pCube1" Transform [] (<["visibility":=0%Q]> vis1) cube_box false))
    by (vm_compute; reflexivity).
  assert (H4 : focus (hst st_setup) <> EmptyString) by (vm_compute; discriminate).
  assert (H5 : find_panel (focus (hst st_setup)) (hst st_setup)
               = Some (Panel "modelPanel4" "modelPanel" true "persp" false))
    by (vm_compute; reflexivity).
  assert (H6 : ptype (Panel "modelPanel4" "modelPanel" true "persp" false) = "modelPanel")
    by reflexivity.
  assert (H7 : lookup_node (pcamera (Panel "modelPanel4" "modelPanel" true "persp" false))
                           (hst st_setup)
               = Some (Node "persp" Transform [] vis1 bbox0 false))
    by (vm_compute; reflexivity).
  assert (H8 : shapes_of (pcamera (Panel "modelPanel4" "modelPanel" true "persp" false))
                         (hst st_setup) = ["perspShape"])
    by (vm_compute; reflexivity).
  assert (H9 : attr_of "perspShape" "orthographic" (hst st_setup) = Some 0%Q)
    by (vm_compute; reflexivity).
  assert (H10 : attr_of "perspShape" "orthographicWidth" (hst st_setup) = Some 30%Q)
    by (vm_compute; reflexivity).
  assert (Hp : unique_name (hst st_setup) "ddSplit_tempPlane" = "ddSplit_tempPlane")
    by (vm_compute; reflexivity).
  destruct (paint_activation_succeeds_and_places_plane st_setup _ _ _ _ _ _ _ _
              H1 H2 H3 H4 H5 H6 H7 H8 H9 H10) as (R1 & _ & _ & R4 & R5).
  rewrite Hp in R4, R5.
  split; [exact R1|]. split; [exact R4|].
  apply R5. simpl. auto.
Defined.

(** * Claims that rest on the lemmas above *)

(** ** C4: what the session records *)

(** The projection phase of a Conversion, whether or not the duplicated
    geometry is there: it always comes back, makes no connection, records
    nothing, and the groups it adds are new nodes. *)
Lemma project_phase st :
  (forall c, In c (projection_curves (self st)) -> exists_node c (hst st) = true) ->
  exists st' groups added,
    try_catch
      (let* p := read_settings in
       let* curves := gets (fun st => projection_curves (self st)) in
       let* projected_curve_groups := fold_m (project_curve p) curves [] in
       ret tt)
      (fun e => warning ("Projection failed: " +:+ e)) st
    = (Val tt, st')
    /\ self st' = self st
    /\ extends (hst st) (hst st')
    /\ log (hst st') = added ++ log (hst st)
    /\ connect_calls added = []
    /\ names_of_kind CurveVarGroup (hst st')
       = names_of_kind CurveVarGroup (hst st) ++ groups
    /\ Forall (fun g => exists_node g (hst st) = false) groups.
Proof.
  intros Hall. unfold try_catch.
  rewrite (bind_val _ _ _ _ _ (read_settings_eq st)), bind_gets.
  destruct (projection_curves (self st)) as [|c cs] eqn:Hp.
  { exists st, [], []. simpl. rewrite app_nil_r.
    repeat split; auto using extends_refl. }
  assert (Hc : exists_node c (hst st) = true) by (apply Hall; by left).
  assert (Habs : absent (duplicated_geo (self st)) (hst st) ->
                 exists st' groups added,
                   match (let* projected_curve_groups :=
                            fold_m (project_curve (settings (hst st))) (c :: cs) [] in
                          ret tt) st with
                   | (Val a, st'0) => (Val a, st'0)
                   | (Exc e, st'0) => warning ("Projection failed: " +:+ e) st'0
                   end = (Val tt, st')
                   /\ self st' = self st
                   /\ extends (hst st) (hst st')
                   /\ log (hst st') = added ++ log (hst st)
                   /\ connect_calls added = []
                   /\ names_of_kind CurveVarGroup (hst st')
                      = names_of_kind CurveVarGroup (hst st) ++ groups
                   /\ Forall (fun g => exists_node g (hst st) = false) groups).
  { intros Ha.
    destruct (project_first_fails (settings (hst st)) c cs [] st Hc Ha) as [e E].
    rewrite (bind_exc _ _ _ _ _ E).
    exists (State (with_log (cons (Warning ("Projection failed: " +:+ e)))
                     (with_log (cons (ProjectCall c (duplicated_geo (self st))
                                                  (settings (hst st))))
                               (hst st)))
                  (self st)), [],
           [Warning ("Projection failed: " +:+ e);
            ProjectCall c (duplicated_geo (self st)) (settings (hst st))].
    unfold warning, on_host. simpl. rewrite app_nil_r.
    split; [reflexivity|]. split; [done|].
    split; [exists []; simpl; by rewrite app_nil_r|].
    repeat split; auto. }
  destruct (duplicated_geo (self st)) as [d|] eqn:Hd; [|by apply Habs].
  destruct (exists_node d (hst st)) eqn:Hex; [|by apply Habs].
  destruct (project_loop (settings (hst st)) d (c :: cs) [] st Hd Hex Hall)
    as (st3 & groups & E3 & S3 & X3 & U3 & L3 & N3 & G3 & F3 & D3).
  rewrite (bind_val _ _ _ _ _ E3).
  exists st3, groups, (rev (projections d (settings (hst st)) (c :: cs))).
  split; [done|]. split; [done|]. split; [done|]. split; [done|].
  split; [|by split].
  by destruct (projections_are_calls d (settings (hst st)) (c :: cs)) as (_ & P & _).
Qed.

(** What a Conversion records, in every scene that has a stroke. *)
Lemma convert_and_project_records st s ss :
  names_of_kind Stroke (hst st) = s :: ss ->
  exists st' curves shapes groups,
    convert_and_project st = (Val tt, st')
    /\ self st'
       = set_projection_curve
           (match curves with [] => projection_curve (self st) | c :: _ => Some c end)
           (set_projection_curves curves (self st))
    /\ length curves = length (List.filter nonempty (s :: ss))
    /\ NoDup curves
    /\ Forall (fun c => exists_node c (hst st) = false
                        /\ exists_node c (hst st') = true) curves
    /\ Forall2 (fun c sh => In sh (shapes_of c (hst st'))) curves shapes
    /\ connect_calls (log (hst st'))
       = rev (map wire (combine (List.filter nonempty (s :: ss)) shapes))
         ++ connect_calls (log (hst st))
    /\ names_of_kind CurveVarGroup (hst st')
       = names_of_kind CurveVarGroup (hst st) ++ groups
    /\ Forall (fun g => exists_node g (hst st) = false /\ ~ In g curves) groups.
Proof.
  intros Hst. unfold convert_and_project, ls_type.
  rewrite bind_gets, Hst, bind_on_self.
  set (st0 := State (hst st) (set_projection_curves [] (self st))).
  destruct (convert_loop (s :: ss) 0 st0) as (st1 & new & shapes & E1 & Cv).
  { intros x Hx. simpl. apply (names_of_kind_exist x Stroke). by rewrite Hst. }
  rewrite (bind_val _ _ _ _ _ E1).
  destruct Cv as [S1 X1 U1 N1 F1 D1 Sh1 G1 (added & L1 & Lc & Lp & Ls & Lw)].
  simpl in S1, X1, U1, F1, L1, G1.
  rewrite bind_gets. rewrite S1. simpl projection_curves.
  destruct new as [|c new].
  - simpl. exists (State (with_log (cons (Warning no_valid_curve_warning)) (hst st1))
                         (self st1)), [], shapes, [].
    split; [done|]. simpl. rewrite S1, L1, app_nil_r.
    split; [by destruct (self st)|].
    split; [done|]. split; [done|]. split; [done|]. split; [done|].
    split; [|by split].
    unfold connect_calls in *. simpl. by rewrite List.filter_app, Lc.
  - cbn [when]. rewrite bind_on_self.
    set (st2 := State (hst st1) (set_projection_curve (head (c :: new)) (self st1))).
    destruct (project_phase st2) as (st3 & groups & added3 & E3 & S3 & X3 & L3 & C3 & G3 & F3).
    { intros x Hx. unfold st2 in Hx. simpl in Hx. rewrite S1 in Hx. simpl in Hx.
      assert (Hx' : In x (c :: new)) by exact Hx.
      rewrite Forall_forall in F1. apply list_elem_of_In in Hx'. by destruct (F1 _ Hx'). }
    exists st3, (c :: new), shapes, groups.
    split; [exact E3|].
    simpl in S3, X3, L3, G3, F3.
    split; [rewrite S3, S1; by destruct (self st)|].
    split; [done|]. split; [done|]. split.
    { eapply Forall_impl; [exact F1|]. simpl. intros x [H1 H2].
      split; [done|]. eapply extends_exists; eauto. }
    split.
    { eapply Forall2_impl; [exact Sh1|]. simpl. intros x y H.
      eapply extends_shapes_of; eauto. }
    split.
    { rewrite L3, L1. unfold connect_calls in *.
      by rewrite !List.filter_app, C3, Lc. }
    split; [by rewrite G3, G1|].
    rewrite Forall_forall in F3. rewrite Forall_forall in F1.
    apply Forall_forall. intros g Hg. specialize (F3 g Hg). split.
    + eapply extends_fresh; eauto.
    + intros Hin. apply list_elem_of_In in Hin. destruct (F1 _ Hin) as [_ Hex].
      congruence.
Qed.

(** C4, amended.  The session records the duplicate Setup makes and the
    plane Paint Activation makes, each a new node of the scene.  A
    Conversion, in every scene with a stroke and whether or not its
    projections succeed, records one reference curve per valid stroke, all
    new nodes and no two the same, and each connection it makes from a
    stroke goes to a shape of the recorded curve of that stroke; it
    records nothing else: the curve-variation groups it adds to the scene
    are new nodes, none of them is among the recorded curves, and the
    other fields of the session stay as they were but for the first curve.
    Finish and Cancel never fail; every delete they ask for is of a node
    that is in the scene at that moment, and no node is deleted twice. *)
Theorem tracked_nodes_and_guarded_deletes st :
  (forall t rest,
      selected_of_kind Transform (hst st) = t :: rest ->
      let st' := run setup_geometry st in
      exists d, duplicated_geo (self st') = Some d
                /\ exists_node d (hst st) = false /\ exists_node d (hst st') = true)
  /\ (forall st',
         truthy (target_geo (self st)) = true ->
         activate_paint_tool st = (Val tt, st') ->
         exists p, temp_plane (self st') = Some p
                   /\ exists_node p (hst st) = false /\ exists_node p (hst st') = true)
  /\ (forall s ss,
         names_of_kind Stroke (hst st) = s :: ss ->
         let st' := run convert_and_project st in
         let curves := projection_curves (self st') in
         let valid := List.filter nonempty (s :: ss) in
         outcome convert_and_project st = Val tt
         /\ length curves = length valid
         /\ NoDup curves
         /\ Forall (fun c => exists_node c (hst st) = false
                             /\ exists_node c (hst st') = true) curves
         /\ (exists shapes,
                Forall2 (fun c sh => In sh (shapes_of c (hst st'))) curves shapes
                /\ connect_calls (log (hst st'))
                   = rev (map wire (combine valid shapes))
                     ++ connect_calls (log (hst st)))
         /\ (exists groups,
                names_of_kind CurveVarGroup (hst st')
                = names_of_kind CurveVarGroup (hst st) ++ groups
                /\ Forall (fun g => exists_node g (hst st) = false
                                    /\ ~ In g curves) groups)
         /\ target_geo (self st') = target_geo (self st)
         /\ duplicated_geo (self st') = duplicated_geo (self st)
         /\ temp_plane (self st') = temp_plane (self st)
         /\ pfx_stroke (self st') = pfx_stroke (self st)
         /\ projection_curve (self st')
            = match curves with [] => projection_curve (self st) | c :: _ => Some c end)
  /\ (let st' := run finish_and_cleanup st in
      outcome finish_and_cleanup st = Val tt
      /\ exists dels hist,
          log (hst st') = delete_calls dels ++ hist ++ log (hst st)
          /\ only_history hist
          /\ NoDup dels
          /\ forall x, In x dels -> exists_node x (hst st) = true /\ gone x (hst st'))
  /\ (let st' := run cancel_operation st in
      outcome cancel_operation st = Val tt
      /\ exists dels,
          log (hst st') = delete_calls dels ++ log (hst st)
          /\ NoDup dels
          /\ forall x, In x dels -> exists_node x (hst st) = true /\ gone x (hst st')).
Proof.
  split; [|split; [|split; [|split]]].
  - intros t rest Hsel. pose proof (setup_geometry_spec st) as S. rewrite Hsel in S.
    destruct S as (_ & _ & Hd & Hf & He & _). eauto.
  - intros st' Ht H.
    destruct (activate_paint_tool_inv st st' Ht H)
      as (cam & cs & o & w & t & nt & pn & _ & _ & _ & _ & Hs & _ & Hp & Hpf & _).
    exists (unique_name (hst st) "ddSplit_tempPlane"). by rewrite Hs.
  - intros s ss Hst.
    destruct (convert_and_project_records st s ss Hst)
      as (st' & curves & shapes & groups & E & S & N & D & F & Sh & L & G & U).
    unfold run, outcome. rewrite E. cbn [fst snd]. cbn zeta. rewrite S. simpl.
    split; [done|]. split; [done|]. split; [done|]. split; [done|].
    split; [by exists shapes|]. split; [by exists groups|]. done.
  - apply finish_deletes.
  - apply cancel_deletes.
Qed.

Lemma tracked_nodes_witness :
  selected_of_kind Transform (hst st_idle) = ["pCube1"]
  /\ names_of_kind Stroke (hst st_painted)
     = ["strokeShapeDefaultPaint1"; "strokeShapeDefaultPaint2"]
  /\ (exists d, duplicated_geo (self st_setup) = Some d
                /\ exists_node d (hst st_idle) = false
                /\ exists_node d (hst st_setup) = true)
  /\ length (projection_curves (self (run convert_and_project st_painted))) = 2.
Proof.
  assert (Hs : selected_of_kind Transform (hst st_idle) = ["pCube1"])
    by (vm_compute; reflexivity).
  assert (Hk : names_of_kind Stroke (hst st_painted)
               = ["strokeShapeDefaultPaint1"; "strokeShapeDefaultPaint2"])
    by (vm_compute; reflexivity).
  split; [exact Hs|]. split; [exact Hk|].
  destruct (tracked_nodes_and_guarded_deletes st_idle) as (H & _).
  split; [exact (H "pCube1" [] Hs)|].
  destruct (tracked_nodes_and_guarded_deletes st_painted) as (_ & _ & H3 & _).
  destruct (H3 _ _ Hk) as (_ & Hn & _).
  rewrite Hn. vm_compute. reflexivity.
Defined.

(** ** C8: soft failures, and what else stops a stage *)

(** C8, amended.  A soft operation that fails is caught, and the stage
    goes on with the built-in value: a projection setting whose control
    cannot be read is 50 samples, tolerance 0.001, no points on edges,
    automatic; the detach option is on, so the split option is 2; the keep
    option is off.  The preset, the wire context and the paint command may
    all be missing, and the status text too.  Each of the four entry checks
    stops its stage: no transform selected, no target, no stroke, no
    curve-variation group; each gives one warning and leaves everything
    else as it was.  They are not all that stops a stage: with its entry
    check passed, Paint Activation raises when there is no model panel, and
    nothing is changed. *)
Theorem soft_failures_fall_back st :
  read_settings st = (Val (settings (hst st)), st)
  /\ (controls (hst st) !! "curveSamples" = None ->
      settings (hst st) = ProjParams 50 (1 # 1000) false true)
  /\ (controls (hst st) !! "projTolerance" = None ->
      tolerance (settings (hst st)) = (1 # 1000)%Q
      /\ pointsOnEdges (settings (hst st)) = false
      /\ automatic (settings (hst st)) = true)
  /\ (controls (hst st) !! "pointsOnEdges" = None ->
      pointsOnEdges (settings (hst st)) = false /\ automatic (settings (hst st)) = true)
  /\ (controls (hst st) !! "automatic" = None -> automatic (settings (hst st)) = true)
  /\ try_assign [fun _ => checkBox_query "detachEdges"] true st
     = (Val (checkbox_or true "detachEdges" (hst st)), st)
  /\ (controls (hst st) !! "detachEdges" = None -> split_operation (hst st) = 2%Z)
  /\ try_assign [fun _ => checkBox_query "keepHistory"] false st
     = (Val (checkbox_or false "keepHistory" (hst st)), st)
  /\ (controls (hst st) !! "keepHistory" = None ->
      checkbox_or false "keepHistory" (hst st) = false)
  /\ ((forall p, temp_plane (self st) = Some p -> exists_node p (hst st) = true) ->
      exists st', activate_paint_effects st = (Val tt, st') /\ scene_kept st st')
  /\ (forall label,
         exists st', try_catch (text_edit "status_text" label) pass st = (Val tt, st')
                     /\ nodes (hst st') = nodes (hst st)
                     /\ log (hst st') = log (hst st)
                     /\ self st' = self st)
  /\ (selected_of_kind Transform (hst st) = [] ->
      setup_geometry st
      = (Val tt, State (with_log (cons (Warning no_selection_warning)) (hst st)) (self st)))
  /\ (truthy (target_geo (self st)) = false ->
      activate_paint_tool st
      = (Val tt, State (with_log (cons (Warning no_target_warning)) (hst st)) (self st)))
  /\ (names_of_kind Stroke (hst st) = [] ->
      convert_and_project st
      = (Val tt, State (with_log (cons (Warning no_stroke_warning)) (hst st)) (self st)))
  /\ (names_of_kind CurveVarGroup (hst st) = [] ->
      execute_split st
      = (Val tt, State (with_log (cons (Warning no_curve_warning)) (hst st)) (self st)))
  /\ (truthy (target_geo (self st)) = true ->
      (forall q, In q (panels (hst st)) -> ptype q <> "modelPanel") ->
      focus (hst st) = EmptyString \/ is_Some (find_panel (focus (hst st)) (hst st)) ->
      exists e, activate_paint_tool st = (Exc e, st)).
Proof.
  destruct (settings_defaults (hst st)) as (D1 & D2 & D3 & D4).
  split; [apply read_settings_eq|]. split; [exact D1|]. split; [exact D2|].
  split; [exact D3|]. split; [exact D4|].
  split; [apply keep_query|].
  split; [intros H; unfold split_operation; by rewrite checkbox_or_missing|].
  split; [apply keep_query|].
  split; [apply checkbox_or_missing|].
  split; [apply activate_paint_effects_ok|].
  split; [intros label; apply status_text_ok|].
  split.
  { intros H. pose proof (setup_geometry_spec st) as S. by rewrite H in S. }
  split; [apply activate_paint_tool_blocked|].
  split.
  { intros H. pose proof (convert_and_project_spec st) as S. by rewrite H in S. }
  split.
  { intros H. pose proof (execute_split_spec st) as S. by rewrite H in S. }
  intros Ht Hno Hf. eexists.
  unfold activate_paint_tool. rewrite bind_gets, Ht. cbn [negb].
  erewrite bind_exc; [reflexivity|].
  unfold setup_orthographic_camera.
  rewrite (bind_val _ _ _ _ _ (current_model_panel_none st Hno Hf)).
  reflexivity.
Qed.

Lemma soft_failures_witness :
  controls (hst st_bare) !! "curveSamples" = None
  /\ controls (hst st_bare) !! "detachEdges" = None
  /\ settings (hst st_bare) = ProjParams 50 (1 # 1000) false true
  /\ split_operation (hst st_bare) = 2%Z
  /\ (exists st', activate_paint_effects st_bare = (Val tt, st') /\ scene_kept st_bare st')
  /\ truthy (target_geo (self st_no_panel)) = true
  /\ exists e, activate_paint_tool st_no_panel = (Exc e, st_no_panel).
Proof.
  destruct (soft_failures_fall_back st_bare)
    as (_ & H1 & _ & _ & _ & _ & H2 & _ & _ & H3 & _).
  assert (C1 : controls (hst st_bare) !! "curveSamples" = None) by reflexivity.
  assert (C2 : controls (hst st_bare) !! "detachEdges" = None) by reflexivity.
  split; [exact C1|]. split; [exact C2|].
  split; [exact (H1 C1)|]. split; [exact (H2 C2)|].
  split.
  { apply H3. intros p Hp.
    assert (Hplane : temp_plane (self st_bare) = Some "ddSplit_tempPlane")
      by (vm_compute; reflexivity).
    rewrite Hplane in Hp. injection Hp as <-. vm_compute. reflexivity. }
  assert (T : truthy (target_geo (self st_no_panel)) = true) by (vm_compute; reflexivity).
  assert (P : forall q, In q (panels (hst st_no_panel)) -> ptype q <> "modelPanel").
  { intros q [<-|[]]. discriminate. }
  assert (F : focus (hst st_no_panel) = EmptyString
              \/ is_Some (find_panel (focus (hst st_no_panel)) (hst st_no_panel))).
  { right. eexists. vm_compute. reflexivity. }
  split; [exact T|].
  destruct (soft_failures_fall_back st_no_panel)
    as (_ & _ & _ & _ & _ & _ & _ & _ & _ & _ & _ & _ & _ & _ & _ & H4).
  exact (H4 T P F).
Defined.

(** C8 as stated fails: with a target set up, so that the entry check of
    Paint Activation passes, but no model panel, the activation raises and
    the stage is not entered. *)
Lemma activation_stopped_past_entry_check :
  truthy (target_geo (self st_no_panel)) = true
  /\ panels (hst st_no_panel) = [Panel "modelPanel4" "outlinerPanel" true "persp" false]
  /\ activate_paint_tool st_no_panel = (Exc "modelPanel: no panel", st_no_panel).
Proof. vm_compute. repeat split. Qed.
